(** * The WinRT video-capture stream sink

    A shallow embedding of [VideoCaptureStreamSinkWinRT]
    (webrtc/modules/video_capture/windows/video_capture_sink_winrt.cc):
    the state-by-operation validity matrix, the public operations of the
    stream sink, its sample queue and the work items its serial work queue
    executes; and, of the same file, the media sink
    [VideoCaptureMediaSinkWinRT] that owns the stream sink, with its
    presentation clock and its callback, and the proxy
    [VideoCaptureMediaSinkProxyWinRT] that makes the media sink.

    Conventions of the embedding.
    - A call made under the sink's critical section is one atomic
      function on the [Sink] record.  The execution of one work item is
      given twice: as the function [OnDispatchWorkItem], run to
      completion, and cut at the points where the worker takes or
      releases the critical section ([worker_section]), so that calls of
      other threads can come in between ([irun]).  The first is one
      schedule of the second ([work_item_in_sections]).
    - The platform objects the sink talks to are part of the record:
      the events accepted by the media event queue ([events]), the work
      items put on the serial work queue ([workItems]) and the samples
      handed to the sink callback ([delivered]).  The platform calls
      themselves ([QueueEventParamVar], [MFPutWorkItem2],
      [MFCreateMediaType], [CopyAllItems]) are taken to succeed.
    - [assert] is compiled out (release build); the one assertion the
      development talks about is kept as a predicate of its own.
    - Where the source calls through a pointer it has not tested
      ([_spStreamSink] in the clock notifications and in the media sink's
      [Shutdown]), the call has no result when the pointer is null: the
      method returns an [option].
    - What an object outside the file answers, where the source acts on
      the answer, is an argument of the method: the results of
      [RemoveClockStateSink] and [AddClockStateSink], and the media type
      or exception that the conversion of the encoding properties
      yields. *)

From stdpp Require Import base tactics option list.
From Stdlib Require Import ZArith Bool Lia.

Local Open Scope Z_scope.

(** ** Result codes *)

(** The [HRESULT] values the stream sink produces.  [SUCCEEDED] holds of
    [S_OK] only; every other code here has its severity bit set. *)
Inductive HRESULT : Type :=
| S_OK
| E_INVALIDARG
| E_OUTOFMEMORY
| MF_E_SHUTDOWN
| MF_E_NOT_INITIALIZED
| MF_E_INVALIDREQUEST
| MF_E_INVALIDTYPE
| MF_E_ATTRIBUTENOTFOUND
| MF_E_INVALIDSTREAMNUMBER
| MF_E_STREAMSINK_EXISTS.

Definition SUCCEEDED (hr : HRESULT) : bool :=
  match hr with S_OK => true | _ => false end.

Definition FAILED (hr : HRESULT) : bool := negb (SUCCEEDED hr).

#[global] Instance HRESULT_eq_dec : EqDecision HRESULT.
Proof. solve_decision. Defined.

(** ** Stream states and operations *)

(** Modelled from the spec: the header video_capture_sink_winrt.h is
    missing; it declares the enum of stream states, in the order of the
    rows of [ValidStateMatrix] (NotSet, Ready, Started, Paused, Stopped,
    then [State_Count]). *)
Inductive State : Type :=
| State_TypeNotSet
| State_Ready
| State_Started
| State_Paused
| State_Stopped.

(** Modelled from the spec: the enum of stream operations of the missing
    header, in the order of the columns of [ValidStateMatrix] (SetType,
    Start, Restart, Pause, Stop, Sample, then [Op_Count]). *)
Inductive StreamOperation : Type :=
| OpSetMediaType
| OpStart
| OpRestart
| OpPause
| OpStop
| OpProcessSample.

#[global] Instance State_eq_dec : EqDecision State.
Proof. solve_decision. Defined.

#[global] Instance StreamOperation_eq_dec : EqDecision StreamOperation.
Proof. solve_decision. Defined.

(** The ordinal of an enumerator, used to index the matrix and to compare
    states ([_state >= State_Ready]). *)
Definition State_ord (st : State) : nat :=
  match st with
  | State_TypeNotSet => 0
  | State_Ready => 1
  | State_Started => 2
  | State_Paused => 3
  | State_Stopped => 4
  end.

Definition Op_ord (op : StreamOperation) : nat :=
  match op with
  | OpSetMediaType => 0
  | OpStart => 1
  | OpRestart => 2
  | OpPause => 3
  | OpStop => 4
  | OpProcessSample => 5
  end.

Definition State_Count : nat := 5.
Definition Op_Count : nat := 6.

(** ** Media types, samples, queue items, events *)

Definition GUID : Type := nat.

Definition GUID_NULL : GUID := 0%nat.
Definition MFMediaType_Video : GUID := 1%nat.

(** An [IMFMediaType] is an attribute store.  The sink reads two of its
    attributes, either of which may be absent ([GetGUID] fails); the
    others (frame size, frame rate, ...) are carried along by
    [CopyAllItems]. *)
Record MediaType : Type := mkMediaType {
  MF_MT_MAJOR_TYPE : option GUID;
  MF_MT_SUBTYPE : option GUID;
  mt_items : list (nat * nat)
}.

#[global] Instance MediaType_eq_dec : EqDecision MediaType.
Proof. solve_decision. Defined.

(** An [IMFSample]: an identity and the media buffers it holds. *)
Record Sample : Type := mkSample {
  sample_id : nat;
  sample_buffers : list nat
}.

#[global] Instance Sample_eq_dec : EqDecision Sample.
Proof. solve_decision. Defined.

(** [IMFSample::GetBufferByIndex]. *)
Definition GetBufferByIndex (smp : Sample) (i : nat) : option nat :=
  sample_buffers smp !! i.

(** The queue holds [IUnknown] pointers: samples pushed by
    [ProcessSample] and media types pushed by [ProcessFormatChange]. *)
Inductive Item : Type :=
| ItemSample (smp : Sample)
| ItemMediaType (mt : MediaType).

#[global] Instance Item_eq_dec : EqDecision Item.
Proof. solve_decision. Defined.

(** [spunkSample.As(&spSample)]: the query for [IMFSample] succeeds on a
    sample and fails on a media type. *)
Definition As_IMFSample (it : Item) : option Sample :=
  match it with
  | ItemSample smp => Some smp
  | ItemMediaType _ => None
  end.

Inductive Event : Type :=
| MEStreamSinkStarted
| MEStreamSinkStopped
| MEStreamSinkPaused
| MEStreamSinkRequestSample
| MEError (hrStatus : HRESULT).

#[global] Instance Event_eq_dec : EqDecision Event.
Proof. solve_decision. Defined.

Definition MFTIME : Type := Z.

Definition PRESENTATION_CURRENT_POSITION : MFTIME := 0x7fffffffffffffff.

(** ** The stream sink *)

Record Sink : Type := mkSink {
  _state : State;
  _isShutdown : bool;
  _fGetStartTimeFromSample : bool;
  _startTime : MFTIME;
  _guiCurrentSubtype : GUID;
  _spCurrentType : option MediaType;
  _sampleQueue : list Item;
  (* the platform objects *)
  events : list Event;
  workItems : list StreamOperation;
  delivered : list Sample
}.

#[global] Instance Sink_eq_dec : EqDecision Sink.
Proof. solve_decision. Defined.

Definition set_state (v : State) (s : Sink) : Sink :=
  mkSink v (_isShutdown s) (_fGetStartTimeFromSample s) (_startTime s)
    (_guiCurrentSubtype s) (_spCurrentType s) (_sampleQueue s)
    (events s) (workItems s) (delivered s).

Definition set_isShutdown (v : bool) (s : Sink) : Sink :=
  mkSink (_state s) v (_fGetStartTimeFromSample s) (_startTime s)
    (_guiCurrentSubtype s) (_spCurrentType s) (_sampleQueue s)
    (events s) (workItems s) (delivered s).

Definition set_fGetStartTimeFromSample (v : bool) (s : Sink) : Sink :=
  mkSink (_state s) (_isShutdown s) v (_startTime s)
    (_guiCurrentSubtype s) (_spCurrentType s) (_sampleQueue s)
    (events s) (workItems s) (delivered s).

Definition set_startTime (v : MFTIME) (s : Sink) : Sink :=
  mkSink (_state s) (_isShutdown s) (_fGetStartTimeFromSample s) v
    (_guiCurrentSubtype s) (_spCurrentType s) (_sampleQueue s)
    (events s) (workItems s) (delivered s).

Definition set_guiCurrentSubtype (v : GUID) (s : Sink) : Sink :=
  mkSink (_state s) (_isShutdown s) (_fGetStartTimeFromSample s) (_startTime s)
    v (_spCurrentType s) (_sampleQueue s)
    (events s) (workItems s) (delivered s).

Definition set_spCurrentType (v : option MediaType) (s : Sink) : Sink :=
  mkSink (_state s) (_isShutdown s) (_fGetStartTimeFromSample s) (_startTime s)
    (_guiCurrentSubtype s) v (_sampleQueue s)
    (events s) (workItems s) (delivered s).

Definition set_sampleQueue (v : list Item) (s : Sink) : Sink :=
  mkSink (_state s) (_isShutdown s) (_fGetStartTimeFromSample s) (_startTime s)
    (_guiCurrentSubtype s) (_spCurrentType s) v
    (events s) (workItems s) (delivered s).

Definition set_events (v : list Event) (s : Sink) : Sink :=
  mkSink (_state s) (_isShutdown s) (_fGetStartTimeFromSample s) (_startTime s)
    (_guiCurrentSubtype s) (_spCurrentType s) (_sampleQueue s)
    v (workItems s) (delivered s).

Definition set_workItems (v : list StreamOperation) (s : Sink) : Sink :=
  mkSink (_state s) (_isShutdown s) (_fGetStartTimeFromSample s) (_startTime s)
    (_guiCurrentSubtype s) (_spCurrentType s) (_sampleQueue s)
    (events s) v (delivered s).

Definition set_delivered (v : list Sample) (s : Sink) : Sink :=
  mkSink (_state s) (_isShutdown s) (_fGetStartTimeFromSample s) (_startTime s)
    (_guiCurrentSubtype s) (_spCurrentType s) (_sampleQueue s)
    (events s) (workItems s) v.

(** The constructor followed by a successful [Initialize]: no type set,
    nothing queued, and [_guiCurrentSubtype] zeroed. *)
Definition new_sink : Sink :=
  mkSink State_TypeNotSet false false 0 GUID_NULL None [] [] [] [].

(** ** The validity matrix *)

(** [ValidStateMatrix[State_Count][Op_Count]], row by row as in the
    source. *)
Definition ValidStateMatrix : list (list bool) :=
  (* States:    Operations:
                SetType  Start  Restart  Pause  Stop  Sample *)
  [ (* NotSet *) [true; false; false; false; false; false];
    (* Ready *)  [true; true; false; true; true; false];
    (* Start *)  [true; true; false; true; true; true];
    (* Pause *)  [true; true; true; true; true; true];
    (* Stop *)   [true; true; false; false; true; false] ].

Definition matrix_entry (st : State) (op : StreamOperation) : bool :=
  nth (Op_ord op) (nth (State_ord st) ValidStateMatrix []) false.

(** The assertion at the head of [ValidateOperation]. *)
Definition ValidateOperation_assert (s : Sink) : Prop :=
  _isShutdown s = false.

(** Checks if an operation is valid in the current state. *)
Definition ValidateOperation (op : StreamOperation) (s : Sink) : HRESULT :=
  if matrix_entry (_state s) op then S_OK
  else if decide (_state s = State_TypeNotSet) then MF_E_NOT_INITIALIZED
  else MF_E_INVALIDREQUEST.

(** The table of section 4.1 of the specification, entry by entry. *)
Definition spec_table (st : State) (op : StreamOperation) : bool :=
  match st, op with
  | State_TypeNotSet, OpSetMediaType => true
  | State_TypeNotSet, _ => false
  | State_Ready, (OpRestart | OpProcessSample) => false
  | State_Ready, _ => true
  | State_Started, OpRestart => false
  | State_Started, _ => true
  | State_Paused, _ => true
  | State_Stopped, (OpSetMediaType | OpStart | OpStop) => true
  | State_Stopped, _ => false
  end.

(** ** Calls that may throw *)

(** [ThrowIfError] and [Throw] raise a [Platform::Exception] carrying an
    [HRESULT]; the state reached before the throw is kept, as in the
    source, where nothing is rolled back. *)
Inductive Outcome (A : Type) : Type :=
| Normal (a : A)
| Thrown (hr : HRESULT).

Arguments Normal {A} a.
Arguments Thrown {A} hr.

Definition M (A : Type) : Type := Sink -> Outcome A * Sink.

Definition ret {A} (a : A) : M A := fun s => (Normal a, s).

Definition bind {A B} (m : M A) (k : A -> M B) : M B :=
  fun s =>
    match m s with
    | (Normal a, s') => k a s'
    | (Thrown hr, s') => (Thrown hr, s')
    end.

(** stdpp's monad notations: [x ← m; k] and [m ;; k]. *)
#[global] Instance M_ret : MRet M := @ret.
#[global] Instance M_bind : MBind M := fun A B k m => bind m k.

Definition Throw {A} (hr : HRESULT) : M A := fun s => (Thrown hr, s).

Definition ThrowIfError (hr : HRESULT) : M unit :=
  if FAILED hr then Throw hr else ret tt.

(** A call that returns an [HRESULT] and cannot throw. *)
Definition call (f : Sink -> HRESULT * Sink) : M HRESULT :=
  fun s => let '(hr, s') := f s in (Normal hr, s').

(** A plain update of the sink. *)
Definition modify (f : Sink -> Sink) : M unit := fun s => (Normal tt, f s).

Definition get : M Sink := fun s => (Normal s, s).

(** [try { body } catch (Platform::Exception ^exc) { hr = exc->HResult; }]
    with [hr] initialised to [S_OK]. *)
Definition try_catch_hr (body : M unit) (s : Sink) : HRESULT * Sink :=
  match body s with
  | (Normal _, s') => (S_OK, s')
  | (Thrown hr, s') => (hr, s')
  end.

(** ** Platform calls *)

(** [QueueEvent]: refused after shutdown, otherwise the event is put on
    the media event queue. *)
Definition QueueEvent (met : Event) (s : Sink) : HRESULT * Sink :=
  let hr := if _isShutdown s then MF_E_SHUTDOWN else S_OK in
  if SUCCEEDED hr then (S_OK, set_events (events s ++ [met]) s)
  else (hr, s).

(** Puts an async operation on the work queue. *)
Definition QueueAsyncOperation (op : StreamOperation) (s : Sink)
  : HRESULT * Sink :=
  (S_OK, set_workItems (workItems s ++ [op]) s).

(** [_callback->OnSample(ref new MediaSampleEventArgs(spSample))]. *)
Definition OnSample (spSample : Sample) : M unit :=
  modify (fun s => set_delivered (delivered s ++ [spSample]) s).

(** ** Public operations *)

(** We received a sample from an upstream component. *)
Definition ProcessSample (pSample : option Sample) (s : Sink)
  : HRESULT * Sink :=
  match pSample with
  | None => (E_INVALIDARG, s)
  | Some smp =>
      let hr := if _isShutdown s then MF_E_SHUTDOWN else S_OK in
      (* Validate the operation. *)
      let hr := if SUCCEEDED hr then ValidateOperation OpProcessSample s
                else hr in
      if SUCCEEDED hr then
        (* Add the sample to the sample queue. *)
        let s1 := set_sampleQueue (_sampleQueue s ++ [ItemSample smp]) s in
        (* Unless we are paused, start an async operation to dispatch the
           next sample. *)
        if decide (_state s1 <> State_Paused)
        then QueueAsyncOperation OpProcessSample s1
        else (hr, s1)
      else (hr, s)
  end.

(** Check if a media type is supported. *)
Definition IsMediaTypeSupported (pMediaType : option MediaType) (s : Sink)
  : HRESULT :=
  match pMediaType with
  | None => E_INVALIDARG
  | Some mt =>
      let hr := if _isShutdown s then MF_E_SHUTDOWN else S_OK in
      let '(hr, majorType) :=
        if SUCCEEDED hr then
          match MF_MT_MAJOR_TYPE mt with
          | Some g => (S_OK, g)
          | None => (MF_E_ATTRIBUTENOTFOUND, GUID_NULL)
          end
        else (hr, GUID_NULL) in
      (* First make sure it's video or audio type. *)
      let hr :=
        if SUCCEEDED hr then
          if decide (majorType <> MFMediaType_Video) then MF_E_INVALIDTYPE
          else hr
        else hr in
      if SUCCEEDED hr && bool_decide (_spCurrentType s <> None) then
        match MF_MT_SUBTYPE mt with
        | None => MF_E_INVALIDTYPE
        | Some guiNewSubtype =>
            if decide (guiNewSubtype <> _guiCurrentSubtype s)
            then MF_E_INVALIDTYPE else hr
        end
      else hr
  end.

Arguments IsMediaTypeSupported : simpl never.

(** [MFCreateMediaType]: a fresh, empty attribute store. *)
Definition empty_MediaType : MediaType := mkMediaType None None [].

(** Processing format change. *)
Definition ProcessFormatChange (pMediaType : MediaType) : M unit :=
  (* Add the media type to the sample queue. *)
  modify (fun s =>
    set_sampleQueue (_sampleQueue s ++ [ItemMediaType pMediaType]) s) ;;
  (* Queue the operation. *)
  hr ← call (QueueAsyncOperation OpSetMediaType);
  ThrowIfError hr.

(** Set the current media type. *)
Definition SetCurrentMediaType_body (pMediaType : option MediaType)
  : M unit :=
  match pMediaType with
  | None => Throw E_INVALIDARG
  | Some mt =>
      s ← get;
      ThrowIfError (if _isShutdown s then MF_E_SHUTDOWN else S_OK) ;;
      ThrowIfError (ValidateOperation OpSetMediaType s) ;;
      (* We set media type already *)
      (if decide (1 <= State_ord (_state s))%nat
       then ThrowIfError (IsMediaTypeSupported (Some mt) s)
       else ret tt) ;;
      modify (set_spCurrentType (Some empty_MediaType)) ;;
      modify (set_spCurrentType (Some mt)) ;;
      match MF_MT_SUBTYPE mt with
      | None => Throw MF_E_ATTRIBUTENOTFOUND
      | Some g => modify (set_guiCurrentSubtype g)
      end ;;
      if decide (State_ord (_state s) < 1)%nat
      then modify (set_state State_Ready)
      else if decide (1 < State_ord (_state s))%nat
      then ProcessFormatChange mt
      else ret tt
  end.

Definition SetCurrentMediaType (pMediaType : option MediaType) (s : Sink)
  : HRESULT * Sink :=
  try_catch_hr (SetCurrentMediaType_body pMediaType) s.

(** Called when the presentation clock starts. *)
Definition Start (start : MFTIME) (s : Sink) : HRESULT * Sink :=
  let hr := ValidateOperation OpStart s in
  if SUCCEEDED hr then
    let s1 :=
      if decide (start <> PRESENTATION_CURRENT_POSITION)
      then set_fGetStartTimeFromSample false (set_startTime start s)
      else set_fGetStartTimeFromSample true s in
    QueueAsyncOperation OpStart (set_state State_Started s1)
  else (hr, s).

(** Called when the presentation clock stops. *)
Definition Stop (s : Sink) : HRESULT * Sink :=
  let hr := ValidateOperation OpStop s in
  if SUCCEEDED hr then
    QueueAsyncOperation OpStop (set_state State_Stopped s)
  else (hr, s).

(** Called when the presentation clock pauses. *)
Definition Pause (s : Sink) : HRESULT * Sink :=
  let hr := ValidateOperation OpPause s in
  if SUCCEEDED hr then
    QueueAsyncOperation OpPause (set_state State_Paused s)
  else (hr, s).

(** Called when the presentation clock restarts. *)
Definition Restart (s : Sink) : HRESULT * Sink :=
  let hr := ValidateOperation OpRestart s in
  if SUCCEEDED hr then
    QueueAsyncOperation OpRestart (set_state State_Started s)
  else (hr, s).

(** Shuts down the stream sink. *)
Definition Shutdown (s : Sink) : HRESULT * Sink :=
  if negb (_isShutdown s) then
    (S_OK,
     set_isShutdown true
       (set_spCurrentType None
          (set_sampleQueue [] s)))
  else (S_OK, s).

(** ** The worker *)

(** The unlocked half of one iteration of the drain loop: [None] is the
    [break] taken when the sample has no buffer, [Some b] carries
    [fProcessingSample]. *)
Definition deliver_item (fFlush : bool) (spunkSample : Item)
  : M (option bool) :=
  match As_IMFSample spunkSample with
  | Some spSample =>
      match GetBufferByIndex spSample 0 with
      | None => ret None
      | Some _ =>
          OnSample spSample ;;
          ret (Some (if negb fFlush then true else false))
      end
  | None => ret (Some false)
  end.

(** The head of the locked half: if we are still in started state request
    another sample. *)
Definition request_if_started (fProcessingSample : bool) : M unit :=
  s ← get;
  if bool_decide (_state s = State_Started) && fProcessingSample
     && negb (_isShutdown s)
  then hr ← call (QueueEvent MEStreamSinkRequestSample); ThrowIfError hr
  else ret tt.

(** The [while (fSendSamples)] loop.  [queue] is the content of
    [_sampleQueue] when the iteration starts; it is passed along so that
    the recursion is structural, and written back at every [pop].  The
    result is [fNeedMoreSamples]. *)
Fixpoint drain_loop (fFlush : bool) (spunkSample : Item) (queue : list Item)
  : M bool :=
  r ← deliver_item fFlush spunkSample;
  match r with
  | None => ret false
  | Some fProcessingSample =>
      request_if_started fProcessingSample ;;
      match queue with
      | [] => ret true
      | next :: rest =>
          modify (set_sampleQueue rest) ;;
          drain_loop fFlush next rest
      end
  end.

Definition ProcessSamplesFromQueue (fFlush : bool) : M bool :=
  s ← get;
  match _sampleQueue s with
  | [] => ret true
  | spunkSample :: rest =>
      modify (set_sampleQueue rest) ;;
      drain_loop fFlush spunkSample rest
  end.

(** Drop samples in the queue. *)
Definition DropSamplesFromQueue : M bool :=
  ProcessSamplesFromQueue true ;; ret true.

(** Send sample from the queue. *)
Definition SendSampleFromQueue : M bool :=
  ProcessSamplesFromQueue false.

(** Complete a ProcessSample request. *)
Definition DispatchProcessSample (m_op : StreamOperation) : M unit :=
  fRequestMoreSamples ← SendSampleFromQueue;
  s ← get;
  (* Ask for another sample *)
  if fRequestMoreSamples && negb (_isShutdown s) then
    if decide (m_op = OpProcessSample)
    then hr ← call (QueueEvent MEStreamSinkRequestSample); ThrowIfError hr
    else ret tt
  else ret tt.

Definition HandleError (hr : HRESULT) (s : Sink) : Sink :=
  if negb (_isShutdown s) then snd (QueueEvent (MEError hr) s) else s.

Definition OnDispatchWorkItem_body (op : StreamOperation) : M unit :=
  match op with
  | OpStart | OpRestart =>
      (* Send MEStreamSinkStarted. *)
      hr ← call (QueueEvent MEStreamSinkStarted);
      ThrowIfError hr ;;
      (* There might be samples queue from earlier (ie, while paused). *)
      fRequestMoreSamples ← DropSamplesFromQueue;
      s ← get;
      if fRequestMoreSamples && negb (_isShutdown s)
      then hr ← call (QueueEvent MEStreamSinkRequestSample);
           ThrowIfError hr
      else ret tt
  | OpStop =>
      (* Drop samples from queue. *)
      DropSamplesFromQueue ;;
      (* Send the event even if the previous call failed. *)
      hr ← call (QueueEvent MEStreamSinkStopped);
      ThrowIfError hr
  | OpPause =>
      hr ← call (QueueEvent MEStreamSinkPaused);
      ThrowIfError hr
  | OpProcessSample | OpSetMediaType =>
      DispatchProcessSample op
  end.

Definition OnDispatchWorkItem (op : StreamOperation) (s : Sink) : Sink :=
  match OnDispatchWorkItem_body op s with
  | (Normal _, s') => s'
  | (Thrown hr, s') => HandleError hr s'
  end.

(** Discards all samples that were not processed yet. *)
Definition Flush (s : Sink) : HRESULT * Sink :=
  try_catch_hr
    (ThrowIfError (if _isShutdown s then MF_E_SHUTDOWN else S_OK) ;;
     DropSamplesFromQueue ;; ret tt) s.

(** ** Runs of the sink *)

(** The serial work queue hands its oldest item to [OnDispatchWorkItem];
    with nothing pending the worker does not run. *)
Definition worker_step (s : Sink) : option Sink :=
  match workItems s with
  | [] => None
  | op :: rest => Some (OnDispatchWorkItem op (set_workItems rest s))
  end.

Inductive Action : Type :=
| DoSetCurrentMediaType (pMediaType : option MediaType)
| DoStart (start : MFTIME)
| DoRestart
| DoPause
| DoStop
| DoProcessSample (pSample : option Sample)
| DoFlush
| DoShutdown
| DoWork.

#[global] Instance Action_eq_dec : EqDecision Action.
Proof. solve_decision. Defined.

(** A public call returns its [HRESULT]; a work item always reports
    [S_OK] ([OnDispatchWorkItem] ends in [return S_OK]). *)
Definition perform (a : Action) (s : Sink) : HRESULT * Sink :=
  match a with
  | DoSetCurrentMediaType p => SetCurrentMediaType p s
  | DoStart start => Start start s
  | DoRestart => Restart s
  | DoPause => Pause s
  | DoStop => Stop s
  | DoProcessSample p => ProcessSample p s
  | DoFlush => Flush s
  | DoShutdown => Shutdown s
  | DoWork => (S_OK, default s (worker_step s))
  end.

Definition step (a : Action) (s : Sink) : Sink := snd (perform a s).

(** A run in which the worker is never interrupted: [DoWork] executes
    the oldest work item to completion. *)
Definition run (acts : list Action) (s : Sink) : Sink :=
  foldl (fun s a => step a s) s acts.

(** ** The worker, one lock section at a time *)

(** Where the worker stands in [OnDispatchWorkItem]. *)
Inductive WorkerPc : Type :=
| WorkerIdle
  (* about to call [ProcessSamplesFromQueue] *)
| AtDrain (op : StreamOperation) (fFlush : bool)
  (* at the head of the loop body, with the popped item *)
| InHand (op : StreamOperation) (fFlush : bool) (spunkSample : Item)
  (* before the locked block of the loop body *)
| AfterDeliver (op : StreamOperation) (fFlush : bool)
    (fProcessingSample : bool)
  (* [ProcessSamplesFromQueue] has returned [fNeedMoreSamples] *)
| AfterDrain (op : StreamOperation) (fNeedMoreSamples : bool).

(** The part of a work item in front of [ProcessSamplesFromQueue]; the
    result is [fFlush], or [None] when the item does not touch the
    queue. *)
Definition before_drain (op : StreamOperation) : M (option bool) :=
  match op with
  | OpStart | OpRestart =>
      hr ← call (QueueEvent MEStreamSinkStarted);
      ThrowIfError hr ;;
      ret (Some true)
  | OpStop => ret (Some true)
  | OpPause =>
      hr ← call (QueueEvent MEStreamSinkPaused);
      ThrowIfError hr ;;
      ret None
  | OpProcessSample | OpSetMediaType => ret (Some false)
  end.

(** The part of a work item behind [ProcessSamplesFromQueue]. *)
Definition after_drain (op : StreamOperation) (fNeedMoreSamples : bool)
  : M unit :=
  match op with
  | OpStart | OpRestart =>
      (* [DropSamplesFromQueue] answers [true] *)
      s ← get;
      if true && negb (_isShutdown s)
      then hr ← call (QueueEvent MEStreamSinkRequestSample);
           ThrowIfError hr
      else ret tt
  | OpStop =>
      hr ← call (QueueEvent MEStreamSinkStopped);
      ThrowIfError hr
  | OpPause => ret tt
  | OpProcessSample | OpSetMediaType =>
      s ← get;
      if fNeedMoreSamples && negb (_isShutdown s) then
        if decide (op = OpProcessSample)
        then hr ← call (QueueEvent MEStreamSinkRequestSample);
             ThrowIfError hr
        else ret tt
      else ret tt
  end.

(** The [catch] of [OnDispatchWorkItem]. *)
Definition caught {A} (r : Outcome A * Sink) : Sink :=
  match r with
  | (Normal _, s) => s
  | (Thrown hr, s) => HandleError hr s
  end.

(** The locked block that ends [ProcessSamplesFromQueue]'s prologue and
    every iteration of its loop: leave on an empty queue, else pop. *)
Definition pop_or_leave (op : StreamOperation) (fFlush : bool) (s : Sink)
  : Sink * WorkerPc :=
  match _sampleQueue s with
  | [] => (s, AfterDrain op true)
  | spunkSample :: rest =>
      (set_sampleQueue rest s, InHand op fFlush spunkSample)
  end.

(** One section of the worker. *)
Definition worker_section (sys : Sink * WorkerPc) : Sink * WorkerPc :=
  let s := fst sys in
  match snd sys with
  | WorkerIdle =>
      match workItems s with
      | [] => sys
      | op :: rest =>
          match before_drain op (set_workItems rest s) with
          | (Normal (Some fFlush), s1) => (s1, AtDrain op fFlush)
          | r => (caught r, WorkerIdle)
          end
      end
  | AtDrain op fFlush => pop_or_leave op fFlush s
  | InHand op fFlush spunkSample =>
      match deliver_item fFlush spunkSample s with
      | (Normal (Some fProcessingSample), s1) =>
          (s1, AfterDeliver op fFlush fProcessingSample)
      | (Normal None, s1) => (s1, AfterDrain op false)
      | r => (caught r, WorkerIdle)
      end
  | AfterDeliver op fFlush fProcessingSample =>
      match request_if_started fProcessingSample s with
      | (Normal _, s1) => pop_or_leave op fFlush s1
      | r => (caught r, WorkerIdle)
      end
  | AfterDrain op fNeedMoreSamples =>
      (caught (after_drain op fNeedMoreSamples s), WorkerIdle)
  end.

Fixpoint worker_sections (n : nat) (sys : Sink * WorkerPc)
  : Sink * WorkerPc :=
  match n with
  | O => sys
  | S n' => worker_sections n' (worker_section sys)
  end.

(** A step of the sink and its worker: a call of another thread, which
    holds the critical section from start to end, or with [DoWork] the
    next section of the worker. *)
Definition istep (a : Action) (sys : Sink * WorkerPc) : Sink * WorkerPc :=
  match a with
  | DoWork => worker_section sys
  | _ => (step a (fst sys), snd sys)
  end.

(** A run in which calls come in between the sections of the worker. *)
Definition irun (acts : list Action) (sys : Sink * WorkerPc)
  : Sink * WorkerPc :=
  foldl (fun sys a => istep a sys) sys acts.

(** Where the worker stands when the loop of [ProcessSamplesFromQueue]
    ends with the given outcome. *)
Definition loop_outcome (op : StreamOperation) (r : Outcome bool * Sink)
  : Sink * WorkerPc :=
  match r with
  | (Normal fNeedMoreSamples, s) => (s, AfterDrain op fNeedMoreSamples)
  | (Thrown hr, s) => (HandleError hr s, WorkerIdle)
  end.

(** The last section of a work item, case by case. *)
Definition after_drain_result (op : StreamOperation)
    (fNeedMoreSamples : bool) (s : Sink) : Sink :=
  if _isShutdown s then s
  else
    match op with
    | OpStart | OpRestart =>
        set_events (events s ++ [MEStreamSinkRequestSample]) s
    | OpStop => set_events (events s ++ [MEStreamSinkStopped]) s
    | OpProcessSample =>
        if fNeedMoreSamples
        then set_events (events s ++ [MEStreamSinkRequestSample]) s
        else s
    | OpPause | OpSetMediaType => s
    end.

(** The sample the worker has popped and not yet handed on. *)
Definition in_hand (pc : WorkerPc) : list Sample :=
  match pc with
  | InHand _ _ (ItemSample smp) => [smp]
  | _ => []
  end.

Definition is_flush (a : Action) : bool :=
  match a with
  | DoFlush => true
  | _ => false
  end.

(** ** The media sink *)

(** [VideoCaptureMediaSinkWinRT], as far as it drives its stream sink:
    it owns at most one stream sink, which it creates in [AddStreamSink],
    shuts down in [RemoveStreamSink] and forwards the clock notifications
    to.  Its own shutdown flag is [_isShutdown] in the source as well. *)
Record MediaSink : Type := mkMediaSink {
  ms_isShutdown : bool;
  _spStreamSink : option Sink;
  _llStartTime : MFTIME
}.

Definition new_media_sink : MediaSink := mkMediaSink false None 0.

Definition GetStreamId : nat := 0%nat.

Definition GetStreamSinkById (dwStreamSinkIdentifier : nat) (ms : MediaSink)
  : HRESULT :=
  let hr := if ms_isShutdown ms then MF_E_SHUTDOWN else S_OK in
  if bool_decide (dwStreamSinkIdentifier <> GetStreamId)
     || bool_decide (_spStreamSink ms = None)
  then MF_E_INVALIDSTREAMNUMBER
  else hr.

Definition AddStreamSink (dwStreamSinkIdentifier : nat)
    (pMediaType : option MediaType) (ms : MediaSink) : HRESULT * MediaSink :=
  let hr := if ms_isShutdown ms then MF_E_SHUTDOWN else S_OK in
  let hr :=
    if SUCCEEDED hr && bool_decide (dwStreamSinkIdentifier <> GetStreamId)
    then MF_E_INVALIDSTREAMNUMBER else hr in
  let hr :=
    if SUCCEEDED hr then GetStreamSinkById dwStreamSinkIdentifier ms
    else hr in
  let hr := if SUCCEEDED hr then MF_E_STREAMSINK_EXISTS else S_OK in
  if SUCCEEDED hr then
    (* new VideoCaptureStreamSinkWinRT, then Initialize *)
    let pStream := new_sink in
    let '(hr, pStream) :=
      match pMediaType with
      | Some mt => SetCurrentMediaType (Some mt) pStream
      | None => (hr, pStream)
      end in
    if SUCCEEDED hr
    then (hr, mkMediaSink (ms_isShutdown ms) (Some pStream) (_llStartTime ms))
    else (hr, ms)
  else (hr, ms).

Definition RemoveStreamSink (dwStreamSinkIdentifier : nat) (ms : MediaSink)
  : HRESULT * MediaSink :=
  let hr := if ms_isShutdown ms then MF_E_SHUTDOWN else S_OK in
  let hr :=
    if SUCCEEDED hr && bool_decide (dwStreamSinkIdentifier <> GetStreamId)
    then MF_E_INVALIDSTREAMNUMBER else hr in
  match _spStreamSink ms with
  | Some spStream =>
      if SUCCEEDED hr
      then (hr, mkMediaSink (ms_isShutdown ms)
                  (Some (snd (Shutdown spStream))) (_llStartTime ms))
      else (hr, ms)
  | None => (hr, ms)
  end.

(** The clock notifications.  The result of the stream's [Start] or
    [Stop] is dropped.  The stream is reached through [_spStreamSink]
    without a test: on a live media sink without a stream the call goes
    through a null pointer, and there is no result ([None]). *)
Definition OnClockStart (hnsSystemTime : MFTIME) (llClockStartOffset : Z)
    (ms : MediaSink) : option (HRESULT * MediaSink) :=
  let hr := if ms_isShutdown ms then MF_E_SHUTDOWN else S_OK in
  if SUCCEEDED hr then
    match _spStreamSink ms with
    | Some spStream =>
        Some (hr,
              mkMediaSink (ms_isShutdown ms)
                (Some (snd (Start llClockStartOffset spStream)))
                llClockStartOffset)
    | None => None
    end
  else Some (hr, ms).

Definition OnClockStop (hnsSystemTime : MFTIME) (ms : MediaSink)
  : option (HRESULT * MediaSink) :=
  let hr := if ms_isShutdown ms then MF_E_SHUTDOWN else S_OK in
  if SUCCEEDED hr then
    match _spStreamSink ms with
    | Some spStream =>
        Some (hr,
              mkMediaSink (ms_isShutdown ms) (Some (snd (Stop spStream)))
                (_llStartTime ms))
    | None => None
    end
  else Some (hr, ms).

(** ** What a drain of the queue does, in closed form *)

Definition has_buffer (smp : Sample) : bool :=
  bool_decide (is_Some (GetBufferByIndex smp 0)).

(** The samples among the queued items, in queue order. *)
Fixpoint samples_of (q : list Item) : list Sample :=
  match q with
  | [] => []
  | ItemSample smp :: q' => smp :: samples_of q'
  | ItemMediaType _ :: q' => samples_of q'
  end.

(** The samples a drain hands to the callback: those in front of the
    first sample that has no buffer. *)
Fixpoint taken (q : list Item) : list Sample :=
  match q with
  | [] => []
  | ItemSample smp :: q' => if has_buffer smp then smp :: taken q' else []
  | ItemMediaType _ :: q' => taken q'
  end.

(** The items a drain leaves in the queue: those behind the first sample
    that has no buffer. *)
Fixpoint left_over (q : list Item) : list Item :=
  match q with
  | [] => []
  | ItemSample smp :: q' => if has_buffer smp then left_over q' else q'
  | ItemMediaType _ :: q' => left_over q'
  end.

(** Whether the drain runs until it finds the queue empty: no queued
    sample lacks a buffer. *)
Fixpoint drained (q : list Item) : bool :=
  match q with
  | [] => true
  | ItemSample smp :: q' => if has_buffer smp then drained q' else false
  | ItemMediaType _ :: q' => drained q'
  end.

(** The condition under which an iteration of the drain loop requests
    another sample. *)
Definition requesting (fFlush : bool) (s : Sink) : bool :=
  bool_decide (_state s = State_Started) && negb fFlush
  && negb (_isShutdown s).

Definition request_samples (n : nat) : list Event :=
  replicate n MEStreamSinkRequestSample.

(** The sink after a drain that took [items] off the queue one by one. *)
Definition drain_from (fFlush : bool) (items : list Item) (s : Sink) : Sink :=
  set_sampleQueue (left_over items)
    (set_delivered (delivered s ++ taken items)
       (set_events
          (events s ++
           request_samples
             (if requesting fFlush s then length (taken items) else 0))
          s)).

Definition drain_result (fFlush : bool) (s : Sink) : Sink :=
  drain_from fFlush (_sampleQueue s) s.

(** The sink after the media event queue accepted one more event. *)
Definition emit (met : Event) (s : Sink) : Sink :=
  set_events (events s ++ [met]) s.

(** What the execution of one work item makes of the sink. *)
Definition work_result (op : StreamOperation) (s : Sink) : Sink :=
  if _isShutdown s then
    match op with
    | OpStart | OpRestart | OpPause => s
    | OpStop => drain_result true s
    | OpProcessSample | OpSetMediaType => drain_result false s
    end
  else
    match op with
    | OpStart | OpRestart =>
        emit MEStreamSinkRequestSample
          (drain_result true (emit MEStreamSinkStarted s))
    | OpStop => emit MEStreamSinkStopped (drain_result true s)
    | OpPause => emit MEStreamSinkPaused s
    | OpProcessSample =>
        if drained (_sampleQueue s)
        then emit MEStreamSinkRequestSample (drain_result false s)
        else drain_result false s
    | OpSetMediaType => drain_result false s
    end.

(** What [SetCurrentMediaType] does with a media type, case by case. *)
Definition SetCurrentMediaType_result (mt : MediaType) (s : Sink)
  : HRESULT * Sink :=
  if _isShutdown s then (MF_E_SHUTDOWN, s)
  else if bool_decide (_state s <> State_TypeNotSet)
          && FAILED (IsMediaTypeSupported (Some mt) s)
  then (IsMediaTypeSupported (Some mt) s, s)
  else
    match MF_MT_SUBTYPE mt with
    | None => (MF_E_ATTRIBUTENOTFOUND, set_spCurrentType (Some mt) s)
    | Some g =>
        let s1 := set_guiCurrentSubtype g (set_spCurrentType (Some mt) s) in
        match _state s with
        | State_TypeNotSet => (S_OK, set_state State_Ready s1)
        | State_Ready => (S_OK, s1)
        | _ =>
            (S_OK,
             set_workItems (workItems s ++ [OpSetMediaType])
               (set_sampleQueue (_sampleQueue s ++ [ItemMediaType mt]) s1))
        end
    end.

(** The number of [MEStreamSinkRequestSample] events in an event list. *)
Definition requests (evs : list Event) : nat :=
  length (filter (fun e => e = MEStreamSinkRequestSample) evs).

(** The events, respectively the samples, a step added to a log. *)
Definition added {A} (before after : list A) : list A :=
  drop (length before) after.

(** The samples submitted by the [ProcessSample] calls of a run, in call
    order. *)
Fixpoint pushed (acts : list Action) : list Sample :=
  match acts with
  | [] => []
  | DoProcessSample (Some smp) :: acts' => smp :: pushed acts'
  | _ :: acts' => pushed acts'
  end.

Definition is_resume (a : Action) : bool :=
  match a with
  | DoStart _ | DoRestart => true
  | _ => false
  end.

(** The checks a public operation makes before it touches the sink, with
    the code it returns when one of them fails. *)
Definition validation (a : Action) (s : Sink) : HRESULT :=
  match a with
  | DoStart _ => ValidateOperation OpStart s
  | DoRestart => ValidateOperation OpRestart s
  | DoPause => ValidateOperation OpPause s
  | DoStop => ValidateOperation OpStop s
  | DoProcessSample None => E_INVALIDARG
  | DoProcessSample (Some _) =>
      if _isShutdown s then MF_E_SHUTDOWN
      else ValidateOperation OpProcessSample s
  | DoSetCurrentMediaType None => E_INVALIDARG
  | DoSetCurrentMediaType (Some mt) =>
      if _isShutdown s then MF_E_SHUTDOWN
      else if FAILED (ValidateOperation OpSetMediaType s)
      then ValidateOperation OpSetMediaType s
      else if decide (1 <= State_ord (_state s))%nat
      then IsMediaTypeSupported (Some mt) s
      else S_OK
  | DoFlush => if _isShutdown s then MF_E_SHUTDOWN else S_OK
  | DoShutdown | DoWork => S_OK
  end.

(** The operations of the public surface that validate against the
    matrix or the media type. *)
Definition is_public_operation (a : Action) : bool :=
  match a with
  | DoSetCurrentMediaType _ | DoStart _ | DoRestart | DoPause | DoStop
  | DoProcessSample _ => true
  | _ => false
  end.

(** What holds of the current type once a format has been set on a live
    sink: it is there, and [_guiCurrentSubtype] is its subtype. *)
Definition type_is_set (s : Sink) : Prop :=
  _state s <> State_TypeNotSet -> _isShutdown s = false ->
  exists mt, _spCurrentType s = Some mt /\
             MF_MT_SUBTYPE mt = Some (_guiCurrentSubtype s).

(** The media types queued as format-change markers. *)
Fixpoint markers_of (q : list Item) : list MediaType :=
  match q with
  | [] => []
  | ItemSample _ :: q' => markers_of q'
  | ItemMediaType mt :: q' => mt :: markers_of q'
  end.

(** What one section of the worker may do to the sink: it leaves the
    state, the flag and the current type alone, takes at most the head off
    the queue, and hands on at most the sample it holds. *)
Definition section_effect (s : Sink) (pc : WorkerPc) (r : Sink * WorkerPc)
  : Prop :=
  (_state (fst r) = _state s /\ _isShutdown (fst r) = _isShutdown s /\
   _spCurrentType (fst r) = _spCurrentType s /\
   _guiCurrentSubtype (fst r) = _guiCurrentSubtype s) /\
  (exists popped : list Item,
     _sampleQueue s = popped ++ _sampleQueue (fst r)) /\
  (exists d : list Sample,
     delivered (fst r) = delivered s ++ d /\
     d ++ in_hand (snd r) ++ samples_of (_sampleQueue (fst r))
       `sublist_of` in_hand pc ++ samples_of (_sampleQueue s)).

(** The calls a producer makes while the stream stays paused, and the
    worker running. *)
Definition is_paused_traffic (a : Action) : bool :=
  match a with
  | DoProcessSample _ | DoPause | DoWork => true
  | _ => false
  end.

(** A paused sink whose pending work items, if any, are pause
    notifications. *)
Definition paused_idle (s : Sink) : Prop :=
  _state s = State_Paused /\ _isShutdown s = false /\
  Forall (fun op => op = OpPause) (workItems s).

(** Every queued format-change marker carries the current subtype. *)
Definition markers_keep_subtype (s : Sink) : Prop :=
  Forall (fun mt => MF_MT_SUBTYPE mt = Some (_guiCurrentSubtype s))
    (markers_of (_sampleQueue s)).

(** The invariant of the sinks that runs produce. *)
Definition sink_inv (s : Sink) : Prop :=
  (_state s = State_TypeNotSet -> _sampleQueue s = []) /\
  type_is_set s /\
  markers_keep_subtype s.

(** ** Sample data for the examples *)

Definition NV12 : GUID := 12%nat.
Definition YUY2 : GUID := 22%nat.

Definition mt_vga : MediaType :=
  mkMediaType (Some MFMediaType_Video) (Some NV12) [(640, 480)%nat].
Definition mt_qvga : MediaType :=
  mkMediaType (Some MFMediaType_Video) (Some NV12) [(320, 240)%nat].
Definition mt_yuy2 : MediaType :=
  mkMediaType (Some MFMediaType_Video) (Some YUY2) [(640, 480)%nat].
(** A type with a subtype and without the major-type attribute. *)
Definition mt_no_major : MediaType :=
  mkMediaType None (Some YUY2) [(640, 480)%nat].

Definition P1 : Sample := mkSample 1 [101%nat].
Definition P2 : Sample := mkSample 2 [102%nat].
(** A sample without any media buffer: [GetBufferByIndex(0)] fails. *)
Definition P_empty : Sample := mkSample 3 [].

(** A sink whose type has been set. *)
Definition ready_sink : Sink :=
  run [DoSetCurrentMediaType (Some mt_vga)] new_sink.

(** A sink that was started, and whose worker has run the start item. *)
Definition started_sink : Sink :=
  run [DoStart 0; DoWork] ready_sink.

(** A sink that was paused, and whose worker has run the pause item. *)
Definition paused_sink : Sink :=
  run [DoPause; DoWork] started_sink.

(** * The methods beside the streaming path *)

(** ** The getters of the stream sink *)

(** An out-parameter is given as the flag that says the pointer is not
    null; what the method writes through it comes back beside the
    result, [None] when nothing is written. *)

(** The codes of [HRESULT] and those that only the methods below
    return. *)
Inductive HRESULT_wide : Type :=
| Code (hr : HRESULT)
| MF_E_NO_MORE_TYPES
| MF_E_INVALIDINDEX
| MF_E_NO_CLOCK
| MF_E_INVALID_STATE_TRANSITION
| MF_E_ALREADY_INITIALIZED.

Definition SUCCEEDED_wide (hr : HRESULT_wide) : bool :=
  match hr with Code hr => SUCCEEDED hr | _ => false end.

#[global] Instance HRESULT_wide_eq_dec : EqDecision HRESULT_wide.
Proof. solve_decision. Defined.

(** Return the number of preferred media types. *)
Definition GetMediaTypeCount (pdwTypeCount : bool) (s : Sink)
  : HRESULT * option nat :=
  if negb pdwTypeCount then (E_INVALIDARG, None)
  else
    let hr := if _isShutdown s then MF_E_SHUTDOWN else S_OK in
    if SUCCEEDED hr then (hr, Some 1%nat) else (hr, None).

(** Return a preferred media type by index.  The pointer written at
    index 0 is the current type, null when there is none. *)
Definition GetMediaTypeByIndex (dwIndex : nat) (ppType : bool) (s : Sink)
  : HRESULT_wide * option (option MediaType) :=
  if negb ppType then (Code E_INVALIDARG, None)
  else
    let hr := if _isShutdown s then MF_E_SHUTDOWN else S_OK in
    if bool_decide (0 < dwIndex)%nat then (MF_E_NO_MORE_TYPES, None)
    else (Code hr, Some (_spCurrentType s)).

(** Return the current media type, if any. *)
Definition GetCurrentMediaType (ppMediaType : bool) (s : Sink)
  : HRESULT * option MediaType :=
  if negb ppMediaType then (E_INVALIDARG, None)
  else
    let hr := if _isShutdown s then MF_E_SHUTDOWN else S_OK in
    let hr :=
      if SUCCEEDED hr then
        if bool_decide (_spCurrentType s = None) then MF_E_NOT_INITIALIZED
        else hr
      else hr in
    if SUCCEEDED hr then (hr, _spCurrentType s) else (hr, None).

(** Return the major type GUID. *)
Definition GetMajorType (pguidMajorType : bool) (s : Sink)
  : HRESULT * option GUID :=
  if negb pguidMajorType then (E_INVALIDARG, None)
  else if bool_decide (_spCurrentType s = None)
  then (MF_E_NOT_INITIALIZED, None)
  else (S_OK, Some MFMediaType_Video).

(** ** The lookups of the media sink *)

Definition GetStreamSinkCount (pcStreamSinkCount : bool) (ms : MediaSink)
  : HRESULT * option nat :=
  if negb pcStreamSinkCount then (E_INVALIDARG, None)
  else
    let hr := if ms_isShutdown ms then MF_E_SHUTDOWN else S_OK in
    if SUCCEEDED hr then (hr, Some 1%nat) else (hr, None).

(** The index is looked at before the shutdown flag; the pointer written
    is the owned stream, null when there is none (the source asserts
    that there is one). *)
Definition GetStreamSinkByIndex (dwIndex : nat) (ppStreamSink : bool)
    (ms : MediaSink) : HRESULT_wide * option (option Sink) :=
  if negb ppStreamSink then (Code E_INVALIDARG, None)
  else if bool_decide (1 <= dwIndex)%nat then (MF_E_INVALIDINDEX, None)
  else
    let hr := if ms_isShutdown ms then MF_E_SHUTDOWN else S_OK in
    if SUCCEEDED hr then (Code hr, Some (_spStreamSink ms))
    else (Code hr, None).

(** What [GetStreamSinkById] writes through [ppStreamSink]. *)
Definition GetStreamSinkById_out (dwStreamSinkIdentifier : nat)
    (ms : MediaSink) : option Sink :=
  if SUCCEEDED (GetStreamSinkById dwStreamSinkIdentifier ms)
  then _spStreamSink ms else None.

(** The clock notifications that the media sink refuses or ignores. *)
Definition OnClockPause (hnsSystemTime : MFTIME) (ms : MediaSink)
  : HRESULT_wide * MediaSink :=
  (MF_E_INVALID_STATE_TRANSITION, ms).

Definition OnClockRestart (hnsSystemTime : MFTIME) (ms : MediaSink)
  : HRESULT_wide * MediaSink :=
  (MF_E_INVALID_STATE_TRANSITION, ms).

Definition OnClockSetRate (hnsSystemTime : MFTIME) (ms : MediaSink)
  : HRESULT_wide * MediaSink :=
  (Code S_OK, ms).

(** ** The media sink, its clock and its callback *)

Definition Clock : Type := nat.

(** The calls the media sink makes on presentation clocks. *)
Inductive ClockCall : Type :=
| RemoveClockStateSink (c : Clock)
| AddClockStateSink (c : Clock).

#[global] Instance ClockCall_eq_dec : EqDecision ClockCall.
Proof. solve_decision. Defined.

(** The media sink together with what it holds of the platform: the
    presentation clock it stores, the calls it has made on clocks with
    their results, its callback, and the callbacks whose [OnShutdown] it
    has called. *)
Record MediaSinkWorld : Type := mkMediaSinkWorld {
  the_sink : MediaSink;
  _spClock : option Clock;
  clockCalls : list (ClockCall * HRESULT);
  _callback : option nat;
  notified : list nat
}.

Definition new_world : MediaSinkWorld :=
  mkMediaSinkWorld new_media_sink None [] None [].

(** [SetPresentationClock]; [hrRemove] and [hrAdd] are what the clocks
    answer to [RemoveClockStateSink] and [AddClockStateSink] when these
    are called. *)
Definition SetPresentationClock (pPresentationClock : option Clock)
    (hrRemove hrAdd : HRESULT) (w : MediaSinkWorld)
  : HRESULT * MediaSinkWorld :=
  let hr := if ms_isShutdown (the_sink w) then MF_E_SHUTDOWN else S_OK in
  (* If we already have a clock, remove ourselves from that clock's
     state notifications. *)
  let '(hr, calls) :=
    if SUCCEEDED hr then
      match _spClock w with
      | Some c =>
          (hrRemove, clockCalls w ++ [(RemoveClockStateSink c, hrRemove)])
      | None => (hr, clockCalls w)
      end
    else (hr, clockCalls w) in
  (* Register ourselves to get state notifications from the new clock. *)
  let '(hr, calls) :=
    if SUCCEEDED hr then
      match pPresentationClock with
      | Some c => (hrAdd, calls ++ [(AddClockStateSink c, hrAdd)])
      | None => (hr, calls)
      end
    else (hr, calls) in
  if SUCCEEDED hr
  then (hr, mkMediaSinkWorld (the_sink w) pPresentationClock calls
              (_callback w) (notified w))
  else (hr, mkMediaSinkWorld (the_sink w) (_spClock w) calls
              (_callback w) (notified w)).

Definition GetPresentationClock (ppPresentationClock : bool)
    (w : MediaSinkWorld) : HRESULT_wide * option Clock :=
  if negb ppPresentationClock then (Code E_INVALIDARG, None)
  else
    let hr := if ms_isShutdown (the_sink w) then MF_E_SHUTDOWN else S_OK in
    if SUCCEEDED hr then
      match _spClock w with
      | None => (MF_E_NO_CLOCK, None)
      | Some c => (Code hr, Some c)
      end
    else (Code hr, None).

(** [VideoCaptureMediaSinkWinRT::Shutdown].  Like the clock
    notifications it reaches the stream without a test: on a live media
    sink without a stream there is no result. *)
Definition MediaSink_Shutdown (w : MediaSinkWorld)
  : option (HRESULT * MediaSinkWorld) :=
  let ms := the_sink w in
  let hr := if ms_isShutdown ms then MF_E_SHUTDOWN else S_OK in
  if SUCCEEDED hr then
    match _spStreamSink ms with
    | Some spMFStream =>
        Some (S_OK,
              mkMediaSinkWorld
                (mkMediaSink true (Some (snd (Shutdown spMFStream)))
                   (_llStartTime ms))
                None (clockCalls w) (_callback w)
                (notified w ++ option_list (_callback w)))
    | None => None
    end
  else Some (S_OK, w).

(** The clocks on whose list of state sinks the media sink stands after
    the given calls, those that failed having changed nothing. *)
Fixpoint registered (calls : list (ClockCall * HRESULT)) (on : list Clock)
  : list Clock :=
  match calls with
  | [] => on
  | (AddClockStateSink c, hr) :: calls' =>
      registered calls' (if SUCCEEDED hr then on ++ [c] else on)
  | (RemoveClockStateSink c, hr) :: calls' =>
      registered calls'
        (if SUCCEEDED hr then filter (fun c' => c' <> c) on else on)
  end.

(** The media sink of a world replaced. *)
Definition set_the_sink (ms : MediaSink) (w : MediaSinkWorld)
  : MediaSinkWorld :=
  mkMediaSinkWorld ms (_spClock w) (clockCalls w) (_callback w)
    (notified w).

(** A method that touches the media sink and its stream only. *)
Definition on_sink {R} (f : MediaSink -> R * MediaSink)
    (w : MediaSinkWorld) : MediaSinkWorld :=
  set_the_sink (snd (f (the_sink w))) w.

(** The calls of the clients of the media sink and of its clock. *)
Inductive MediaSinkCall : Type :=
| CallAddStreamSink (dwStreamSinkIdentifier : nat)
    (pMediaType : option MediaType)
| CallRemoveStreamSink (dwStreamSinkIdentifier : nat)
| CallSetPresentationClock (pPresentationClock : option Clock)
    (hrRemove hrAdd : HRESULT)
| CallOnClockStart (hnsSystemTime : MFTIME) (llClockStartOffset : Z)
| CallOnClockStop (hnsSystemTime : MFTIME)
| CallOnClockPause (hnsSystemTime : MFTIME)
| CallOnClockRestart (hnsSystemTime : MFTIME)
| CallOnClockSetRate (hnsSystemTime : MFTIME)
| CallShutdown.

#[global] Instance MediaSinkCall_eq_dec : EqDecision MediaSinkCall.
Proof. solve_decision. Defined.

(** What a call makes of the media sink; [None] when it goes through
    the null [_spStreamSink]. *)
Definition media_sink_call (c : MediaSinkCall) (w : MediaSinkWorld)
  : option MediaSinkWorld :=
  match c with
  | CallAddStreamSink id p => Some (on_sink (AddStreamSink id p) w)
  | CallRemoveStreamSink id => Some (on_sink (RemoveStreamSink id) w)
  | CallSetPresentationClock p hrRemove hrAdd =>
      Some (snd (SetPresentationClock p hrRemove hrAdd w))
  | CallOnClockStart t offset =>
      option_map (fun r => set_the_sink (snd r) w)
        (OnClockStart t offset (the_sink w))
  | CallOnClockStop t =>
      option_map (fun r => set_the_sink (snd r) w)
        (OnClockStop t (the_sink w))
  | CallOnClockPause t => Some (on_sink (OnClockPause t) w)
  | CallOnClockRestart t => Some (on_sink (OnClockRestart t) w)
  | CallOnClockSetRate t => Some (on_sink (OnClockSetRate t) w)
  | CallShutdown => option_map snd (MediaSink_Shutdown w)
  end.

Fixpoint media_sink_run (calls : list MediaSinkCall) (w : MediaSinkWorld)
  : option MediaSinkWorld :=
  match calls with
  | [] => Some w
  | c :: calls' =>
      match media_sink_call c w with
      | Some w' => media_sink_run calls' w'
      | None => None
      end
  end.

Definition is_AddStreamSink (c : MediaSinkCall) : bool :=
  match c with
  | CallAddStreamSink _ _ => true
  | _ => false
  end.

(** The streams that the media sink makes and drives are never
    paused. *)
Definition never_paused (w : MediaSinkWorld) : Prop :=
  forall s : Sink,
    _spStreamSink (the_sink w) = Some s ->
    _state s <> State_Paused /\
    Forall (fun op => op <> OpPause /\ op <> OpRestart) (workItems s).

(** While the media sink is live it stands on the list of no clock but
    the one it stores. *)
Definition clock_inv (w : MediaSinkWorld) : Prop :=
  ms_isShutdown (the_sink w) = false ->
  Forall (fun c => _spClock w = Some c) (registered (clockCalls w) []).

(** [RuntimeClassInitialize].  What [ConvertPropertiesToMediaType] makes
    of the encoding properties is given with them: the media type, or the
    code of the exception it throws. *)
Definition RuntimeClassInitialize (callback : nat)
    (encodingProperties : option (HRESULT + MediaType)) (w : MediaSinkWorld)
  : HRESULT * MediaSinkWorld :=
  (* _callback = callback *)
  let w1 := mkMediaSinkWorld (the_sink w) (_spClock w) (clockCalls w)
              (Some callback) (notified w) in
  let w2 := on_sink (RemoveStreamSink GetStreamId) w1 in
  (* the catch: _callback = nullptr *)
  let failed (hr : HRESULT) (w : MediaSinkWorld) :=
    (hr, mkMediaSinkWorld (the_sink w) (_spClock w) (clockCalls w) None
           (notified w)) in
  match encodingProperties with
  | None => (S_OK, w2)
  | Some (inl hr) => failed hr w2
  | Some (inr spMediaType) =>
      let hr := fst (AddStreamSink GetStreamId (Some spMediaType)
                       (the_sink w2)) in
      let w3 := on_sink (AddStreamSink GetStreamId (Some spMediaType)) w2 in
      if FAILED hr then failed hr w3 else (S_OK, w3)
  end.

(** ** The proxy *)

Record Proxy : Type := mkProxy {
  _shutdown : bool;
  _mediaSink : option MediaSinkWorld
}.

(** [InitializeAsync], run to its result.  [MakeAndInitialize] makes a
    media sink, runs [RuntimeClassInitialize] on it and stores it when
    that succeeded; [callback] stands for the callback object created
    for it. *)
Definition InitializeAsync (callback : nat)
    (encodingProperties : option (HRESULT + MediaType)) (p : Proxy)
  : HRESULT_wide * Proxy :=
  if _shutdown p then (Code MF_E_SHUTDOWN, p)
  else if bool_decide (_mediaSink p <> None)
  then (MF_E_ALREADY_INITIALIZED, p)
  else
    let r := RuntimeClassInitialize callback encodingProperties new_world in
    if FAILED (fst r) then (Code (fst r), p)
    else (Code S_OK, mkProxy (_shutdown p) (Some (snd r))).

Definition GetMFExtension (p : Proxy) : HRESULT * option MediaSinkWorld :=
  match _mediaSink p with
  | None => (MF_E_NOT_INITIALIZED, None)
  | Some w => (S_OK, Some w)
  end.

Definition OnShutdown (p : Proxy) : Proxy :=
  if _shutdown p then p else mkProxy true None.

Inductive ProxyCall : Type :=
| CallInitializeAsync (callback : nat)
    (encodingProperties : option (HRESULT + MediaType))
| CallOnShutdown.

Definition proxy_call (c : ProxyCall) (p : Proxy) : Proxy :=
  match c with
  | CallInitializeAsync callback props =>
      snd (InitializeAsync callback props p)
  | CallOnShutdown => OnShutdown p
  end.

Definition proxy_run (calls : list ProxyCall) (p : Proxy) : Proxy :=
  foldl (fun p c => proxy_call c p) p calls.

(** The results of the [InitializeAsync] calls of a sequence of calls. *)
Fixpoint proxy_results (calls : list ProxyCall) (p : Proxy)
  : list HRESULT_wide :=
  match calls with
  | [] => []
  | c :: calls' =>
      match c with
      | CallInitializeAsync callback props =>
          [fst (InitializeAsync callback props p)]
      | CallOnShutdown => []
      end ++ proxy_results calls' (proxy_call c p)
  end.

(** How many of the results are successes. *)
Definition successes (results : list HRESULT_wide) : nat :=
  length (filter (fun hr => hr = Code S_OK) results).

(** ** One section of the worker, in closed form *)

Definition section_result (s : Sink) (pc : WorkerPc) : Sink * WorkerPc :=
  match pc with
  | WorkerIdle =>
      match workItems s with
      | [] => (s, WorkerIdle)
      | op :: rest =>
          let s0 := set_workItems rest s in
          match op with
          | OpStart | OpRestart =>
              if _isShutdown s then (s0, WorkerIdle)
              else (emit MEStreamSinkStarted s0, AtDrain op true)
          | OpPause =>
              if _isShutdown s then (s0, WorkerIdle)
              else (emit MEStreamSinkPaused s0, WorkerIdle)
          | OpStop => (s0, AtDrain op true)
          | OpProcessSample | OpSetMediaType => (s0, AtDrain op false)
          end
      end
  | AtDrain op fFlush => pop_or_leave op fFlush s
  | InHand op fFlush (ItemSample smp) =>
      if has_buffer smp
      then (set_delivered (delivered s ++ [smp]) s,
            AfterDeliver op fFlush (negb fFlush))
      else (s, AfterDrain op false)
  | InHand op fFlush (ItemMediaType _) => (s, AfterDeliver op fFlush false)
  | AfterDeliver op fFlush fProcessingSample =>
      pop_or_leave op fFlush
        (if bool_decide (_state s = State_Started) && fProcessingSample
            && negb (_isShutdown s)
         then emit MEStreamSinkRequestSample s else s)
  | AfterDrain op fNeedMoreSamples =>
      (after_drain_result op fNeedMoreSamples s, WorkerIdle)
  end.

(** What a call of another thread does, in closed form. *)
Definition call_result (a : Action) (s : Sink) : Sink :=
  match a with
  | DoSetCurrentMediaType None => s
  | DoSetCurrentMediaType (Some mt) => snd (SetCurrentMediaType_result mt s)
  | DoStart start =>
      if matrix_entry (_state s) OpStart then
        set_workItems (workItems s ++ [OpStart])
          (set_state State_Started
             (if decide (start <> PRESENTATION_CURRENT_POSITION)
              then set_fGetStartTimeFromSample false (set_startTime start s)
              else set_fGetStartTimeFromSample true s))
      else s
  | DoRestart =>
      if matrix_entry (_state s) OpRestart
      then set_workItems (workItems s ++ [OpRestart])
             (set_state State_Started s)
      else s
  | DoPause =>
      if matrix_entry (_state s) OpPause
      then set_workItems (workItems s ++ [OpPause]) (set_state State_Paused s)
      else s
  | DoStop =>
      if matrix_entry (_state s) OpStop
      then set_workItems (workItems s ++ [OpStop]) (set_state State_Stopped s)
      else s
  | DoProcessSample None => s
  | DoProcessSample (Some smp) => snd (ProcessSample (Some smp) s)
  | DoFlush => if _isShutdown s then s else drain_result true s
  | DoShutdown =>
      if _isShutdown s then s
      else set_isShutdown true (set_spCurrentType None (set_sampleQueue [] s))
  | DoWork => s
  end.

(** ** Invariants of the runs *)

(** A sink that has been shut down: the flag is set, the queue is empty,
    the current type is released, and the media event queue holds
    [evs]. *)
Definition shut_down (evs : list Event) (s : Sink) : Prop :=
  _isShutdown s = true /\ _sampleQueue s = [] /\ _spCurrentType s = None /\
  events s = evs.

(** What the callback has received since it had received [before]: at most
    the sample the worker held. *)
Definition hands_on_at_most (before held : list Sample)
    (sys : Sink * WorkerPc) : Prop :=
  exists d : list Sample,
    delivered (fst sys) = before ++ d /\
    d ++ in_hand (snd sys) `sublist_of` held.


(** ** The flow of requests *)

(** The traffic of a running stream: samples that carry a buffer come in,
    and the worker runs. *)
Definition is_streaming_traffic (a : Action) : bool :=
  match a with
  | DoProcessSample (Some smp) => has_buffer smp
  | DoWork => true
  | _ => false
  end.

(** The requests that the work item in progress will still issue, when it
    was scheduled by [ProcessSample] and every sample has a buffer: one
    for the sample in hand, one at its end. *)
Definition owed (pc : WorkerPc) : nat :=
  match pc with
  | WorkerIdle => 0
  | AtDrain _ _ => 1
  | InHand _ _ _ => 2
  | AfterDeliver _ _ _ => 2
  | AfterDrain _ _ => 1
  end.

(** Whether the worker is inside the loop of
    [ProcessSamplesFromQueue]. *)
Definition in_loop (pc : WorkerPc) : nat :=
  match pc with
  | AtDrain _ _ | InHand _ _ _ | AfterDeliver _ _ _ => 1
  | _ => 0
  end.

Definition good_item (it : Item) : Prop :=
  exists smp : Sample, it = ItemSample smp /\ has_buffer smp = true.

(** The worker is idle or executes a work item of [ProcessSample] over
    samples that have a buffer. *)
Definition sample_dispatch (pc : WorkerPc) : Prop :=
  match pc with
  | WorkerIdle => True
  | AtDrain op fFlush => op = OpProcessSample /\ fFlush = false
  | InHand op fFlush it =>
      op = OpProcessSample /\ fFlush = false /\ good_item it
  | AfterDeliver op fFlush fProcessingSample =>
      op = OpProcessSample /\ fFlush = false /\ fProcessingSample = true
  | AfterDrain op fNeedMoreSamples =>
      op = OpProcessSample /\ fNeedMoreSamples = true
  end.

(** A started stream under streaming traffic: [R] counts the requests
    issued and owed, [D] lists the samples received, delivered or not. *)
Definition streaming (R : nat) (D : list Sample) (sys : Sink * WorkerPc)
  : Prop :=
  let s := fst sys in
  let pc := snd sys in
  _state s = State_Started /\ _isShutdown s = false /\
  Forall (fun op => op = OpProcessSample) (workItems s) /\
  Forall good_item (_sampleQueue s) /\
  sample_dispatch pc /\
  (length (_sampleQueue s) <= length (workItems s) + in_loop pc)%nat /\
  (requests (events s) + length (_sampleQueue s) + length (workItems s)
   + owed pc)%nat = R /\
  delivered s ++ in_hand pc ++ samples_of (_sampleQueue s) = D.

(** ** The events of the state changes *)


(** The events of an event list that report a state change. *)
Fixpoint state_events (evs : list Event) : list Event :=
  match evs with
  | [] => []
  | MEStreamSinkStarted :: evs' => MEStreamSinkStarted :: state_events evs'
  | MEStreamSinkStopped :: evs' => MEStreamSinkStopped :: state_events evs'
  | MEStreamSinkPaused :: evs' => MEStreamSinkPaused :: state_events evs'
  | _ :: evs' => state_events evs'
  end.








(** The calls that replace or release the current media type. *)
Definition changes_type (a : Action) : bool :=
  match a with
  | DoSetCurrentMediaType _ | DoShutdown => true
  | _ => false
  end.

(** A sink that has been shut down holds no media type. *)
Definition type_released (s : Sink) : Prop :=
  _isShutdown s = true -> _spCurrentType s = None.

(** ** The stream as its media sink drives it *)

(** The calls that reach the stream through its interfaces
    ([IMFStreamSink], [IMFMediaTypeHandler]) and the run of its worker;
    [Start], [Stop], [Pause] and [Restart] are called by the media sink
    only. *)
Definition is_interface_call (a : Action) : bool :=
  match a with
  | DoSetCurrentMediaType _ | DoProcessSample _ | DoFlush | DoWork => true
  | _ => false
  end.

Inductive Drive : Type :=
| ByMediaSink (c : MediaSinkCall)
| ByStream (a : Action).

Definition on_stream (f : Sink -> Sink) (w : MediaSinkWorld)
  : MediaSinkWorld :=
  mkMediaSinkWorld
    (mkMediaSink (ms_isShutdown (the_sink w))
       (option_map f (_spStreamSink (the_sink w)))
       (_llStartTime (the_sink w)))
    (_spClock w) (clockCalls w) (_callback w) (notified w).

Definition drive (d : Drive) (w : MediaSinkWorld)
  : option MediaSinkWorld :=
  match d with
  | ByMediaSink c => media_sink_call c w
  | ByStream a => Some (on_stream (step a) w)
  end.

Fixpoint drive_run (ds : list Drive) (w : MediaSinkWorld)
  : option MediaSinkWorld :=
  match ds with
  | [] => Some w
  | d :: ds' =>
      match drive d w with
      | Some w' => drive_run ds' w'
      | None => None
      end
  end.

Definition is_driven (d : Drive) : bool :=
  match d with
  | ByMediaSink _ => true
  | ByStream a => is_interface_call a
  end.

(** * Properties *)

Ltac unfold_M :=
  unfold mbind, M_bind, mret, M_ret, bind, ret, Throw, ThrowIfError, call,
    modify, get, try_catch_hr in *.

Lemma run_app (acts1 acts2 : list Action) (s : Sink) :
  run (acts1 ++ acts2) s = run acts2 (run acts1 s).
Proof. unfold run. apply foldl_app. Qed.

Lemma run_cons (a : Action) (acts : list Action) (s : Sink) :
  run (a :: acts) s = run acts (step a s).
Proof. done. Qed.

(** ** The drain loop *)

Lemma has_buffer_true (smp : Sample) :
  has_buffer smp = true -> exists b, GetBufferByIndex smp 0 = Some b.
Proof.
  unfold has_buffer. intros H. apply bool_decide_eq_true in H.
  destruct H as [b Hb]. by exists b.
Qed.

Lemma has_buffer_false (smp : Sample) :
  has_buffer smp = false -> GetBufferByIndex smp 0 = None.
Proof.
  unfold has_buffer. intros H. apply bool_decide_eq_false in H.
  destruct (GetBufferByIndex smp 0) eqn:E; [|done].
  exfalso. apply H. by eexists.
Qed.

Lemma request_if_started_eq (b : bool) (s : Sink) :
  request_if_started b s
  = (Normal (),
     if bool_decide (_state s = State_Started) && b && negb (_isShutdown s)
     then set_events (events s ++ [MEStreamSinkRequestSample]) s else s).
Proof.
  unfold request_if_started. unfold_M.
  destruct (_ && _ && _) eqn:E; [|done].
  apply andb_true_iff in E as [_ E]. apply negb_true_iff in E.
  unfold QueueEvent. by rewrite E.
Qed.

Lemma deliver_item_eq (fFlush : bool) (it : Item) (s : Sink) :
  deliver_item fFlush it s
  = match it with
    | ItemSample smp =>
        if has_buffer smp
        then (Normal (Some (negb fFlush)),
              set_delivered (delivered s ++ [smp]) s)
        else (Normal None, s)
    | ItemMediaType _ => (Normal (Some false), s)
    end.
Proof.
  destruct it as [smp|mt]; [|done]. unfold deliver_item. cbn.
  destruct (has_buffer smp) eqn:Hb.
  - destruct (has_buffer_true _ Hb) as [b ->]. unfold_M. unfold OnSample.
    unfold_M. by destruct fFlush.
  - by rewrite (has_buffer_false _ Hb).
Qed.

Lemma drain_loop_unfold (fFlush : bool) (cur : Item) (queue : list Item)
    (s : Sink) :
  drain_loop fFlush cur queue s
  = match deliver_item fFlush cur s with
    | (Normal None, s1) => (Normal false, s1)
    | (Normal (Some b), s1) =>
        match request_if_started b s1 with
        | (Normal _, s2) =>
            match queue with
            | [] => (Normal true, s2)
            | next :: rest =>
                drain_loop fFlush next rest (set_sampleQueue rest s2)
            end
        | (Thrown hr, s2) => (Thrown hr, s2)
        end
    | (Thrown hr, s1) => (Thrown hr, s1)
    end.
Proof.
  destruct queue; cbn; unfold_M;
    destruct (deliver_item fFlush cur s) as [[[b|]|hr] s1]; try done;
    by destruct (request_if_started b s1) as [[[]|hr] s2].
Qed.

(** One run of the loop, from the item in hand to the [return]: it never
    throws, and its effect on the sink is [drain_from]. *)
Lemma drain_loop_spec (fFlush : bool) (queue : list Item) :
  forall (spunkSample : Item) (s : Sink),
    _sampleQueue s = queue ->
    drain_loop fFlush spunkSample queue s
    = (Normal (drained (spunkSample :: queue)),
       drain_from fFlush (spunkSample :: queue) s).
Proof.
  induction queue as [|next rest IH]; intros cur s Hq;
    rewrite drain_loop_unfold, deliver_item_eq;
    destruct cur as [smp|mt]; cbn [drained taken left_over];
    try destruct (has_buffer smp) eqn:Hb;
    rewrite ?request_if_started_eq, ?IH by done;
    destruct s as [st sd fg stt gs ct sq ev wi dl]; simpl in Hq; subst sq;
    unfold drain_from, requesting; cbn [taken left_over]; rewrite ?Hb;
    destruct fFlush, sd, st; simpl;
    unfold set_sampleQueue, set_delivered, set_events; simpl;
    rewrite <- ?app_assoc, ?app_nil_r; try done.
Qed.

Lemma ProcessSamplesFromQueue_spec (fFlush : bool) (s : Sink) :
  ProcessSamplesFromQueue fFlush s
  = (Normal (drained (_sampleQueue s)), drain_result fFlush s).
Proof.
  unfold ProcessSamplesFromQueue, drain_result. unfold_M.
  destruct (_sampleQueue s) as [|cur rest] eqn:Hq.
  - destruct s as [st sd fg stt gs ct sq ev wi dl]; simpl in Hq; subst sq.
    unfold drain_from, set_sampleQueue, set_delivered, set_events. simpl.
    destruct (requesting _ _); simpl; by rewrite !app_nil_r.
  - by rewrite drain_loop_spec.
Qed.

Lemma DropSamplesFromQueue_spec (s : Sink) :
  DropSamplesFromQueue s = (Normal true, drain_result true s).
Proof.
  unfold DropSamplesFromQueue. unfold_M.
  by rewrite ProcessSamplesFromQueue_spec.
Qed.

Lemma SendSampleFromQueue_spec (s : Sink) :
  SendSampleFromQueue s
  = (Normal (drained (_sampleQueue s)), drain_result false s).
Proof. apply ProcessSamplesFromQueue_spec. Qed.

Lemma QueueEvent_live (met : Event) (s : Sink) :
  _isShutdown s = false ->
  QueueEvent met s = (S_OK, set_events (events s ++ [met]) s).
Proof. intros H. unfold QueueEvent. by rewrite H. Qed.

Lemma QueueEvent_shutdown (met : Event) (s : Sink) :
  _isShutdown s = true -> QueueEvent met s = (MF_E_SHUTDOWN, s).
Proof. intros H. unfold QueueEvent. by rewrite H. Qed.

(** ** The work items, in closed form *)

Lemma OnDispatchWorkItem_closed_form (op : StreamOperation) (s : Sink) :
  OnDispatchWorkItem op s = work_result op s.
Proof.
  unfold OnDispatchWorkItem, OnDispatchWorkItem_body, DispatchProcessSample,
    work_result, HandleError.
  unfold_M.
  destruct (_isShutdown s) eqn:Hsd.
  - destruct op;
      rewrite ?QueueEvent_shutdown by done;
      rewrite ?SendSampleFromQueue_spec, ?DropSamplesFromQueue_spec;
      simpl; rewrite ?Hsd, ?andb_false_r; simpl;
      rewrite ?QueueEvent_shutdown by done; simpl; rewrite ?Hsd; done.
  - destruct op;
      rewrite ?QueueEvent_live by done; simpl;
      rewrite ?SendSampleFromQueue_spec, ?DropSamplesFromQueue_spec;
      simpl; rewrite ?Hsd; simpl;
      try (destruct (drained (_sampleQueue s)); simpl);
      rewrite ?QueueEvent_live by done; done.
Qed.

Lemma OnDispatchWorkItem_ProcessSample (s : Sink) :
  _isShutdown s = false ->
  OnDispatchWorkItem OpProcessSample s
  = if drained (_sampleQueue s)
    then emit MEStreamSinkRequestSample (drain_result false s)
    else drain_result false s.
Proof.
  intros Hlive. rewrite OnDispatchWorkItem_closed_form.
  unfold work_result. by rewrite Hlive.
Qed.

(** A work item touches the event queue, the sample queue and the
    callback, and nothing else. *)
Lemma work_result_frame (op : StreamOperation) (s : Sink) :
  _state (work_result op s) = _state s /\
  _isShutdown (work_result op s) = _isShutdown s /\
  _spCurrentType (work_result op s) = _spCurrentType s /\
  _guiCurrentSubtype (work_result op s) = _guiCurrentSubtype s /\
  workItems (work_result op s) = workItems s.
Proof.
  unfold work_result.
  by destruct op, (_isShutdown s) eqn:Hsd, (drained (_sampleQueue s)).
Qed.

(** A work item either leaves queue and callback alone or drains the
    queue. *)
Lemma work_result_queue (op : StreamOperation) (s : Sink) :
  (delivered (work_result op s) = delivered s /\
   _sampleQueue (work_result op s) = _sampleQueue s) \/
  (delivered (work_result op s) = delivered s ++ taken (_sampleQueue s) /\
   _sampleQueue (work_result op s) = left_over (_sampleQueue s)).
Proof.
  unfold work_result.
  destruct op, (_isShutdown s), (drained (_sampleQueue s)); simpl; auto.
Qed.

(** ** The worker in sections *)

Lemma HandleError_eq (hr : HRESULT) (s : Sink) :
  HandleError hr s
  = if _isShutdown s then s else set_events (events s ++ [MEError hr]) s.
Proof.
  unfold HandleError. destruct (_isShutdown s) eqn:Hsd; simpl; [done|].
  by rewrite QueueEvent_live.
Qed.

Lemma before_drain_eq (op : StreamOperation) (s : Sink) :
  before_drain op s
  = match op with
    | OpStart | OpRestart =>
        if _isShutdown s then (Thrown MF_E_SHUTDOWN, s)
        else (Normal (Some true), emit MEStreamSinkStarted s)
    | OpPause =>
        if _isShutdown s then (Thrown MF_E_SHUTDOWN, s)
        else (Normal None, emit MEStreamSinkPaused s)
    | OpStop => (Normal (Some true), s)
    | OpProcessSample | OpSetMediaType => (Normal (Some false), s)
    end.
Proof.
  unfold before_drain. unfold_M.
  destruct op, (_isShutdown s) eqn:Hsd; try done;
    by rewrite ?QueueEvent_shutdown, ?QueueEvent_live by done.
Qed.

Lemma caught_after_drain (op : StreamOperation) (b : bool) (s : Sink) :
  caught (after_drain op b s) = after_drain_result op b s.
Proof.
  unfold after_drain, after_drain_result, caught, HandleError. unfold_M.
  destruct op, b, (_isShutdown s) eqn:Hsd; simpl; try done;
    rewrite ?QueueEvent_shutdown, ?QueueEvent_live by done; simpl;
    by rewrite ?Hsd.
Qed.

Lemma worker_sections_add (n m : nat) (sys : Sink * WorkerPc) :
  worker_sections (n + m) sys = worker_sections m (worker_sections n sys).
Proof.
  revert sys. induction n as [|n IH]; intros sys; [done|].
  simpl. apply IH.
Qed.

(** The sections of the loop retrace [drain_loop]. *)
Lemma loop_in_sections (op : StreamOperation) (fFlush : bool)
    (queue : list Item) :
  forall (spunkSample : Item) (s : Sink),
    _sampleQueue s = queue ->
    exists n : nat,
      worker_sections n (s, InHand op fFlush spunkSample)
      = loop_outcome op (drain_loop fFlush spunkSample queue s).
Proof.
  induction queue as [|next rest IH]; intros cur s Hq;
    rewrite drain_loop_unfold, deliver_item_eq.
  - destruct cur as [smp|mt]; [destruct (has_buffer smp) eqn:Hb|].
    + exists 2%nat. simpl. unfold worker_section at 2. simpl.
      rewrite deliver_item_eq, Hb. unfold worker_section. simpl.
      rewrite !request_if_started_eq. unfold pop_or_leave.
      by destruct (_ && _ && _); simpl; rewrite Hq.
    + exists 1%nat. simpl. unfold worker_section. simpl.
      by rewrite deliver_item_eq, Hb.
    + exists 2%nat. simpl. unfold worker_section at 2. simpl.
      unfold worker_section. simpl.
      rewrite !request_if_started_eq. unfold pop_or_leave.
      by destruct (_ && _ && _); simpl; rewrite Hq.
  - destruct cur as [smp|mt]; [destruct (has_buffer smp) eqn:Hb|].
    + rewrite request_if_started_eq.
      set (s2 := if _ && _ && _ then _ else _).
      destruct (IH next (set_sampleQueue rest s2) eq_refl) as [n Hn].
      exists (2 + n)%nat. rewrite worker_sections_add, <- Hn. f_equal.
      simpl. unfold worker_section at 2. simpl.
      rewrite deliver_item_eq, Hb. unfold worker_section. simpl.
      rewrite request_if_started_eq. fold s2. unfold pop_or_leave.
      assert (_sampleQueue s2 = next :: rest) as ->; [|done].
      subst s2. by destruct (_ && _ && _); simpl; rewrite Hq.
    + exists 1%nat. simpl. unfold worker_section. simpl.
      by rewrite deliver_item_eq, Hb.
    + rewrite request_if_started_eq.
      set (s2 := if _ && _ && _ then _ else _).
      destruct (IH next (set_sampleQueue rest s2) eq_refl) as [n Hn].
      exists (2 + n)%nat. rewrite worker_sections_add, <- Hn. f_equal.
      simpl. unfold worker_section at 2. simpl.
      unfold worker_section. simpl.
      rewrite request_if_started_eq. fold s2. unfold pop_or_leave.
      assert (_sampleQueue s2 = next :: rest) as ->; [|done].
      subst s2. by destruct (_ && _ && _); simpl; rewrite Hq.
Qed.

Lemma after_drain_work_result (op : StreamOperation) (s : Sink) :
  forall fFlush : bool,
    fst (before_drain op s) = Normal (Some fFlush) ->
    after_drain_result op (drained (_sampleQueue s))
      (drain_result fFlush (snd (before_drain op s)))
    = work_result op s.
Proof.
  intros fFlush. rewrite before_drain_eq. unfold after_drain_result,
    work_result. 
  destruct op, (_isShutdown s) eqn:Hsd; simpl; intros [= <-]; simpl;
    rewrite ?Hsd; try done.
Qed.

Lemma drain_result_nil (fFlush : bool) (s : Sink) :
  _sampleQueue s = [] -> drain_result fFlush s = s.
Proof.
  intros Hq. unfold drain_result. rewrite Hq.
  destruct s as [st sd fg stt gs ct sq ev wi dl]; simpl in Hq; subst sq.
  unfold drain_from, set_sampleQueue, set_delivered, set_events. simpl.
  destruct (requesting _ _); simpl; by rewrite !app_nil_r.
Qed.

(** A work item run to completion is the run of its sections. *)
Lemma work_item_in_sections (op : StreamOperation)
    (rest : list StreamOperation) (s : Sink) :
  workItems s = op :: rest ->
  exists n : nat,
    worker_sections n (s, WorkerIdle)
    = (OnDispatchWorkItem op (set_workItems rest s), WorkerIdle).
Proof.
  intros Hw. rewrite OnDispatchWorkItem_closed_form.
  set (s0 := set_workItems rest s).
  assert (worker_section (s, WorkerIdle)
          = match before_drain op s0 with
            | (Normal (Some fFlush), s1) => (s1, AtDrain op fFlush)
            | r => (caught r, WorkerIdle)
            end) as Hfirst.
  { unfold worker_section. simpl. by rewrite Hw. }
  destruct (before_drain op s0) as [[[fFlush|]|hr] s1] eqn:Hbefore.
  - pose proof (after_drain_work_result op s0 fFlush) as Hres.
    rewrite Hbefore in Hres. specialize (Hres eq_refl).
    change (snd (Normal (Some fFlush), s1)) with s1 in Hres.
    assert (_sampleQueue s0 = _sampleQueue s1) as Hq.
    { rewrite before_drain_eq in Hbefore.
      by destruct op, (_isShutdown s0); simplify_eq. }
    rewrite <- Hres, Hq.
    destruct (_sampleQueue s1) as [|x q] eqn:Hq1.
    + exists 3%nat. simpl. rewrite Hfirst.
      unfold worker_section. simpl. unfold pop_or_leave. rewrite Hq1. simpl.
      by rewrite caught_after_drain, drain_result_nil.
    + destruct (loop_in_sections op fFlush q x (set_sampleQueue q s1) eq_refl)
        as [n Hn].
      rewrite drain_loop_spec in Hn by done. simpl in Hn.
      exists (2 + (n + 1))%nat.
      rewrite worker_sections_add. simpl worker_sections at 2.
      rewrite Hfirst. unfold worker_section at 1. simpl.
      unfold pop_or_leave. rewrite Hq1.
      rewrite worker_sections_add, Hn. simpl. unfold worker_section. simpl.
      rewrite caught_after_drain. do 2 f_equal.
      unfold drain_result. by rewrite Hq1.
  - exists 1%nat. simpl. rewrite Hfirst. f_equal. simpl.
    rewrite before_drain_eq in Hbefore. unfold work_result.
    by destruct op, (_isShutdown s0) eqn:Hsd; simplify_eq.
  - exists 1%nat. simpl. rewrite Hfirst. f_equal. simpl.
    rewrite before_drain_eq in Hbefore. unfold work_result.
    rewrite HandleError_eq.
    by destruct op, (_isShutdown s0) eqn:Hsd; simplify_eq; rewrite Hsd.
Qed.

Lemma irun_app (acts1 acts2 : list Action) (sys : Sink * WorkerPc) :
  irun (acts1 ++ acts2) sys = irun acts2 (irun acts1 sys).
Proof. unfold irun. apply foldl_app. Qed.

Lemma irun_cons (a : Action) (acts : list Action) (sys : Sink * WorkerPc) :
  irun (a :: acts) sys = irun acts (istep a sys).
Proof. done. Qed.

Lemma worker_sections_irun (n : nat) (sys : Sink * WorkerPc) :
  worker_sections n sys = irun (replicate n DoWork) sys.
Proof.
  revert sys. induction n as [|n IH]; intros sys; [done|].
  simpl. by rewrite IH.
Qed.

(** Every run with work items run to completion is a run in sections. *)
Lemma run_is_irun (acts : list Action) :
  forall s : Sink,
  exists acts' : list Action,
    irun acts' (s, WorkerIdle) = (run acts s, WorkerIdle).
Proof.
  induction acts as [|a acts IH]; intros s.
  - by exists [].
  - rewrite run_cons. destruct (IH (step a s)) as [acts' Hacts'].
    assert (exists pre : list Action,
              irun pre (s, WorkerIdle) = (step a s, WorkerIdle))
      as [pre Hpre].
    { assert (a = DoWork \/ istep a (s, WorkerIdle) = (step a s, WorkerIdle))
        as [-> | Hcall] by (destruct a; auto).
      2: { by exists [a]. }
      unfold step, perform, worker_step. simpl.
      destruct (workItems s) as [|op rest] eqn:Hw; [by exists []|].
      destruct (work_item_in_sections op rest s Hw) as [n Hn].
      exists (replicate n DoWork). by rewrite <- worker_sections_irun. }
    exists (pre ++ acts'). by rewrite irun_app, Hpre.
Qed.

(** What one section of the worker does to the sink: it leaves the
    state, the flag and the current type alone, takes at most the head off
    the queue, and hands on at most the sample it holds. *)
Lemma worker_section_effect (s : Sink) (pc : WorkerPc) :
  section_effect s pc (worker_section (s, pc)).
Proof.
  assert (forall s' : Sink, forall pc' : WorkerPc,
    _state s' = _state s -> _isShutdown s' = _isShutdown s ->
    _spCurrentType s' = _spCurrentType s ->
    _guiCurrentSubtype s' = _guiCurrentSubtype s ->
    delivered s' = delivered s -> _sampleQueue s' = _sampleQueue s ->
    in_hand pc' = [] ->
    section_effect s pc (s', pc')) as Hkeep.
  { intros s' pc' E0 E1 E2 E3 Hd Hq Hh. unfold section_effect. simpl.
    split; [done|]. split; [exists []; by rewrite Hq|].
    exists []. rewrite Hd, Hq, Hh, app_nil_r. split; [done|].
    simpl. by apply sublist_inserts_l. }
  assert (forall op f (s1 : Sink),
    _state s1 = _state s -> _isShutdown s1 = _isShutdown s ->
    _spCurrentType s1 = _spCurrentType s ->
    _guiCurrentSubtype s1 = _guiCurrentSubtype s ->
    delivered s1 = delivered s -> _sampleQueue s1 = _sampleQueue s ->
    in_hand pc = [] ->
    section_effect s pc (pop_or_leave op f s1)) as Hpop.
  { intros op f s1 E0 E1 E2 E3 Hd Hq Hh.
    unfold section_effect, pop_or_leave. rewrite Hq, Hh.
    destruct (_sampleQueue s) as [|x q] eqn:Hqs; simpl.
    - split; [done|]. split; [exists []; by rewrite ?Hq|].
      exists []. rewrite Hd, ?Hq, app_nil_r. by split.
    - split; [done|]. split; [by exists [x]|]. exists [].
      rewrite Hd, app_nil_r. split; [done|]. by destruct x. }
  destruct pc as [|op f|op f x|op f b|op b]; unfold worker_section; simpl.
  - destruct (workItems s) as [|op rest]; simpl; [by apply Hkeep|].
    rewrite before_drain_eq.
    destruct op, (_isShutdown s) eqn:Hsd; simpl; rewrite ?Hsd; simpl;
      rewrite ?HandleError_eq; simpl; rewrite ?Hsd; by apply Hkeep.
  - by apply Hpop.
  - rewrite deliver_item_eq.
    destruct x as [smp|mt]; [destruct (has_buffer smp)|]; simpl;
      unfold section_effect; simpl;
      (split; [done|]); (split; [by exists []|]).
    + exists [smp]. by split.
    + exists []. rewrite app_nil_r. split; [done|]. simpl.
      by apply sublist_cons.
    + exists []. rewrite app_nil_r. by split.
  - rewrite request_if_started_eq.
    set (s1 := if _ && _ && _ then _ else _).
    assert (_state s1 = _state s /\ _isShutdown s1 = _isShutdown s /\
            _spCurrentType s1 = _spCurrentType s /\
            _guiCurrentSubtype s1 = _guiCurrentSubtype s /\
            delivered s1 = delivered s /\ _sampleQueue s1 = _sampleQueue s)
      as (E0 & E1 & E2 & E3 & E4 & E5).
    { subst s1. by destruct (_ && _ && _). }
    by apply Hpop.
  - rewrite caught_after_drain. unfold after_drain_result.
    destruct op, b, (_isShutdown s) eqn:Hsd; by apply Hkeep.
Qed.

(** ** List facts about the closed form *)

Lemma samples_of_app (q1 q2 : list Item) :
  samples_of (q1 ++ q2) = samples_of q1 ++ samples_of q2.
Proof.
  induction q1 as [|[smp|mt] q1 IH]; simpl; by rewrite ?IH.
Qed.

Lemma markers_of_app (q1 q2 : list Item) :
  markers_of (q1 ++ q2) = markers_of q1 ++ markers_of q2.
Proof.
  induction q1 as [|[smp|mt] q1 IH]; simpl; by rewrite ?IH.
Qed.

Lemma drained_taken (q : list Item) :
  drained q = true -> taken q = samples_of q /\ left_over q = [].
Proof.
  induction q as [|[smp|mt] q IH]; simpl; [done| |done].
  destruct (has_buffer smp); [|done].
  intros H. destruct (IH H) as [-> ->]. done.
Qed.

Lemma taken_left_over_sublist (q : list Item) :
  taken q ++ samples_of (left_over q) `sublist_of` samples_of q.
Proof.
  induction q as [|[smp|mt] q IH]; simpl; [done| |done].
  destruct (has_buffer smp); simpl.
  - by apply sublist_skip.
  - by apply sublist_cons.
Qed.

Lemma markers_left_over_sublist (q : list Item) :
  markers_of (left_over q) `sublist_of` markers_of q.
Proof.
  induction q as [|[smp|mt] q IH]; simpl; [done| |].
  - by destruct (has_buffer smp).
  - by apply sublist_cons.
Qed.

Lemma requests_app (evs1 evs2 : list Event) :
  requests (evs1 ++ evs2) = (requests evs1 + requests evs2)%nat.
Proof. unfold requests. by rewrite filter_app, length_app. Qed.

Lemma requests_request_samples (n : nat) : requests (request_samples n) = n.
Proof.
  unfold requests, request_samples.
  induction n as [|n IH]; [done|].
  change (replicate (S n) MEStreamSinkRequestSample)
    with (MEStreamSinkRequestSample :: replicate n MEStreamSinkRequestSample).
  rewrite filter_cons_True by done. simpl. by rewrite IH.
Qed.

Lemma added_app {A} (l new : list A) : added l (l ++ new) = new.
Proof. unfold added. by rewrite drop_app_length. Qed.

(** ** The validity matrix *)

(** The matrix has one row per state and one column per operation, so
    that no lookup falls back on the default of [nth]. *)
Lemma ValidStateMatrix_shape :
  length ValidStateMatrix = State_Count /\
  Forall (fun row => length row = Op_Count) ValidStateMatrix /\
  (forall st, (State_ord st < State_Count)%nat) /\
  (forall op, (Op_ord op < Op_Count)%nat).
Proof.
  repeat split.
  - repeat constructor.
  - intros st. destruct st; unfold State_Count; simpl; lia.
  - intros op. destruct op; unfold Op_Count; simpl; lia.
Qed.

(** C1: for every state and every operation, [ValidateOperation] returns
    [S_OK] exactly when the table of section 4.1 marks the pair valid (the
    matrix of the source and the table of the specification agree entry by
    entry); on an invalid pair it returns [MF_E_NOT_INITIALIZED] if the
    state is NotSet and [MF_E_INVALIDREQUEST] otherwise. *)
Theorem ValidateOperation_matches_table (s : Sink) (op : StreamOperation) :
  matrix_entry (_state s) op = spec_table (_state s) op /\
  (ValidateOperation op s = S_OK <-> spec_table (_state s) op = true) /\
  ValidateOperation op s
  = if spec_table (_state s) op then S_OK
    else if decide (_state s = State_TypeNotSet) then MF_E_NOT_INITIALIZED
    else MF_E_INVALIDREQUEST.
Proof.
  unfold ValidateOperation.
  destruct (_state s), op; vm_compute; intuition congruence.
Qed.

(** ** Flow control *)

(** A dispatch cycle on a queue holding the single sample [P1]: the loop
    requests a sample once after the delivery, and
    [DispatchProcessSample] requests one more because the queue is then
    empty. *)
Lemma one_sample_cycle_requests_twice :
  ~ (forall s : Sink,
       _state s = State_Started -> _isShutdown s = false ->
       let s' := OnDispatchWorkItem OpProcessSample s in
       delivered s' <> delivered s -> _sampleQueue s' = [] ->
       requests (added (events s) (events s')) = 1%nat).
Proof.
  intros H.
  specialize (H (run [DoProcessSample (Some P1)] started_sink)).
  vm_compute in H.
  assert (2 = 1)%nat as Habs by (apply H; congruence).
  discriminate Habs.
Qed.

(** The same cycle on a queue of two samples emits three requests. *)
Example two_sample_cycle_requests_thrice :
  let s := run [DoProcessSample (Some P1); DoProcessSample (Some P2)]
             started_sink in
  let s' := step DoWork s in
  delivered s' = [P1; P2] /\ _sampleQueue s' = [] /\
  added (events s) (events s') = request_samples 3.
Proof. by vm_compute. Qed.

(** C2 (amended): in state Started, a ProcessSample dispatch cycle that
    no call interrupts hands to the callback every queued sample in front
    of the first one without a buffer, emits one RequestSample per sample
    it delivers, and one more when the drain ends on the empty queue; a
    cycle that delivers k samples and empties the queue emits k+1
    RequestSample events. *)
Theorem dispatch_cycle_requests (s : Sink) :
  _state s = State_Started -> _isShutdown s = false ->
  let s' := OnDispatchWorkItem OpProcessSample s in
  let emptied := drained (_sampleQueue s) in
  exists new : list Sample,
    new = taken (_sampleQueue s) /\
    delivered s' = delivered s ++ new /\
    events s' = events s ++
      request_samples (length new + (if emptied then 1 else 0)) /\
    requests (added (events s) (events s'))
    = (length new + (if emptied then 1 else 0))%nat /\
    (emptied = true ->
     new = samples_of (_sampleQueue s) /\ _sampleQueue s' = []).
Proof.
  intros Hst Hlive s' emptied. subst s'.
  rewrite OnDispatchWorkItem_ProcessSample by done.
  exists (taken (_sampleQueue s)).
  assert (requesting false s = true) as Hreq.
  { unfold requesting. rewrite Hst, Hlive. done. }
  assert (forall n, request_samples n ++ [MEStreamSinkRequestSample]
                    = request_samples (n + 1)) as Hsnoc.
  { intros n. unfold request_samples.
    by rewrite replicate_add. }
  subst emptied. destruct (drained (_sampleQueue s)) eqn:Hd;
    unfold emit, drain_result, drain_from; simpl; rewrite Hreq;
    rewrite <- ?app_assoc, ?Hsnoc, ?Nat.add_0_r, ?added_app,
      ?requests_request_samples;
    repeat split; try done.
  - by apply drained_taken.
  - by apply drained_taken.
Qed.

Lemma dispatch_cycle_requests_witness :
  let s := run [DoProcessSample (Some P1); DoProcessSample (Some P2)]
             started_sink in
  let s' := OnDispatchWorkItem OpProcessSample s in
  exists new : list Sample,
    new = taken (_sampleQueue s) /\
    delivered s' = delivered s ++ new /\
    events s' = events s ++
      request_samples (length new +
                       (if drained (_sampleQueue s) then 1 else 0)) /\
    requests (added (events s) (events s'))
    = (length new + (if drained (_sampleQueue s) then 1 else 0))%nat /\
    (drained (_sampleQueue s) = true ->
     new = samples_of (_sampleQueue s) /\ _sampleQueue s' = []).
Proof.
  intros s s'.
  apply (dispatch_cycle_requests s); reflexivity.
Defined.

(** ** The public operations, in closed form *)

Lemma ValidateOperation_SetMediaType (s : Sink) :
  ValidateOperation OpSetMediaType s = S_OK.
Proof. unfold ValidateOperation. by destruct (_state s). Qed.

Lemma SetCurrentMediaType_closed_form (mt : MediaType) (s : Sink) :
  SetCurrentMediaType (Some mt) s = SetCurrentMediaType_result mt s.
Proof.
  unfold SetCurrentMediaType, SetCurrentMediaType_body,
    SetCurrentMediaType_result, ProcessFormatChange, QueueAsyncOperation.
  unfold_M. rewrite ValidateOperation_SetMediaType.
  generalize (IsMediaTypeSupported (Some mt) s). intros hr.
  destruct (_isShutdown s) eqn:Hsd; simpl; [done|].
  destruct (_state s) eqn:Hst; simpl;
    destruct hr; simpl;
    destruct (MF_MT_SUBTYPE mt) as [g|] eqn:Hsub; simpl;
    rewrite ?Hst; try done.
Qed.

Lemma SetCurrentMediaType_null (s : Sink) :
  SetCurrentMediaType None s = (E_INVALIDARG, s).
Proof. done. Qed.

(** [ProcessSample] case by case. *)
Lemma ProcessSample_closed_form (smp : Sample) (s : Sink) :
  ProcessSample (Some smp) s
  = if _isShutdown s then (MF_E_SHUTDOWN, s)
    else match _state s with
         | State_Started =>
             (S_OK,
              set_workItems (workItems s ++ [OpProcessSample])
                (set_sampleQueue (_sampleQueue s ++ [ItemSample smp]) s))
         | State_Paused =>
             (S_OK, set_sampleQueue (_sampleQueue s ++ [ItemSample smp]) s)
         | State_TypeNotSet => (MF_E_NOT_INITIALIZED, s)
         | _ => (MF_E_INVALIDREQUEST, s)
         end.
Proof.
  unfold ProcessSample, ValidateOperation, QueueAsyncOperation.
  destruct (_isShutdown s) eqn:Hsd; simpl; [done|].
  by destruct (_state s) eqn:Hst.
Qed.

Lemma Flush_closed_form (s : Sink) :
  Flush s
  = if _isShutdown s then (MF_E_SHUTDOWN, s)
    else (S_OK, drain_result true s).
Proof.
  unfold Flush. unfold_M.
  destruct (_isShutdown s) eqn:Hsd; simpl; [done|].
  by rewrite DropSamplesFromQueue_spec.
Qed.

Lemma worker_step_closed_form (s : Sink) :
  worker_step s
  = match workItems s with
    | [] => None
    | op :: rest => Some (work_result op (set_workItems rest s))
    end.
Proof.
  unfold worker_step. destruct (workItems s); [done|].
  by rewrite OnDispatchWorkItem_closed_form.
Qed.

Lemma IsMediaTypeSupported_frame (p : option MediaType) (s s' : Sink) :
  _isShutdown s' = _isShutdown s ->
  _spCurrentType s' = _spCurrentType s ->
  _guiCurrentSubtype s' = _guiCurrentSubtype s ->
  IsMediaTypeSupported p s' = IsMediaTypeSupported p s.
Proof. intros H1 H2 H3. unfold IsMediaTypeSupported. by rewrite H1, H2, H3. Qed.

(** Whether a media type is accepted depends on the state, the shutdown
    flag and the current type only. *)
Lemma SetCurrentMediaType_fst_frame (mt : MediaType) (s s' : Sink) :
  _state s' = _state s ->
  _isShutdown s' = _isShutdown s ->
  _spCurrentType s' = _spCurrentType s ->
  _guiCurrentSubtype s' = _guiCurrentSubtype s ->
  fst (SetCurrentMediaType (Some mt) s')
  = fst (SetCurrentMediaType (Some mt) s).
Proof.
  intros H0 H1 H2 H3. rewrite !SetCurrentMediaType_closed_form.
  unfold SetCurrentMediaType_result.
  rewrite (IsMediaTypeSupported_frame _ s s') by done. rewrite H0, H1.
  destruct (_isShutdown s); [done|].
  destruct (bool_decide _ && FAILED _); [done|].
  by destruct (MF_MT_SUBTYPE mt), (_state s).
Qed.

(** An accepted media type on a sink that is beyond Ready. *)
Lemma SetCurrentMediaType_accepted_streaming (mt : MediaType) (s : Sink) :
  (1 < State_ord (_state s))%nat ->
  fst (SetCurrentMediaType (Some mt) s) = S_OK ->
  exists g : GUID,
    MF_MT_SUBTYPE mt = Some g /\
    _isShutdown s = false /\
    snd (SetCurrentMediaType (Some mt) s)
    = set_workItems (workItems s ++ [OpSetMediaType])
        (set_sampleQueue (_sampleQueue s ++ [ItemMediaType mt])
           (set_guiCurrentSubtype g (set_spCurrentType (Some mt) s))).
Proof.
  intros Hord. rewrite SetCurrentMediaType_closed_form.
  unfold SetCurrentMediaType_result.
  destruct (_isShutdown s); [done|].
  destruct (bool_decide _ && FAILED _) eqn:Hrej; simpl.
  - intros Hok. rewrite Hok in Hrej. by rewrite andb_false_r in Hrej.
  - destruct (MF_MT_SUBTYPE mt) as [g|]; [|done].
    intros _. exists g. by destruct (_state s); simpl in Hord; try lia.
Qed.

(** ** Delivery order *)

(** A call other than Flush hands nothing to the callback, and what it
    appends to the queue is the sample it was called with. *)
Lemma call_keeps_order (a : Action) (s : Sink) :
  a <> DoWork -> is_flush a = false ->
  delivered (step a s) = delivered s /\
  samples_of (_sampleQueue (step a s))
    `sublist_of` samples_of (_sampleQueue s) ++ pushed [a].
Proof.
  intros Hwork Hflush.
  assert (forall s' : Sink, forall l : list Sample,
    delivered s' = delivered s -> _sampleQueue s' = _sampleQueue s ->
    delivered s' = delivered s /\
    samples_of (_sampleQueue s')
      `sublist_of` samples_of (_sampleQueue s) ++ l) as Hkeep.
  { intros s' l Hd Hq. rewrite Hq. split; [done|].
    by apply sublist_inserts_r. }
  unfold step. destruct a as [[mt|]|start| | | |[smp|]| | |]; try done;
    unfold perform.
  - rewrite SetCurrentMediaType_closed_form.
    unfold SetCurrentMediaType_result.
    destruct (_isShutdown s),
      (bool_decide (_state s <> State_TypeNotSet)
       && FAILED (IsMediaTypeSupported (Some mt) s)),
      (MF_MT_SUBTYPE mt), (_state s);
      simpl; try (by apply Hkeep);
      (split; [done|]); by rewrite samples_of_app, !app_nil_r.
  - by apply Hkeep.
  - unfold Start. destruct (SUCCEEDED _); simpl; [|by apply Hkeep].
    destruct (decide _); by apply Hkeep.
  - unfold Restart. destruct (SUCCEEDED _); by apply Hkeep.
  - unfold Pause. destruct (SUCCEEDED _); by apply Hkeep.
  - unfold Stop. destruct (SUCCEEDED _); by apply Hkeep.
  - rewrite ProcessSample_closed_form.
    destruct (_isShutdown s), (_state s); simpl; try (by apply Hkeep);
      (split; [done|]); by rewrite samples_of_app.
  - by apply Hkeep.
  - unfold Shutdown. destruct (_isShutdown s); simpl; [by apply Hkeep|].
    split; [done|]. apply sublist_nil_l.
Qed.

(** One step, of a caller or of the worker, keeps the order. *)
Lemma istep_keeps_order (a : Action) (sys : Sink * WorkerPc) :
  is_flush a = false ->
  exists d : list Sample,
    delivered (fst (istep a sys)) = delivered (fst sys) ++ d /\
    d ++ in_hand (snd (istep a sys))
      ++ samples_of (_sampleQueue (fst (istep a sys)))
      `sublist_of`
      in_hand (snd sys) ++ samples_of (_sampleQueue (fst sys)) ++ pushed [a].
Proof.
  intros Hflush. destruct sys as [s pc].
  destruct (decide (a = DoWork)) as [->|Hwork].
  - destruct (worker_section_effect s pc) as (_ & _ & d & Hd & Hs).
    exists d. simpl. by rewrite app_nil_r.
  - destruct (call_keeps_order a s Hwork Hflush) as [Hd Hs].
    assert (istep a (s, pc) = (step a s, pc)) as -> by (by destruct a).
    exists []. simpl. rewrite Hd, app_nil_r. split; [done|].
    by apply sublist_app.
Qed.

(** A run in which nobody calls Flush keeps the order: what the callback
    has received, then the sample the worker holds, then the queued
    samples, is what the worker held and the queue held before, then the
    samples pushed since, with some left out. *)
Lemma irun_keeps_order (acts : list Action) :
  forall sys : Sink * WorkerPc,
    forallb (fun a => negb (is_flush a)) acts = true ->
    exists d : list Sample,
      delivered (fst (irun acts sys)) = delivered (fst sys) ++ d /\
      d ++ in_hand (snd (irun acts sys))
        ++ samples_of (_sampleQueue (fst (irun acts sys)))
        `sublist_of`
        in_hand (snd sys) ++ samples_of (_sampleQueue (fst sys))
          ++ pushed acts.
Proof.
  induction acts as [|a acts IH]; intros sys Hacts.
  - exists []. simpl. by rewrite !app_nil_r.
  - simpl in Hacts. apply andb_true_iff in Hacts as [Ha Hacts].
    apply negb_true_iff in Ha. rewrite irun_cons.
    destruct (istep_keeps_order a sys Ha) as (d1 & Hd1 & Hs1).
    destruct (IH (istep a sys) Hacts) as (d2 & Hd2 & Hs2).
    exists (d1 ++ d2). rewrite Hd2, Hd1, <- !app_assoc. split; [done|].
    assert (pushed (a :: acts) = pushed [a] ++ pushed acts) as ->.
    { by destruct a as [| | | | |[smp|]| | |]. }
    trans (d1 ++ (in_hand (snd (istep a sys))
                  ++ samples_of (_sampleQueue (fst (istep a sys))))
              ++ pushed acts).
    + apply sublist_app; [done|]. by rewrite <- app_assoc.
    + rewrite !app_assoc. apply sublist_app; [|done].
      by rewrite <- !app_assoc.
Qed.

(** With Flush the order is lost: the worker holds [P1] when a caller's
    Flush hands [P2] to the callback. *)
Example flush_overtakes_the_worker :
  let sys := irun [DoProcessSample (Some P1); DoWork; DoWork;
                   DoProcessSample (Some P2); DoFlush; DoWork]
               (started_sink, WorkerIdle) in
  delivered (fst sys) = [P2; P1].
Proof. by vm_compute. Qed.

(** With [P1] pushed and the format change submitted, the new descriptor
    is the current one although [P1] still sits in the queue, undelivered:
    the descriptor is applied by [SetCurrentMediaType] itself, not when
    the marker comes out of the queue. *)
Lemma format_applied_before_P1_is_delivered :
  ~ (forall (s : Sink) (smp : Sample) (F : MediaType),
       _state s = State_Started -> _isShutdown s = false ->
       let s2 := run [DoProcessSample (Some smp);
                      DoSetCurrentMediaType (Some F)] s in
       _spCurrentType s2 = Some F -> smp ∈ delivered s2).
Proof.
  intros H.
  specialize (H started_sink P1 mt_qvga eq_refl eq_refl eq_refl).
  vm_compute in H. by apply elem_of_nil in H.
Qed.

(** The whole scenario on the sample data: the descriptor changes at the
    call, the callback sees [P1] and [P2] and never the marker. *)
Example format_change_scenario :
  let s2 := run [DoProcessSample (Some P1);
                 DoSetCurrentMediaType (Some mt_qvga)] started_sink in
  let s3 := run [DoProcessSample (Some P2)] s2 in
  let s4 := run [DoWork; DoWork; DoWork] s3 in
  _spCurrentType started_sink = Some mt_vga /\
  _spCurrentType s2 = Some mt_qvga /\ delivered s2 = [] /\
  _sampleQueue s3 = [ItemSample P1; ItemMediaType mt_qvga; ItemSample P2] /\
  delivered s4 = [P1; P2] /\ _sampleQueue s4 = [] /\ workItems s4 = [].
Proof. by vm_compute. Qed.

(** What a drain does with a queue whose front part drains to its
    end. *)
Lemma drain_app_drained (q1 q2 : list Item) :
  drained q1 = true ->
  taken (q1 ++ q2) = samples_of q1 ++ taken q2 /\
  left_over (q1 ++ q2) = left_over q2 /\
  drained (q1 ++ q2) = drained q2.
Proof.
  induction q1 as [|[smp|mt] q1 IH]; simpl; [done| |done].
  destruct (has_buffer smp); [|done]. intros Hd.
  destruct (IH Hd) as (-> & -> & ->). done.
Qed.

(** A marker at the head of the queue: the worker takes it off, hands
    nothing to the callback and queues no event for it. *)
Lemma marker_is_dropped (op : StreamOperation) (fFlush : bool) (s : Sink)
    (mt : MediaType) (rest : list Item) :
  _sampleQueue s = ItemMediaType mt :: rest ->
  worker_sections 2 (s, AtDrain op fFlush)
  = (set_sampleQueue rest s, AfterDeliver op fFlush false).
Proof.
  intros Hq. cbn [worker_sections]. unfold worker_section at 2.
  cbn [fst snd]. unfold pop_or_leave. rewrite Hq.
  unfold worker_section. cbn [fst snd]. by rewrite deliver_item_eq.
Qed.

(** C3 (amended): on a live stream sink in state Started or Paused, with
    samples P1 and P2 pushed and an accepted format change F submitted
    between them, the new descriptor is current as soon as SetFormat
    returns (P1 may still be queued), and the queue holds P1, the marker
    of F and P2 in that order.  Whatever callers and the worker do
    afterwards, Flush apart, the callback receives samples in their
    submission order only: what it has received, then the sample the
    worker holds, then what is still queued, is a subsequence of the
    samples held and queued before, then P1, P2 and the samples pushed
    later.  When the worker meets the marker at the head of the queue it
    takes it off and hands nothing to the callback for it.  And when no
    other work is pending, the worker is idle and every queued sample, P1
    and P2 carry a buffer, the worker's next sections hand to the callback
    the samples queued before, then P1, then P2, and leave the queue
    empty, with F still the current descriptor. *)
Theorem format_change_keeps_sample_order
    (s : Sink) (pc : WorkerPc) (smp1 smp2 : Sample) (F : MediaType)
    (later : list Action) :
  _isShutdown s = false ->
  _state s = State_Started \/ _state s = State_Paused ->
  fst (SetCurrentMediaType (Some F) s) = S_OK ->
  forallb (fun a => negb (is_flush a)) later = true ->
  let sys2 := irun [DoProcessSample (Some smp1);
                    DoSetCurrentMediaType (Some F)] (s, pc) in
  let sys3 := irun [DoProcessSample (Some smp2)] sys2 in
  let sys4 := irun later sys3 in
  _spCurrentType (fst sys2) = Some F /\
  delivered (fst sys2) = delivered s /\
  _sampleQueue (fst sys3)
  = _sampleQueue s ++ [ItemSample smp1; ItemMediaType F; ItemSample smp2] /\
  delivered (fst sys3) = delivered s /\
  (exists d : list Sample,
     delivered (fst sys4) = delivered s ++ d /\
     d ++ in_hand (snd sys4) ++ samples_of (_sampleQueue (fst sys4))
       `sublist_of`
       in_hand pc ++ samples_of (_sampleQueue s) ++ [smp1; smp2]
         ++ pushed later) /\
  (forall (op : StreamOperation) (fFlush : bool) (s0 : Sink)
          (rest : list Item),
     _sampleQueue s0 = ItemMediaType F :: rest ->
     worker_sections 2 (s0, AtDrain op fFlush)
     = (set_sampleQueue rest s0, AfterDeliver op fFlush false)) /\
  (pc = WorkerIdle -> workItems s = [] ->
   drained (_sampleQueue s) = true ->
   has_buffer smp1 = true -> has_buffer smp2 = true ->
   exists n : nat,
     let sys5 := worker_sections n sys3 in
     delivered (fst sys5)
     = delivered s ++ samples_of (_sampleQueue s) ++ [smp1; smp2] /\
     _sampleQueue (fst sys5) = [] /\
     _spCurrentType (fst sys5) = Some F /\
     snd sys5 = WorkerIdle).
Proof.
  intros Hlive Hst Hacc Hlater sys2 sys3 sys4.
  assert (snd sys3 = pc /\
          _spCurrentType (fst sys2) = Some F /\
          delivered (fst sys2) = delivered s /\
          _sampleQueue (fst sys3)
          = _sampleQueue s ++
            [ItemSample smp1; ItemMediaType F; ItemSample smp2] /\
          delivered (fst sys3) = delivered s /\
          _isShutdown (fst sys3) = false /\
          _spCurrentType (fst sys3) = Some F /\
          exists (op : StreamOperation) (rest : list StreamOperation),
            (op = OpProcessSample \/ op = OpSetMediaType) /\
            workItems (fst sys3) = workItems s ++ op :: rest)
    as (H0 & H1 & H2 & H3 & H4 & H5 & H6 & op & rest & Hop & Hw).
  { subst sys3 sys2. unfold irun. cbn [foldl istep fst snd].
    unfold step, perform.
    set (s1 := snd (ProcessSample (Some smp1) s)).
    assert (_state s1 = _state s /\ _isShutdown s1 = false /\
            _spCurrentType s1 = _spCurrentType s /\
            _guiCurrentSubtype s1 = _guiCurrentSubtype s /\
            delivered s1 = delivered s /\
            _sampleQueue s1 = _sampleQueue s ++ [ItemSample smp1] /\
            workItems s1
            = workItems s ++
              (if bool_decide (_state s = State_Started)
               then [OpProcessSample] else []))
      as (E0 & E1 & E2 & E3 & E4 & E5 & E6).
    { subst s1. rewrite ProcessSample_closed_form, Hlive.
      destruct Hst as [Hst|Hst]; rewrite Hst; simpl;
        by rewrite ?app_nil_r. }
    assert (1 < State_ord (_state s1))%nat as Hord.
    { rewrite E0. destruct Hst as [Hst|Hst]; rewrite Hst; simpl; lia. }
    assert (fst (SetCurrentMediaType (Some F) s1) = S_OK) as Hacc1.
    { rewrite <- Hacc. apply SetCurrentMediaType_fst_frame; congruence. }
    destruct (SetCurrentMediaType_accepted_streaming F s1 Hord Hacc1)
      as (g & Hg & _ & ->).
    rewrite ProcessSample_closed_form. simpl.
    rewrite E1, E0, E4, E5, E6.
    destruct Hst as [Hst|Hst]; rewrite Hst; simpl;
      rewrite <- ?app_assoc; repeat (split; [done|]).
    - exists OpProcessSample, [OpSetMediaType; OpProcessSample].
      split; [by left|]. by rewrite <- ?app_assoc.
    - exists OpSetMediaType, []. split; [by right|].
      by rewrite ?app_nil_r. }
  repeat (split; [done|]). split; [|split].
  - destruct (irun_keeps_order later sys3 Hlater) as (d & Hd & Hs).
    exists d. subst sys4. rewrite Hd, H4. split; [done|].
    etrans; [exact Hs|]. rewrite H0, H3, !samples_of_app. simpl.
    by rewrite <- !app_assoc.
  - intros op0 fFlush s0 rest0. apply marker_is_dropped.
  - intros Hpc Hnone Hdr Hb1 Hb2. clearbody sys2 sys3 sys4.
    rewrite Hnone in Hw. cbn [app] in Hw.
    destruct (work_item_in_sections op rest (fst sys3) Hw) as (n & Hn).
    exists n. cbn zeta.
    assert (sys3 = (fst sys3, WorkerIdle)) as ->.
    { rewrite <- Hpc, <- H0. by destruct sys3. }
    rewrite Hn. cbn [fst snd].
    rewrite OnDispatchWorkItem_closed_form. unfold work_result.
    assert (_isShutdown (set_workItems rest (fst sys3)) = false) as ->
      by done.
    assert (_sampleQueue (set_workItems rest (fst sys3))
            = _sampleQueue s ++
              [ItemSample smp1; ItemMediaType F; ItemSample smp2]) as Hq
      by done.
    destruct (drain_app_drained (_sampleQueue s)
                [ItemSample smp1; ItemMediaType F; ItemSample smp2] Hdr)
      as (Ht & Hl & Hd).
    simpl in Ht, Hl, Hd. rewrite Hb1, Hb2 in Ht, Hl, Hd.
    destruct Hop as [-> | ->]; rewrite ?Hq, ?Hd;
      unfold emit, drain_result, drain_from; simpl;
      rewrite H3, Ht, Hl, H4, H6; done.
Qed.

Lemma format_change_keeps_sample_order_witness :
  let later := [DoWork; DoWork; DoProcessSample (Some P_empty); DoWork] in
  let sys2 := irun [DoProcessSample (Some P1);
                    DoSetCurrentMediaType (Some mt_qvga)]
                (started_sink, WorkerIdle) in
  let sys3 := irun [DoProcessSample (Some P2)] sys2 in
  let sys4 := irun later sys3 in
  _spCurrentType (fst sys2) = Some mt_qvga /\
  delivered (fst sys2) = delivered started_sink /\
  _sampleQueue (fst sys3)
  = _sampleQueue started_sink ++
    [ItemSample P1; ItemMediaType mt_qvga; ItemSample P2] /\
  delivered (fst sys3) = delivered started_sink /\
  (exists d : list Sample,
     delivered (fst sys4) = delivered started_sink ++ d /\
     d ++ in_hand (snd sys4) ++ samples_of (_sampleQueue (fst sys4))
       `sublist_of`
       in_hand WorkerIdle ++ samples_of (_sampleQueue started_sink)
         ++ [P1; P2] ++ pushed later) /\
  (forall (op : StreamOperation) (fFlush : bool) (s0 : Sink)
          (rest : list Item),
     _sampleQueue s0 = ItemMediaType mt_qvga :: rest ->
     worker_sections 2 (s0, AtDrain op fFlush)
     = (set_sampleQueue rest s0, AfterDeliver op fFlush false)) /\
  (WorkerIdle = WorkerIdle -> workItems started_sink = [] ->
   drained (_sampleQueue started_sink) = true ->
   has_buffer P1 = true -> has_buffer P2 = true ->
   exists n : nat,
     let sys5 := worker_sections n sys3 in
     delivered (fst sys5)
     = delivered started_sink ++ samples_of (_sampleQueue started_sink)
       ++ [P1; P2] /\
     _sampleQueue (fst sys5) = [] /\
     _spCurrentType (fst sys5) = Some mt_qvga /\
     snd sys5 = WorkerIdle).
Proof.
  intros later.
  apply (format_change_keeps_sample_order
           started_sink WorkerIdle P1 P2 mt_qvga later).
  - reflexivity.
  - left. reflexivity.
  - reflexivity.
  - reflexivity.
Defined.

(** ** Dropping the queue *)

(** What the drop path does to any queue: it never throws and always
    answers [true], it hands to the callback the samples in front of the
    first one without a buffer, requests nothing, and leaves in the queue
    what is behind that sample. *)
Lemma DropSamplesFromQueue_effect (s : Sink) :
  exists s' : Sink,
    DropSamplesFromQueue s = (Normal true, s') /\
    delivered s' = delivered s ++ taken (_sampleQueue s) /\
    _sampleQueue s' = left_over (_sampleQueue s) /\
    events s' = events s.
Proof.
  exists (drain_result true s). rewrite DropSamplesFromQueue_spec.
  repeat split. unfold drain_result, drain_from, requesting. simpl.
  rewrite andb_false_r. simpl. by rewrite app_nil_r.
Qed.

(** C4: Flush, the drop path, should remove every queued item and deliver
    none.  Evaluated on a paused sink that buffered [P1], the drop hands
    [P1] to the callback; on a queue whose first sample has no buffer it
    stops at that sample and leaves [P2] queued. *)
Theorem DropSamplesFromQueue_delivers :
  let s := run [DoProcessSample (Some P1)] paused_sink in
  let t := run [DoProcessSample (Some P_empty); DoProcessSample (Some P2)]
             paused_sink in
  (_sampleQueue s = [ItemSample P1] /\ delivered s = [] /\
   delivered (snd (DropSamplesFromQueue s)) = [P1] /\
   delivered (snd (Flush s)) = [P1]) /\
  (_sampleQueue t = [ItemSample P_empty; ItemSample P2] /\
   _sampleQueue (snd (DropSamplesFromQueue t)) = [ItemSample P2] /\
   _sampleQueue (snd (Flush t)) = [ItemSample P2]).
Proof. by vm_compute. Qed.

(** ** Setting the media type *)

(** An accepted format change on a started sink replaces the current
    descriptor at once. *)
Lemma SetCurrentMediaType_applies_at_once :
  ~ (forall (s : Sink) (mt : MediaType),
       (1 < State_ord (_state s))%nat ->
       fst (SetCurrentMediaType (Some mt) s) = S_OK ->
       _spCurrentType (snd (SetCurrentMediaType (Some mt) s))
       = _spCurrentType s).
Proof.
  intros H. specialize (H started_sink mt_qvga).
  vm_compute in H.
  assert (Some mt_qvga = Some mt_vga) as Habs by (apply H; [lia|done]).
  discriminate Habs.
Qed.

(** C5 (amended): the first successful SetFormat from state NotSet
    transitions the stream sink to Ready; a successful SetFormat while the
    state is beyond Ready leaves the state unchanged, enqueues a
    FormatChangeMarker into the sample queue and schedules one dispatch
    for it; in state Ready it queues nothing; in every state a successful
    SetFormat makes the new descriptor the current one at once. *)
Theorem SetCurrentMediaType_accepted (s : Sink) (mt : MediaType) :
  fst (SetCurrentMediaType (Some mt) s) = S_OK ->
  let s' := snd (SetCurrentMediaType (Some mt) s) in
  _spCurrentType s' = Some mt /\
  MF_MT_SUBTYPE mt = Some (_guiCurrentSubtype s') /\
  (_state s = State_TypeNotSet ->
   _state s' = State_Ready /\ _sampleQueue s' = _sampleQueue s /\
   workItems s' = workItems s) /\
  (_state s = State_Ready ->
   _state s' = State_Ready /\ _sampleQueue s' = _sampleQueue s /\
   workItems s' = workItems s) /\
  ((1 < State_ord (_state s))%nat ->
   _state s' = _state s /\
   _sampleQueue s' = _sampleQueue s ++ [ItemMediaType mt] /\
   workItems s' = workItems s ++ [OpSetMediaType]).
Proof.
  rewrite SetCurrentMediaType_closed_form.
  unfold SetCurrentMediaType_result.
  destruct (_isShutdown s); [done|].
  destruct (bool_decide _ && FAILED _) eqn:Hrej; simpl.
  { intros Hok. rewrite Hok in Hrej. by rewrite andb_false_r in Hrej. }
  destruct (MF_MT_SUBTYPE mt) as [g|]; [|done].
  intros _.
  destruct (_state s) eqn:Hst; simpl; repeat split; intros; try done; lia.
Qed.

Lemma SetCurrentMediaType_accepted_witness :
  let s' := snd (SetCurrentMediaType (Some mt_qvga) started_sink) in
  _spCurrentType s' = Some mt_qvga /\
  MF_MT_SUBTYPE mt_qvga = Some (_guiCurrentSubtype s') /\
  (_state started_sink = State_TypeNotSet ->
   _state s' = State_Ready /\ _sampleQueue s' = _sampleQueue started_sink /\
   workItems s' = workItems started_sink) /\
  (_state started_sink = State_Ready ->
   _state s' = State_Ready /\ _sampleQueue s' = _sampleQueue started_sink /\
   workItems s' = workItems started_sink) /\
  ((1 < State_ord (_state started_sink))%nat ->
   _state s' = _state started_sink /\
   _sampleQueue s' = _sampleQueue started_sink ++ [ItemMediaType mt_qvga] /\
   workItems s' = workItems started_sink ++ [OpSetMediaType]).
Proof.
  apply (SetCurrentMediaType_accepted started_sink mt_qvga). reflexivity.
Defined.

(** The first SetFormat on a fresh sink. *)
Example SetCurrentMediaType_first :
  SetCurrentMediaType (Some mt_vga) new_sink = (S_OK, ready_sink) /\
  _state ready_sink = State_Ready.
Proof. by vm_compute. Qed.

(** ** Stop *)

(** What holds of Stop whenever the matrix allows it and nothing else is
    pending: the state is Stopped at once, and the work item emits the
    Stopped event after the drop, whatever the drop did. *)
Lemma Stop_completes (s : Sink) :
  ValidateOperation OpStop s = S_OK -> _isShutdown s = false ->
  workItems s = [] ->
  let s1 := snd (Stop s) in
  let s2 := run [DoStop; DoWork] s in
  fst (Stop s) = S_OK /\ _state s1 = State_Stopped /\
  workItems s1 = [OpStop] /\
  _state s2 = State_Stopped /\
  events s2 = events s ++ [MEStreamSinkStopped] /\
  delivered s2 = delivered s ++ taken (_sampleQueue s) /\
  _sampleQueue s2 = left_over (_sampleQueue s).
Proof.
  intros Hval Hlive Hwork. unfold run. cbn [foldl]. unfold step, perform.
  unfold Stop. rewrite Hval. simpl. rewrite Hwork. simpl.
  rewrite OnDispatchWorkItem_closed_form. unfold work_result. simpl.
  rewrite Hlive. simpl. unfold requesting. simpl.
  by rewrite app_nil_r.
Qed.

(** C6: Stop should discard every buffered item without delivering it and
    leave the queue empty.  Evaluated on a paused sink that buffered
    [P1]: Stop ends in Stopped and the Stopped event is emitted, but the
    stop work item hands [P1] to the callback; with a first sample that
    has no buffer the drop stops there, and [P2] is still queued when the
    Stopped event has been emitted. *)
Theorem Stop_delivers_buffered_samples :
  let s := run [DoProcessSample (Some P1)] paused_sink in
  let t := run [DoProcessSample (Some P_empty); DoProcessSample (Some P2)]
             paused_sink in
  let s' := run [DoStop; DoWork] s in
  let t' := run [DoStop; DoWork] t in
  (_state s' = State_Stopped /\
   added (events s) (events s') = [MEStreamSinkStopped] /\
   _sampleQueue s' = [] /\
   delivered s = [] /\ delivered s' = [P1]) /\
  (_state t' = State_Stopped /\
   added (events t) (events t') = [MEStreamSinkStopped] /\
   workItems t' = [] /\
   _sampleQueue t' = [ItemSample P2]).
Proof. by vm_compute. Qed.

(** ** Pushing samples *)

Lemma paused_traffic_step (a : Action) (s : Sink) :
  is_paused_traffic a = true -> paused_idle s ->
  paused_idle (step a s) /\
  delivered (step a s) = delivered s /\
  exists ext : list Item, _sampleQueue (step a s) = _sampleQueue s ++ ext.
Proof.
  intros Ha (Hst & Hlive & Hwork). unfold step, paused_idle.
  destruct a as [p|start| | | |[smp|]| | |]; try done; unfold perform.
  - unfold Pause, ValidateOperation. rewrite Hst. simpl.
    repeat split; try done.
    + apply Forall_app. split; [done|]. by apply Forall_singleton.
    + exists []. by rewrite app_nil_r.
  - rewrite ProcessSample_closed_form, Hlive, Hst. simpl.
    repeat split; try done. by eexists.
  - simpl. repeat split; try done. exists []. by rewrite app_nil_r.
  - simpl. rewrite worker_step_closed_form.
    destruct (workItems s) as [|op rest] eqn:Hw; simpl.
    + rewrite Hw. repeat split; try done. exists []. by rewrite app_nil_r.
    + apply Forall_cons in Hwork as [-> Hrest].
      unfold work_result. simpl. rewrite Hlive. simpl.
      repeat split; try done. exists []. by rewrite app_nil_r.
Qed.

Lemma paused_traffic_run (acts : list Action) :
  forall s : Sink,
    forallb is_paused_traffic acts = true -> paused_idle s ->
    paused_idle (run acts s) /\
    delivered (run acts s) = delivered s /\
    exists ext : list Item, _sampleQueue (run acts s) = _sampleQueue s ++ ext.
Proof.
  induction acts as [|a acts IH]; intros s Hacts Hs.
  - repeat split; try apply Hs. exists []. by rewrite app_nil_r.
  - simpl in Hacts. apply andb_true_iff in Hacts as [Ha Hacts].
    rewrite run_cons.
    destruct (paused_traffic_step a s Ha Hs) as (Hs1 & Hd1 & ext1 & Hq1).
    destruct (IH (step a s) Hacts Hs1) as (Hs2 & Hd2 & ext2 & Hq2).
    split; [done|]. split; [congruence|].
    exists (ext1 ++ ext2). by rewrite Hq2, Hq1, app_assoc.
Qed.

Lemma paused_traffic_istep (a : Action) (s : Sink) :
  is_paused_traffic a = true -> paused_idle s ->
  snd (istep a (s, WorkerIdle)) = WorkerIdle /\
  paused_idle (fst (istep a (s, WorkerIdle))) /\
  delivered (fst (istep a (s, WorkerIdle))) = delivered s /\
  exists ext : list Item,
    _sampleQueue (fst (istep a (s, WorkerIdle))) = _sampleQueue s ++ ext.
Proof.
  intros Ha Hs. destruct (decide (a = DoWork)) as [->|Hwork].
  - destruct Hs as (Hst & Hlive & Hwork). simpl. unfold worker_section.
    simpl. destruct (workItems s) as [|op rest] eqn:Hw; simpl.
    + repeat split; try done; [by rewrite Hw|].
      exists []. by rewrite app_nil_r.
    + apply Forall_cons in Hwork as [-> Hrest].
      rewrite before_drain_eq. simpl. rewrite Hlive. simpl.
      repeat split; try done. exists []. by rewrite app_nil_r.
  - assert (istep a (s, WorkerIdle) = (step a s, WorkerIdle)) as ->
      by (by destruct a).
    split; [done|]. by apply paused_traffic_step.
Qed.

Lemma paused_traffic_irun (acts : list Action) :
  forall s : Sink,
    forallb is_paused_traffic acts = true -> paused_idle s ->
    snd (irun acts (s, WorkerIdle)) = WorkerIdle /\
    paused_idle (fst (irun acts (s, WorkerIdle))) /\
    delivered (fst (irun acts (s, WorkerIdle))) = delivered s /\
    exists ext : list Item,
      _sampleQueue (fst (irun acts (s, WorkerIdle))) = _sampleQueue s ++ ext.
Proof.
  induction acts as [|a acts IH]; intros s Hacts Hs.
  - repeat split; try apply Hs. exists []. by rewrite app_nil_r.
  - simpl in Hacts. apply andb_true_iff in Hacts as [Ha Hacts].
    rewrite irun_cons.
    destruct (paused_traffic_istep a s Ha Hs) as (Hpc & Hs1 & Hd1 & ext1 & Hq1).
    destruct (istep a (s, WorkerIdle)) as [s1 pc1]. simpl in *. subst pc1.
    destruct (IH s1 Hacts Hs1) as (Hpc2 & Hs2 & Hd2 & ext2 & Hq2).
    split; [done|]. split; [done|]. split; [congruence|].
    exists (ext1 ++ ext2). by rewrite Hq2, Hq1, app_assoc.
Qed.

(** A sample pushed while paused is handed to the callback by a dispatch
    that was scheduled before the pause: no Start or Restart is involved. *)
Lemma paused_sample_delivered_without_resume :
  ~ (forall (s : Sink) (smp : Sample) (acts : list Action),
       _state s = State_Paused -> _isShutdown s = false ->
       forallb (fun a => negb (is_resume a)) acts = true ->
       smp ∉ delivered (run (DoProcessSample (Some smp) :: acts) s)).
Proof.
  intros H.
  specialize (H (run [DoProcessSample (Some P1); DoPause] started_sink)
                P2 [DoWork] eq_refl eq_refl eq_refl).
  apply H. vm_compute. apply list_elem_of_In. simpl. auto.
Qed.

(** Nor is a pending dispatch needed: a format change accepted while
    paused schedules one. *)
Example paused_sample_delivered_by_format_change :
  let s := run [DoProcessSample (Some P1);
                DoSetCurrentMediaType (Some mt_qvga); DoWork] paused_sink in
  workItems paused_sink = [] /\ _state s = State_Paused /\
  delivered s = [P1].
Proof. by vm_compute. Qed.

(** C7 (amended): PushSample in state Started appends the sample and
    schedules exactly one dispatch cycle; PushSample in state Paused
    appends the sample to the queue and schedules no dispatch cycle, so,
    when no dispatch is pending or in progress, the worker has nothing to
    run and the sample remains buffered and undelivered for as long as
    only PushSample and Pause are called, that is until a later operation
    schedules a dispatch. *)
Theorem ProcessSample_schedules (s : Sink) (smp : Sample) :
  _isShutdown s = false ->
  (_state s = State_Started ->
   ProcessSample (Some smp) s
   = (S_OK,
      set_workItems (workItems s ++ [OpProcessSample])
        (set_sampleQueue (_sampleQueue s ++ [ItemSample smp]) s))) /\
  (_state s = State_Paused ->
   ProcessSample (Some smp) s
   = (S_OK, set_sampleQueue (_sampleQueue s ++ [ItemSample smp]) s) /\
   (workItems s = [] ->
    let s1 := snd (ProcessSample (Some smp) s) in
    worker_step s1 = None /\
    worker_section (s1, WorkerIdle) = (s1, WorkerIdle) /\
    forall acts : list Action,
      forallb is_paused_traffic acts = true ->
      let sys := irun acts (s1, WorkerIdle) in
      _state (fst sys) = State_Paused /\
      delivered (fst sys) = delivered s /\
      ItemSample smp ∈ _sampleQueue (fst sys))).
Proof.
  intros Hlive. rewrite ProcessSample_closed_form, Hlive.
  split; intros Hst; rewrite Hst; [done|].
  split; [done|]. intros Hwork. simpl. split; [|split].
  - unfold worker_step. simpl. by rewrite Hwork.
  - unfold worker_section. simpl. by rewrite Hwork.
  - intros acts Hacts.
    destruct (paused_traffic_irun acts
                (set_sampleQueue (_sampleQueue s ++ [ItemSample smp]) s) Hacts)
      as (_ & (Hst' & _) & Hd & ext & Hq).
    { repeat split; simpl; try done. by rewrite Hwork. }
    simpl in *. repeat split; try done.
    rewrite Hq. apply elem_of_app. left. apply elem_of_app. right.
    apply list_elem_of_singleton. done.
Qed.

Lemma ProcessSample_schedules_witness :
  (_state paused_sink = State_Started ->
   ProcessSample (Some P1) paused_sink
   = (S_OK,
      set_workItems (workItems paused_sink ++ [OpProcessSample])
        (set_sampleQueue (_sampleQueue paused_sink ++ [ItemSample P1])
           paused_sink))) /\
  (_state paused_sink = State_Paused ->
   ProcessSample (Some P1) paused_sink
   = (S_OK,
      set_sampleQueue (_sampleQueue paused_sink ++ [ItemSample P1])
        paused_sink) /\
   (workItems paused_sink = [] ->
    let s1 := snd (ProcessSample (Some P1) paused_sink) in
    worker_step s1 = None /\
    worker_section (s1, WorkerIdle) = (s1, WorkerIdle) /\
    forall acts : list Action,
      forallb is_paused_traffic acts = true ->
      let sys := irun acts (s1, WorkerIdle) in
      _state (fst sys) = State_Paused /\
      delivered (fst sys) = delivered paused_sink /\
      ItemSample P1 ∈ _sampleQueue (fst sys))).
Proof.
  apply (ProcessSample_schedules paused_sink P1). reflexivity.
Defined.

(** Both pushes on the sample data. *)
Example ProcessSample_started_and_paused :
  (let s := snd (ProcessSample (Some P1) started_sink) in
   _sampleQueue s = [ItemSample P1] /\ workItems s = [OpProcessSample]) /\
  (let s := snd (ProcessSample (Some P1) paused_sink) in
   _sampleQueue s = [ItemSample P1] /\ workItems s = []) /\
  (let s := run [DoProcessSample (Some P2); DoRestart; DoWork]
              paused_sink in
   _state s = State_Started /\ _sampleQueue s = []).
Proof. by vm_compute. Qed.

(** ** Rejected operations *)

(** Stop on a sink whose type was never set is rejected like any other
    operation: the state stays NotSet and nothing is scheduled. *)
Lemma rejected_Stop_does_not_stop :
  ~ (forall s : Sink,
       validation DoStop s <> S_OK ->
       _state (step DoStop s) = State_Stopped).
Proof.
  intros H. specialize (H new_sink). vm_compute in H.
  assert (State_TypeNotSet = State_Stopped) as Habs
    by (apply H; discriminate).
  discriminate Habs.
Qed.

Example rejected_Stop_on_new_sink :
  Stop new_sink = (MF_E_NOT_INITIALIZED, new_sink) /\
  run [DoStop; DoWork] new_sink = new_sink.
Proof. by vm_compute. Qed.

(** C8 (amended): every public operation (SetFormat, Start, Restart,
    Pause, Stop, PushSample) that is rejected by validation returns the
    validation's error and leaves the whole stream sink unchanged: state,
    queue, format descriptor, and nothing is scheduled or emitted; Stop is
    no exception, it transitions to Stopped only when the matrix allows
    it. *)
Theorem rejected_operation_changes_nothing (a : Action) (s : Sink) :
  is_public_operation a = true ->
  validation a s <> S_OK ->
  perform a s = (validation a s, s).
Proof.
  intros Hpub Hrej.
  destruct a as [[mt|]|start| | | |[smp|]| | |]; try done;
    unfold perform, validation in *.
  - rewrite SetCurrentMediaType_closed_form.
    unfold SetCurrentMediaType_result.
    rewrite ValidateOperation_SetMediaType in *. simpl in *.
    destruct (_isShutdown s); [done|].
    destruct (decide (1 <= State_ord (_state s))%nat) as [Hord|Hord];
      [|done].
    rewrite bool_decide_eq_true_2
      by (intros E; rewrite E in Hord; simpl in Hord; lia).
    by destruct (IsMediaTypeSupported (Some mt) s).
  - unfold Start. by destruct (ValidateOperation OpStart s).
  - unfold Restart. by destruct (ValidateOperation OpRestart s).
  - unfold Pause. by destruct (ValidateOperation OpPause s).
  - unfold Stop. by destruct (ValidateOperation OpStop s).
  - unfold ProcessSample.
    destruct (_isShutdown s); [done|]. simpl.
    by destruct (ValidateOperation OpProcessSample s).
Qed.

Lemma rejected_operation_changes_nothing_witness :
  perform DoStop new_sink = (validation DoStop new_sink, new_sink).
Proof.
  apply (rejected_operation_changes_nothing DoStop new_sink).
  - reflexivity.
  - vm_compute. discriminate.
Defined.

(** ** Shutdown *)

Lemma Shutdown_sets_flag (s : Sink) :
  fst (Shutdown s) = S_OK /\ _isShutdown (snd (Shutdown s)) = true.
Proof. unfold Shutdown. by destruct (_isShutdown s) eqn:Hsd. Qed.

(** No operation and no work item resets the flag. *)
Lemma shutdown_flag_is_sticky (a : Action) (s : Sink) :
  _isShutdown s = true -> _isShutdown (step a s) = true.
Proof.
  intros Hsd. unfold step.
  destruct a as [[mt|]|start| | | |[smp|]| | |]; unfold perform.
  - rewrite SetCurrentMediaType_closed_form.
    unfold SetCurrentMediaType_result. by rewrite Hsd.
  - done.
  - unfold Start. destruct (SUCCEEDED _); [|done].
    by destruct (decide _).
  - unfold Restart. by destruct (SUCCEEDED _).
  - unfold Pause. by destruct (SUCCEEDED _).
  - unfold Stop. by destruct (SUCCEEDED _).
  - rewrite ProcessSample_closed_form. by rewrite Hsd.
  - done.
  - rewrite Flush_closed_form. by rewrite Hsd.
  - unfold Shutdown. by rewrite Hsd.
  - simpl. rewrite worker_step_closed_form.
    destruct (workItems s) as [|op rest]; [done|]. simpl.
    by rewrite (proj1 (proj2 (work_result_frame op _))).
Qed.

(** The entry points that do check the flag. *)
Lemma checked_entry_points_after_shutdown (s : Sink) :
  _isShutdown s = true ->
  (forall smp, ProcessSample (Some smp) s = (MF_E_SHUTDOWN, s)) /\
  (forall mt, SetCurrentMediaType (Some mt) s = (MF_E_SHUTDOWN, s)) /\
  (forall mt, IsMediaTypeSupported (Some mt) s = MF_E_SHUTDOWN) /\
  Flush s = (MF_E_SHUTDOWN, s) /\
  (forall met, QueueEvent met s = (MF_E_SHUTDOWN, s)).
Proof.
  intros Hsd. repeat split; intros.
  - by rewrite ProcessSample_closed_form, Hsd.
  - rewrite SetCurrentMediaType_closed_form.
    unfold SetCurrentMediaType_result. by rewrite Hsd.
  - unfold IsMediaTypeSupported. by rewrite Hsd.
  - by rewrite Flush_closed_form, Hsd.
  - by apply QueueEvent_shutdown.
Qed.

(** C9: every public entry point should check the shutdown flag first.
    Evaluated on a sink that was given a type and then shut down: the
    flag is set and [ProcessSample] fails with [MF_E_SHUTDOWN], but
    [Start], [Pause], [Stop] and [Restart] do not look at it; they reach
    [ValidateOperation] with its assertion violated, return [S_OK], change
    [_state] and put a work item on the released work queue.  The media
    sink gets there by itself: [RemoveStreamSink] shuts the stream down
    and keeps it, and the next clock start is forwarded to it. *)
Theorem Start_after_Shutdown_changes_state :
  let s := run [DoSetCurrentMediaType (Some mt_vga); DoShutdown] new_sink in
  let ms := snd (RemoveStreamSink 0
                   (snd (AddStreamSink 0 (Some mt_vga) new_media_sink))) in
  (_isShutdown s = true /\ _state s = State_Ready /\
   ~ ValidateOperation_assert s /\
   ProcessSample (Some P1) s = (MF_E_SHUTDOWN, s)) /\
  (fst (Start 0 s) = S_OK /\ _state (snd (Start 0 s)) = State_Started /\
   workItems (snd (Start 0 s)) = [OpStart]) /\
  (fst (Pause s) = S_OK /\ _state (snd (Pause s)) = State_Paused) /\
  (fst (Stop s) = S_OK /\ _state (snd (Stop s)) = State_Stopped) /\
  (fst (Restart (snd (Pause s))) = S_OK /\
   _state (snd (Restart (snd (Pause s)))) = State_Started) /\
  (_spStreamSink ms = Some s /\ ms_isShutdown ms = false /\
   OnClockStart 0 0 ms
   = Some (S_OK, mkMediaSink false (Some (snd (Start 0 s))) 0)).
Proof.
  repeat split; try reflexivity. vm_compute. discriminate.
Qed.

(** ** The subtype of the current type *)

Lemma IsMediaTypeSupported_subtype (mt : MediaType) (s : Sink) :
  IsMediaTypeSupported (Some mt) s = S_OK ->
  _spCurrentType s <> None ->
  MF_MT_SUBTYPE mt = Some (_guiCurrentSubtype s).
Proof.
  unfold IsMediaTypeSupported. intros Hok Hty.
  rewrite (bool_decide_eq_true_2 _ Hty) in Hok.
  destruct (_isShutdown s); simpl in Hok; [done|].
  destruct (MF_MT_MAJOR_TYPE mt) as [g|]; simpl in Hok; [|done].
  destruct (decide (g <> MFMediaType_Video)); simpl in Hok; [done|].
  destruct (MF_MT_SUBTYPE mt) as [g'|]; [|done].
  destruct (decide (g' <> _guiCurrentSubtype s)) as [|Heq]; [done|].
  f_equal. by apply dec_stable in Heq.
Qed.

Lemma IsMediaTypeSupported_other_subtype (mt : MediaType) (s : Sink) :
  _isShutdown s = false ->
  _spCurrentType s <> None ->
  MF_MT_SUBTYPE mt <> Some (_guiCurrentSubtype s) ->
  FAILED (IsMediaTypeSupported (Some mt) s) = true /\
  (is_Some (MF_MT_MAJOR_TYPE mt) ->
   IsMediaTypeSupported (Some mt) s = MF_E_INVALIDTYPE).
Proof.
  intros Hlive Hty Hsub.
  destruct (IsMediaTypeSupported (Some mt) s) eqn:Hsup.
  { exfalso. by apply Hsub, IsMediaTypeSupported_subtype. }
  all: split; [done|]; intros [g Hg]; revert Hsup;
    unfold IsMediaTypeSupported; rewrite Hlive, Hg; simpl;
    destruct (decide (g <> MFMediaType_Video)); simpl; try done;
    rewrite (bool_decide_eq_true_2 _ Hty);
    destruct (MF_MT_SUBTYPE mt) as [g'|]; try done;
    by destruct (decide (g' <> _guiCurrentSubtype s)).
Qed.

Lemma Forall_sublist {A} (P : A -> Prop) (l1 l2 : list A) :
  l1 `sublist_of` l2 -> Forall P l2 -> Forall P l1.
Proof.
  intros Hsub Hall. apply Forall_forall. intros x Hx.
  rewrite Forall_forall in Hall. apply Hall.
  by apply (elem_of_sublist l1).
Qed.

Lemma sink_inv_drain (fFlush : bool) (s : Sink) :
  sink_inv s -> sink_inv (drain_result fFlush s).
Proof.
  intros (Hq & Hty & Hmk). unfold sink_inv, type_is_set,
    markers_keep_subtype in *. simpl. repeat split.
  - intros Hst. by rewrite (Hq Hst).
  - done.
  - by apply (Forall_sublist _ _ _ (markers_left_over_sublist _)).
Qed.

Lemma sink_inv_work (op : StreamOperation) (s : Sink) :
  sink_inv s -> sink_inv (work_result op s).
Proof.
  intros Hinv. unfold work_result.
  destruct (_isShutdown s) eqn:Hsd, op, (drained (_sampleQueue s));
    try done;
    try (by apply sink_inv_drain);
    try (by apply (sink_inv_drain true (emit MEStreamSinkStarted s)));
    try (by apply (sink_inv_drain false s));
    by apply (sink_inv_drain true s).
Qed.

Lemma sink_inv_validated (op : StreamOperation) (st : State) (s : Sink) :
  op <> OpSetMediaType -> st <> State_TypeNotSet ->
  SUCCEEDED (ValidateOperation op s) = true ->
  sink_inv s -> forall s' : Sink,
  _state s' = st -> _isShutdown s' = _isShutdown s ->
  _spCurrentType s' = _spCurrentType s ->
  _guiCurrentSubtype s' = _guiCurrentSubtype s ->
  _sampleQueue s' = _sampleQueue s ->
  sink_inv s'.
Proof.
  intros Hop Hnew Hval (Hq & Hty & Hmk) s' E0 E1 E2 E3 E4.
  assert (_state s <> State_TypeNotSet) as Hst.
  { intros E. unfold ValidateOperation in Hval. rewrite E in Hval.
    by destruct op. }
  unfold sink_inv, type_is_set, markers_keep_subtype in *.
  rewrite E0, E1, E2, E3, E4. repeat split; try done.
  intros _. by apply Hty.
Qed.

Lemma sink_inv_step (a : Action) (s : Sink) :
  sink_inv s -> sink_inv (step a s).
Proof.
  intros Hinv. unfold step.
  destruct a as [[mt|]|start| | | |[smp|]| | |]; unfold perform.
  - rewrite SetCurrentMediaType_closed_form.
    unfold SetCurrentMediaType_result.
    destruct (_isShutdown s) eqn:Hsd; [done|].
    destruct (bool_decide _ && FAILED _) eqn:Hrej; [done|].
    destruct Hinv as (Hq & Hty & Hmk).
    assert (_state s <> State_TypeNotSet ->
            MF_MT_SUBTYPE mt = Some (_guiCurrentSubtype s)) as Hsame.
    { intros Hst. rewrite (bool_decide_eq_true_2 _ Hst) in Hrej.
      simpl in Hrej. apply negb_false_iff in Hrej.
      destruct (Hty Hst Hsd) as (mt0 & Hmt0 & _).
      apply IsMediaTypeSupported_subtype; [|by rewrite Hmt0].
      by destruct (IsMediaTypeSupported (Some mt) s). }
    unfold sink_inv, type_is_set, markers_keep_subtype in *.
    destruct (MF_MT_SUBTYPE mt) as [g|] eqn:Hsub.
    + destruct (_state s) eqn:Hst; simpl; rewrite ?Hst;
        (repeat split; [done| |]);
        try (intros _ _; by exists mt);
        try (rewrite Hq by done; by constructor);
        assert (Some g = Some (_guiCurrentSubtype s)) as [= ->]
          by (by apply Hsame);
        rewrite ?markers_of_app; try done;
        apply Forall_app; split; try done;
        by apply Forall_singleton.
    + simpl. repeat split; try done.
      intros Hst. by specialize (Hsame Hst).
  - done.
  - unfold Start. destruct (SUCCEEDED _) eqn:Hval; [|done].
    apply (sink_inv_validated OpStart State_Started s); try done.
    all: by destruct (decide _).
  - unfold Restart. destruct (SUCCEEDED _) eqn:Hval; [|done].
    by apply (sink_inv_validated OpRestart State_Started s).
  - unfold Pause. destruct (SUCCEEDED _) eqn:Hval; [|done].
    by apply (sink_inv_validated OpPause State_Paused s).
  - unfold Stop. destruct (SUCCEEDED _) eqn:Hval; [|done].
    by apply (sink_inv_validated OpStop State_Stopped s).
  - rewrite ProcessSample_closed_form.
    destruct (_isShutdown s) eqn:Hsd; [done|].
    destruct Hinv as (Hq & Hty & Hmk).
    unfold sink_inv, type_is_set, markers_keep_subtype in *.
    destruct (_state s) eqn:Hst; simpl; rewrite ?Hst; try done;
      (repeat split; [done|done|]);
      rewrite markers_of_app; simpl; by rewrite app_nil_r.
  - done.
  - rewrite Flush_closed_form. destruct (_isShutdown s); [done|].
    by apply sink_inv_drain.
  - unfold Shutdown. destruct (_isShutdown s) eqn:Hsd; [done|].
    destruct Hinv as (Hq & Hty & Hmk).
    unfold sink_inv, type_is_set, markers_keep_subtype. simpl.
    repeat split; try done.
  - simpl. rewrite worker_step_closed_form.
    destruct (workItems s) as [|op rest]; [done|]. simpl.
    apply sink_inv_work.
    destruct Hinv as (Hq & Hty & Hmk). by repeat split.
Qed.

Lemma sink_inv_run (acts : list Action) :
  forall s : Sink, sink_inv s -> sink_inv (run acts s).
Proof.
  induction acts as [|a acts IH]; intros s Hinv; [done|].
  rewrite run_cons. by apply IH, sink_inv_step.
Qed.

Lemma sink_inv_new : sink_inv new_sink.
Proof.
  unfold sink_inv, type_is_set, markers_keep_subtype. simpl.
  repeat split; done.
Qed.

Lemma sink_inv_section (s : Sink) (pc : WorkerPc) :
  sink_inv s -> sink_inv (fst (worker_section (s, pc))).
Proof.
  intros (Hq & Hty & Hmk).
  destruct (worker_section_effect s pc)
    as ((E0 & E1 & E2 & E3) & (popped & Hpop) & _).
  unfold sink_inv, type_is_set, markers_keep_subtype in *.
  rewrite E0, E1, E2, E3. repeat split; try done.
  - intros Hst. specialize (Hq Hst). rewrite Hq in Hpop.
    symmetry in Hpop. by apply app_eq_nil in Hpop as [_ ->].
  - rewrite Hpop, markers_of_app in Hmk. by apply Forall_app in Hmk as [_ ?].
Qed.

Lemma sink_inv_istep (a : Action) (sys : Sink * WorkerPc) :
  sink_inv (fst sys) -> sink_inv (fst (istep a sys)).
Proof.
  intros Hinv. destruct sys as [s pc].
  destruct (decide (a = DoWork)) as [->|Hwork].
  - by apply sink_inv_section.
  - assert (istep a (s, pc) = (step a s, pc)) as -> by (by destruct a).
    by apply sink_inv_step.
Qed.

Lemma sink_inv_irun (acts : list Action) :
  forall sys : Sink * WorkerPc,
    sink_inv (fst sys) -> sink_inv (fst (irun acts sys)).
Proof.
  induction acts as [|a acts IH]; intros sys Hinv; [done|].
  rewrite irun_cons. by apply IH, sink_inv_istep.
Qed.

(** Once the type is set on a live sink, no call of [SetCurrentMediaType]
    changes [_guiCurrentSubtype]. *)
Lemma SetCurrentMediaType_keeps_subtype (p : option MediaType) (s : Sink) :
  sink_inv s -> _state s <> State_TypeNotSet -> _isShutdown s = false ->
  _guiCurrentSubtype (snd (SetCurrentMediaType p s)) = _guiCurrentSubtype s.
Proof.
  intros (_ & Hty & _) Hst Hlive. destruct p as [mt|]; [|done].
  destruct (Hty Hst Hlive) as (cur & Hcur & _).
  rewrite SetCurrentMediaType_closed_form. unfold SetCurrentMediaType_result.
  rewrite Hlive, (bool_decide_eq_true_2 _ Hst). simpl.
  destruct (IsMediaTypeSupported (Some mt) s) eqn:Hsup; try done. simpl.
  rewrite (IsMediaTypeSupported_subtype mt s Hsup) by (by rewrite Hcur).
  by destruct (_state s).
Qed.

(** Without the major-type attribute the lookup of the major type fails
    first, whatever the subtype. *)
Lemma IsMediaTypeSupported_no_major_type (mt : MediaType) (s : Sink) :
  _isShutdown s = false -> MF_MT_MAJOR_TYPE mt = None ->
  IsMediaTypeSupported (Some mt) s = MF_E_ATTRIBUTENOTFOUND.
Proof.
  intros Hlive Hmajor. unfold IsMediaTypeSupported.
  by rewrite Hlive, Hmajor.
Qed.

(** The claim as stated: every descriptor with another subtype is refused
    with the invalid-type error.  On a started sink whose type is the
    640x480 NV12 one, a YUY2 descriptor that carries no major-type
    attribute is refused with [MF_E_ATTRIBUTENOTFOUND], the error of the
    major-type lookup. *)
Lemma other_subtype_without_major_type :
  ~ (forall (acts : list Action) (mt : MediaType),
       let s := fst (irun acts (new_sink, WorkerIdle)) in
       _state s <> State_TypeNotSet -> _isShutdown s = false ->
       MF_MT_SUBTYPE mt <> Some (_guiCurrentSubtype s) ->
       IsMediaTypeSupported (Some mt) s = MF_E_INVALIDTYPE).
Proof.
  intros H.
  specialize (H [DoSetCurrentMediaType (Some mt_vga); DoStart 0; DoWork]
                mt_no_major).
  vm_compute in H.
  assert (MF_E_ATTRIBUTENOTFOUND = MF_E_INVALIDTYPE) as E;
    [apply H; first [reflexivity|discriminate]|discriminate E].
Qed.

(** C10 (amended): once a format descriptor has been set (state at least
    Ready) on a sink produced by any run of calls and worker sections, and
    not shut down, a media type whose subtype differs from the current
    one is rejected: [IsMediaTypeSupported] fails, with
    [MF_E_INVALIDTYPE] when the type carries a major-type attribute and
    with [MF_E_ATTRIBUTENOTFOUND] when it carries none, and
    [SetCurrentMediaType] returns that error and changes nothing; no call
    of [SetCurrentMediaType] changes the current subtype, and every
    queued format-change marker carries it. *)
Theorem subtype_change_rejected (acts : list Action) (mt : MediaType) :
  let s := fst (irun acts (new_sink, WorkerIdle)) in
  _state s <> State_TypeNotSet -> _isShutdown s = false ->
  MF_MT_SUBTYPE mt <> Some (_guiCurrentSubtype s) ->
  (exists cur : MediaType,
     _spCurrentType s = Some cur /\
     MF_MT_SUBTYPE cur = Some (_guiCurrentSubtype s)) /\
  FAILED (IsMediaTypeSupported (Some mt) s) = true /\
  (is_Some (MF_MT_MAJOR_TYPE mt) ->
   IsMediaTypeSupported (Some mt) s = MF_E_INVALIDTYPE) /\
  (MF_MT_MAJOR_TYPE mt = None ->
   IsMediaTypeSupported (Some mt) s = MF_E_ATTRIBUTENOTFOUND) /\
  SetCurrentMediaType (Some mt) s = (IsMediaTypeSupported (Some mt) s, s) /\
  (forall p : option MediaType,
     _guiCurrentSubtype (snd (SetCurrentMediaType p s))
     = _guiCurrentSubtype s) /\
  markers_keep_subtype s.
Proof.
  intros s Hst Hlive Hsub.
  assert (sink_inv s) as Hinv by apply sink_inv_irun, sink_inv_new.
  destruct Hinv as (Hq & Hty & Hmk).
  destruct (Hty Hst Hlive) as (cur & Hcur & Hcursub).
  assert (_spCurrentType s <> None) as Hset by (by rewrite Hcur).
  destruct (IsMediaTypeSupported_other_subtype mt s Hlive Hset Hsub)
    as (Hfail & Hcode).
  split; [by exists cur|]. split; [done|]. split; [done|].
  split; [by apply IsMediaTypeSupported_no_major_type|]. split.
  - rewrite SetCurrentMediaType_closed_form.
    unfold SetCurrentMediaType_result.
    by rewrite Hlive, (bool_decide_eq_true_2 _ Hst), Hfail.
  - split; [|done]. intros p.
    by apply SetCurrentMediaType_keeps_subtype.
Qed.

Lemma subtype_change_rejected_witness :
  let s := fst (irun [DoSetCurrentMediaType (Some mt_vga); DoStart 0;
                      DoWork; DoWork; DoWork] (new_sink, WorkerIdle)) in
  (exists cur : MediaType,
     _spCurrentType s = Some cur /\
     MF_MT_SUBTYPE cur = Some (_guiCurrentSubtype s)) /\
  FAILED (IsMediaTypeSupported (Some mt_yuy2) s) = true /\
  (is_Some (MF_MT_MAJOR_TYPE mt_yuy2) ->
   IsMediaTypeSupported (Some mt_yuy2) s = MF_E_INVALIDTYPE) /\
  (MF_MT_MAJOR_TYPE mt_yuy2 = None ->
   IsMediaTypeSupported (Some mt_yuy2) s = MF_E_ATTRIBUTENOTFOUND) /\
  SetCurrentMediaType (Some mt_yuy2) s
  = (IsMediaTypeSupported (Some mt_yuy2) s, s) /\
  (forall p : option MediaType,
     _guiCurrentSubtype (snd (SetCurrentMediaType p s))
     = _guiCurrentSubtype s) /\
  markers_keep_subtype s.
Proof.
  apply (subtype_change_rejected
           [DoSetCurrentMediaType (Some mt_vga); DoStart 0;
            DoWork; DoWork; DoWork] mt_yuy2).
  - vm_compute. discriminate.
  - reflexivity.
  - vm_compute. discriminate.
Defined.

(** A different subtype on the sample data: rejected while streaming,
    with the sink untouched. *)
Example other_subtype_while_started :
  SetCurrentMediaType (Some mt_yuy2) started_sink
  = (MF_E_INVALIDTYPE, started_sink).
Proof. by vm_compute. Qed.

(** * Further properties *)

(** ** Closed forms of a step *)

Lemma worker_section_closed_form (s : Sink) (pc : WorkerPc) :
  worker_section (s, pc) = section_result s pc.
Proof.
  destruct pc as [|op f|op f x|op f b|op b]; unfold worker_section; simpl.
  - destruct (workItems s) as [|op rest]; [done|].
    rewrite before_drain_eq.
    destruct op, (_isShutdown s) eqn:Hsd; simpl; rewrite ?Hsd; simpl;
      rewrite ?HandleError_eq; simpl; by rewrite ?Hsd.
  - done.
  - rewrite deliver_item_eq.
    destruct x as [smp|mt]; [by destruct (has_buffer smp)|done].
  - by rewrite request_if_started_eq.
  - by rewrite caught_after_drain.
Qed.

Lemma ValidateOperation_SUCCEEDED (op : StreamOperation) (s : Sink) :
  SUCCEEDED (ValidateOperation op s) = matrix_entry (_state s) op.
Proof.
  unfold ValidateOperation.
  destruct (matrix_entry _ _); [done|]. by destruct (decide _).
Qed.

Lemma step_closed_form (a : Action) (s : Sink) :
  a <> DoWork -> step a s = call_result a s.
Proof.
  intros Hwork. unfold step.
  destruct a as [[mt|]|start| | | |[smp|]| | |]; try done;
    unfold perform; cbn [call_result].
  - by rewrite SetCurrentMediaType_closed_form.
  - unfold Start. rewrite ValidateOperation_SUCCEEDED.
    destruct (matrix_entry (_state s) OpStart); simpl; [|done].
    by case_decide.
  - unfold Restart. rewrite ValidateOperation_SUCCEEDED.
    by destruct (matrix_entry (_state s) OpRestart); simpl.
  - unfold Pause. rewrite ValidateOperation_SUCCEEDED.
    by destruct (matrix_entry (_state s) OpPause); simpl.
  - unfold Stop. rewrite ValidateOperation_SUCCEEDED.
    by destruct (matrix_entry (_state s) OpStop); simpl.
  - rewrite Flush_closed_form. by destruct (_isShutdown s).
  - unfold Shutdown. by destruct (_isShutdown s).
Qed.

Lemma istep_closed_form (a : Action) (s : Sink) (pc : WorkerPc) :
  istep a (s, pc)
  = if decide (a = DoWork) then section_result s pc
    else (call_result a s, pc).
Proof.
  destruct (decide (a = DoWork)) as [->|Hwork].
  - apply worker_section_closed_form.
  - rewrite <- (step_closed_form a s Hwork). by destruct a.
Qed.

(** An invariant of the steps is an invariant of the runs. *)
Lemma irun_invariant (P : Sink * WorkerPc -> Prop) :
  (forall a sys, P sys -> P (istep a sys)) ->
  forall acts sys, P sys -> P (irun acts sys).
Proof.
  intros Hstep acts. induction acts as [|a acts IH]; intros sys HP; [done|].
  rewrite irun_cons. by apply IH, Hstep.
Qed.

(** ** After [Shutdown] *)

Lemma shut_down_istep (evs : list Event) (before held : list Sample)
    (a : Action) (sys : Sink * WorkerPc) :
  shut_down evs (fst sys) /\ hands_on_at_most before held sys ->
  shut_down evs (fst (istep a sys)) /\
  hands_on_at_most before held (istep a sys).
Proof.
  destruct sys as [s pc]. unfold shut_down, hands_on_at_most. simpl.
  intros [(Hsd & Hq & Ht & He) (d & Hd & Hs)].
  assert (forall (s' : Sink),
    _isShutdown s' = true -> _sampleQueue s' = [] ->
    _spCurrentType s' = None -> events s' = events s ->
    delivered s' = delivered s ->
    forall l : list Sample, l = in_hand pc ->
    (_isShutdown s' = true /\ _sampleQueue s' = [] /\
     _spCurrentType s' = None /\ events s' = evs) /\
    exists d : list Sample,
      delivered s' = before ++ d /\ d ++ l `sublist_of` held)
    as Hkeep.
  { intros s' E1 E2 E3 E4 E5 l E6. split; [by rewrite E4|].
    exists d. by rewrite E5, E6. }
  assert (d `sublist_of` held) as Hd0.
  { trans (d ++ in_hand pc); [by apply sublist_inserts_r|done]. }
  rewrite istep_closed_form. destruct (decide (a = DoWork)) as [->|Hwork].
  - destruct pc as [|op f|op f [smp|mt]|op f b|op b]; simpl.
    + destruct (workItems s) as [|op rest]; [by apply Hkeep|].
      destruct op; rewrite ?Hsd; by apply Hkeep.
    + unfold pop_or_leave. rewrite Hq. by apply Hkeep.
    + destruct (has_buffer smp); simpl.
      * split; [done|]. exists (d ++ [smp]).
        rewrite Hd, <- app_assoc, app_nil_r. by split.
      * split; [done|]. exists d. by rewrite app_nil_r.
    + by apply Hkeep.
    + rewrite Hsd, andb_false_r. unfold pop_or_leave. rewrite Hq.
      by apply Hkeep.
    + unfold after_drain_result. rewrite Hsd. by apply Hkeep.
  - simpl.
    destruct a as [[mt|]|start| | | |[smp|]| | |]; try done;
      cbn [call_result].
    + unfold SetCurrentMediaType_result. rewrite Hsd. by apply Hkeep.
    + by apply Hkeep.
    + destruct (matrix_entry _ _); [|by apply Hkeep].
      case_decide; by apply Hkeep.
    + destruct (matrix_entry _ _); by apply Hkeep.
    + destruct (matrix_entry _ _); by apply Hkeep.
    + destruct (matrix_entry _ _); by apply Hkeep.
    + rewrite ProcessSample_closed_form, Hsd. by apply Hkeep.
    + by apply Hkeep.
    + rewrite Hsd. by apply Hkeep.
    + rewrite Hsd. by apply Hkeep.
Qed.

(** X1: once the stream sink is shut down it is frozen, whatever is
    called afterwards and wherever the worker stands: the flag stays set,
    the queue stays empty, no current type comes back, no event is
    queued any more, and the callback receives at most the one sample the
    worker had already taken off the queue. *)
Theorem Shutdown_freezes_the_sink (s : Sink) (pc : WorkerPc)
    (acts : list Action) :
  _isShutdown s = false ->
  let sys := irun acts (snd (Shutdown s), pc) in
  _isShutdown (fst sys) = true /\ _sampleQueue (fst sys) = [] /\
  _spCurrentType (fst sys) = None /\ events (fst sys) = events s /\
  exists d : list Sample,
    delivered (fst sys) = delivered s ++ d /\
    d ++ in_hand (snd sys) `sublist_of` in_hand pc.
Proof.
  intros Hsd sys.
  assert (shut_down (events s) (fst sys) /\
          hands_on_at_most (delivered s) (in_hand pc) sys) as [H1 H2].
  { subst sys.
    apply (irun_invariant (fun sys =>
      shut_down (events s) (fst sys) /\
      hands_on_at_most (delivered s) (in_hand pc) sys)).
    - intros a sys. apply shut_down_istep.
    - unfold Shutdown. rewrite Hsd. simpl. split; [done|].
      exists []. by rewrite app_nil_r. }
  destruct H1 as (E1 & E2 & E3 & E4). by repeat split.
Qed.

Lemma Shutdown_freezes_the_sink_witness :
  let s := snd (ProcessSample (Some P2) (snd (ProcessSample (Some P1)
             started_sink))) in
  let pc := InHand OpProcessSample false (ItemSample P1) in
  let sys := irun [DoStart 0; DoWork; DoProcessSample (Some P2); DoWork;
                   DoFlush; DoWork]
               (snd (Shutdown s), pc) in
  _isShutdown (fst sys) = true /\ _sampleQueue (fst sys) = [] /\
  _spCurrentType (fst sys) = None /\ events (fst sys) = events s /\
  exists d : list Sample,
    delivered (fst sys) = delivered s ++ d /\
    d ++ in_hand (snd sys) `sublist_of` in_hand pc.
Proof.
  apply (Shutdown_freezes_the_sink
           (snd (ProcessSample (Some P2) (snd (ProcessSample (Some P1)
              started_sink))))
           (InHand OpProcessSample false (ItemSample P1))).
  reflexivity.
Defined.

(** ** The state only moves forward *)

Lemma istep_state_forward (a : Action) (sys : Sink * WorkerPc) :
  (Nat.min 2 (State_ord (_state (fst sys)))
   <= State_ord (_state (fst (istep a sys))))%nat.
Proof.
  assert (forall n m : nat, (n <= m \/ 2 <= m)%nat -> (Nat.min 2 n <= m)%nat)
    as Hmin by lia.
  destruct sys as [s pc]. rewrite istep_closed_form. apply Hmin.
  destruct (decide (a = DoWork)) as [->|Hwork].
  - rewrite <- worker_section_closed_form.
    destruct (worker_section_effect s pc) as ((E & _) & _).
    rewrite E. by left.
  - simpl.
    destruct a as [[mt|]|start| | | |[smp|]| | |]; try done;
      cbn [call_result]; try (by left).
    + unfold SetCurrentMediaType_result.
      destruct (_isShutdown s); [by left|].
      destruct (_ && _); [by left|].
      destruct (MF_MT_SUBTYPE mt); [|by left].
      destruct (_state s) eqn:Hst; simpl; rewrite ?Hst; simpl; lia.
    + destruct (matrix_entry _ _); [|by left]. case_decide; simpl; lia.
    + destruct (matrix_entry _ _); simpl; lia.
    + destruct (matrix_entry _ _); simpl; lia.
    + destruct (matrix_entry _ _); simpl; lia.
    + rewrite ProcessSample_closed_form.
      destruct (_isShutdown s), (_state s) eqn:Hst; simpl; rewrite ?Hst;
        simpl; lia.
    + destruct (_isShutdown s); by left.
    + destruct (_isShutdown s); by left.
Qed.

(** X2: the state of the stream sink only moves forward.  Whatever is
    called and whatever the worker does, a sink whose type is set never
    returns to TypeNotSet, and a sink that has left Ready (Started, Paused
    or Stopped) never returns to Ready or TypeNotSet: there is no way to
    reset a stream short of creating a new one. *)
Theorem state_never_falls_back (acts : list Action)
    (sys : Sink * WorkerPc) :
  (Nat.min 2 (State_ord (_state (fst sys)))
   <= State_ord (_state (fst (irun acts sys))))%nat.
Proof.
  revert sys. induction acts as [|a acts IH]; intros sys.
  - apply Nat.le_min_r.
  - rewrite irun_cons. specialize (IH (istep a sys)).
    pose proof (istep_state_forward a sys). lia.
Qed.

(** ** Before the stream leaves Ready *)




(** ** What a work item emits *)

(** X4: a resume delivers what was buffered.  When [Start] or [Restart]
    is accepted on a live sink with no work pending, the work item it
    schedules queues MEStreamSinkStarted, hands to the callback every
    buffered sample in front of the first one without a buffer, without
    requesting a sample for any of them, and then queues exactly one
    MEStreamSinkRequestSample. *)
Theorem resume_delivers_buffered_samples (a : Action) (s : Sink) :
  is_resume a = true -> fst (perform a s) = S_OK ->
  _isShutdown s = false -> workItems s = [] ->
  let s' := run [a; DoWork] s in
  _state s' = State_Started /\ workItems s' = [] /\
  events s' = events s ++ [MEStreamSinkStarted; MEStreamSinkRequestSample] /\
  delivered s' = delivered s ++ taken (_sampleQueue s) /\
  _sampleQueue s' = left_over (_sampleQueue s).
Proof.
  intros Ha Hok Hsd Hw s'. subst s'.
  unfold run. cbn [foldl].
  assert (exists op : StreamOperation, (op = OpStart \/ op = OpRestart) /\
    exists s1 : Sink,
      step a s = set_workItems [op] (set_state State_Started s1) /\
      _isShutdown s1 = false /\ events s1 = events s /\
      delivered s1 = delivered s /\ _sampleQueue s1 = _sampleQueue s)
    as (op & Hop & s1 & -> & Hsd1 & He1 & Hd1 & Hq1).
  { rewrite step_closed_form by (by destruct a).
    destruct a as [| start | | | | | | |]; try done; cbn [call_result];
      cbn [perform] in Hok.
    - unfold Start in Hok. rewrite ValidateOperation_SUCCEEDED in Hok.
      destruct (matrix_entry (_state s) OpStart) eqn:Hm.
      + exists OpStart. split; [by left|]. rewrite Hw.
        eexists. split; [reflexivity|]. by case_decide.
      + unfold ValidateOperation in Hok. rewrite Hm in Hok.
        simpl in Hok. by case_decide.
    - unfold Restart in Hok. rewrite ValidateOperation_SUCCEEDED in Hok.
      destruct (matrix_entry (_state s) OpRestart) eqn:Hm.
      + exists OpRestart. split; [by right|]. rewrite Hw. by exists s.
      + unfold ValidateOperation in Hok. rewrite Hm in Hok.
        simpl in Hok. by case_decide. }
  unfold step. cbn [perform snd]. rewrite worker_step_closed_form.
  cbn [workItems set_workItems default].
  unfold work_result.
  assert (_isShutdown (set_workItems [] (set_workItems [op]
            (set_state State_Started s1))) = false) as -> by done.
  destruct Hop as [-> | ->]; unfold emit, drain_result, drain_from,
    requesting; simpl; rewrite He1, Hd1, Hq1; repeat split;
    try done; by rewrite <- !app_assoc.
Qed.

Lemma resume_delivers_buffered_samples_witness :
  let s := run [DoProcessSample (Some P1); DoProcessSample (Some P2)]
             paused_sink in
  let s' := run [DoRestart; DoWork] s in
  _state s' = State_Started /\ workItems s' = [] /\
  events s' = events s ++ [MEStreamSinkStarted; MEStreamSinkRequestSample] /\
  delivered s' = delivered s ++ taken (_sampleQueue s) /\
  _sampleQueue s' = left_over (_sampleQueue s).
Proof.
  apply (resume_delivers_buffered_samples DoRestart
           (run [DoProcessSample (Some P1); DoProcessSample (Some P2)]
              paused_sink)); reflexivity.
Defined.

(** X5: what a dispatch requests, by operation and state.  A dispatch
    scheduled by [ProcessSample] or by a format change drains the queue
    in any state; it requests one sample per delivered sample only while
    the state is Started, and the one further request at the end of a
    drain that empties the queue is issued in any state, but only by a
    dispatch that [ProcessSample] scheduled, never by the one of a format
    change. *)
Theorem dispatch_requests_by_operation (op : StreamOperation) (s : Sink) :
  op = OpProcessSample \/ op = OpSetMediaType ->
  _isShutdown s = false ->
  let s' := OnDispatchWorkItem op s in
  delivered s' = delivered s ++ taken (_sampleQueue s) /\
  _sampleQueue s' = left_over (_sampleQueue s) /\
  events s' = events s ++
    request_samples
      ((if bool_decide (_state s = State_Started)
        then length (taken (_sampleQueue s)) else 0)
       + (if drained (_sampleQueue s) && bool_decide (op = OpProcessSample)
          then 1 else 0)).
Proof.
  intros Hop Hsd s'. subst s'. rewrite OnDispatchWorkItem_closed_form.
  unfold work_result. rewrite Hsd.
  assert (forall n : nat,
    request_samples (n + 1) = request_samples n ++ [MEStreamSinkRequestSample])
    as Hlast.
  { intros n. unfold request_samples.
    by rewrite replicate_add. }
  destruct Hop as [-> | ->].
  - destruct (drained (_sampleQueue s)); unfold emit, drain_result,
      drain_from, requesting; simpl; rewrite Hsd, ?andb_true_r;
      destruct (bool_decide (_state s = State_Started)); simpl;
      rewrite <- ?app_assoc, ?Hlast, ?Nat.add_0_r; done.
  - unfold drain_result, drain_from, requesting. simpl.
    rewrite Hsd, ?andb_true_r, andb_false_r, Nat.add_0_r.
    by destruct (bool_decide (_state s = State_Started)).
Qed.

Lemma dispatch_requests_by_operation_witness :
  let s := run [DoProcessSample (Some P1); DoProcessSample (Some P2)]
             paused_sink in
  let s' := OnDispatchWorkItem OpSetMediaType s in
  delivered s' = delivered s ++ taken (_sampleQueue s) /\
  _sampleQueue s' = left_over (_sampleQueue s) /\
  events s' = events s ++
    request_samples
      ((if bool_decide (_state s = State_Started)
        then length (taken (_sampleQueue s)) else 0)
       + (if drained (_sampleQueue s)
             && bool_decide (OpSetMediaType = OpProcessSample)
          then 1 else 0)).
Proof.
  apply (dispatch_requests_by_operation OpSetMediaType
           (run [DoProcessSample (Some P1); DoProcessSample (Some P2)]
              paused_sink)).
  - by right.
  - reflexivity.
Defined.

(** ** The flow of requests *)

Lemma requests_emit_request (s : Sink) :
  requests (events (emit MEStreamSinkRequestSample s))
  = S (requests (events s)).
Proof.
  unfold emit. simpl. rewrite requests_app.
  change (requests [MEStreamSinkRequestSample]) with 1%nat. lia.
Qed.

Lemma streaming_istep (R : nat) (D : list Sample) (a : Action)
    (sys : Sink * WorkerPc) :
  is_streaming_traffic a = true -> streaming R D sys ->
  streaming (R + 2 * length (pushed [a])) (D ++ pushed [a]) (istep a sys).
Proof.
  destruct sys as [s pc]. unfold streaming. cbn [fst snd].
  intros Ha (Hst & Hsd & Hw & Hq & Hpc & Hlen & HR & HD).
  rewrite istep_closed_form. destruct (decide (a = DoWork)) as [->|Hwork].
  - cbn [pushed length]. rewrite Nat.mul_0_r, Nat.add_0_r, app_nil_r.
    destruct pc as [|op f|op f it|op f b|op b]; cbn [section_result].
    + destruct (workItems s) as [|op rest] eqn:Hws; cbn [fst snd];
        [by rewrite Hws|].
      apply Forall_cons in Hw as [-> Hw]. cbn -[requests] in *.
      repeat split; try done; cbn -[requests]; lia.
    + destruct Hpc as [-> ->]. unfold pop_or_leave.
      destruct (_sampleQueue s) as [|it rest] eqn:Hqs; cbn -[requests] in *.
      * rewrite Hqs. repeat split; try done; cbn -[requests]; lia.
      * apply Forall_cons in Hq as [Hit Hq].
        repeat split; try done; try (cbn -[requests]; lia).
        destruct Hit as (smp & -> & Hb). done.
    + destruct Hpc as (-> & -> & smp & -> & Hb). rewrite Hb.
      cbn -[requests] in *.
      repeat split; try done. by rewrite <- app_assoc.
    + destruct Hpc as (-> & -> & ->).
      rewrite Hst, Hsd, bool_decide_eq_true_2 by done.
      pose proof (requests_emit_request s) as Hreq.
      unfold emit in *. unfold pop_or_leave. cbn -[requests] in *.
      destruct (_sampleQueue s) as [|it rest] eqn:Hqs;
        cbn -[requests] in *; rewrite ?Hreq, ?Hqs.
      * repeat split; try done; cbn -[requests]; lia.
      * apply Forall_cons in Hq as [Hit Hq].
        repeat split; try done; try (cbn -[requests]; lia).
        destruct Hit as (smp & -> & Hb). done.
    + destruct Hpc as [-> ->]. unfold after_drain_result. rewrite Hsd.
      pose proof (requests_emit_request s) as Hreq. unfold emit in Hreq.
      cbn -[requests] in *.
      rewrite Hreq. repeat split; try done; cbn -[requests]; lia.
  - destruct a as [| | | | |[smp|]| | |]; try done. simpl in Ha.
    cbn [call_result pushed length fst snd].
    rewrite ProcessSample_closed_form, Hsd, Hst. cbn -[requests].
    rewrite !length_app, samples_of_app. cbn -[requests].
    repeat split; try done.
    + apply Forall_app. split; [done|]. by apply Forall_singleton.
    + apply Forall_app. split; [done|]. apply Forall_singleton.
      by exists smp.
    + cbn -[requests]; lia.
    + cbn -[requests]; lia.
    + rewrite <- HD, <- !app_assoc. done.
Qed.

Lemma streaming_irun (acts : list Action) :
  forall (R : nat) (D : list Sample) (sys : Sink * WorkerPc),
    forallb is_streaming_traffic acts = true -> streaming R D sys ->
    streaming (R + 2 * length (pushed acts)) (D ++ pushed acts)
      (irun acts sys).
Proof.
  induction acts as [|a acts IH]; intros R D sys Hacts Hinv.
  - simpl. by rewrite Nat.add_0_r, app_nil_r.
  - simpl in Hacts. apply andb_true_iff in Hacts as [Ha Hacts].
    rewrite irun_cons.
    assert (pushed (a :: acts) = pushed [a] ++ pushed acts) as ->.
    { by destruct a as [| | | | |[smp|]| | |]. }
    pose proof (IH _ _ _ Hacts (streaming_istep R D a sys Ha Hinv)) as H.
    rewrite length_app, app_assoc.
    replace (R + 2 * (length (pushed [a]) + length (pushed acts)))%nat
      with (R + 2 * length (pushed [a]) + 2 * length (pushed acts))%nat
      by lia.
    done.
Qed.

(** X6: every sample is paid for twice.  On a started, live stream that
    is at rest, let samples that carry a buffer be pushed and the worker
    run, interleaved in any way.  Whenever the stream is at rest again
    (no work item pending, the worker idle), the queue is empty, the
    callback has received exactly the pushed samples, in order, and the
    sink has queued two MEStreamSinkRequestSample events per sample
    pushed: one when the sample is delivered and one at the end of the
    dispatch that its [ProcessSample] scheduled. *)
Theorem two_requests_per_sample (s : Sink) (acts : list Action) :
  _state s = State_Started -> _isShutdown s = false ->
  _sampleQueue s = [] -> workItems s = [] ->
  forallb is_streaming_traffic acts = true ->
  let sys := irun acts (s, WorkerIdle) in
  workItems (fst sys) = [] -> snd sys = WorkerIdle ->
  _sampleQueue (fst sys) = [] /\
  delivered (fst sys) = delivered s ++ pushed acts /\
  requests (events (fst sys))
  = (requests (events s) + 2 * length (pushed acts))%nat.
Proof.
  intros Hst Hsd Hq Hw Hacts sys Hw' Hpc'.
  assert (streaming (requests (events s)) (delivered s) (s, WorkerIdle))
    as Hinv.
  { unfold streaming. cbn [fst snd]. rewrite Hq, Hw. simpl.
    repeat split; try done; try lia. by rewrite app_nil_r. }
  pose proof (streaming_irun acts _ _ _ Hacts Hinv) as H.
  fold sys in H. unfold streaming in H.
  destruct H as (_ & _ & _ & _ & _ & Hlen & HR & HD).
  rewrite Hw', Hpc' in *. simpl in *.
  destruct (_sampleQueue (fst sys)) as [|it rest]; [|simpl in Hlen; lia].
  simpl in *. rewrite app_nil_r in HD. repeat split; try done. lia.
Qed.

Lemma two_requests_per_sample_witness :
  let acts := [DoProcessSample (Some P1); DoWork; DoWork;
               DoProcessSample (Some P2); DoWork; DoWork; DoWork; DoWork;
               DoWork; DoWork; DoWork; DoWork] in
  let sys := irun acts (started_sink, WorkerIdle) in
  _sampleQueue (fst sys) = [] /\
  delivered (fst sys) = delivered started_sink ++ pushed acts /\
  requests (events (fst sys))
  = (requests (events started_sink) + 2 * length (pushed acts))%nat.
Proof.
  apply (two_requests_per_sample started_sink
           [DoProcessSample (Some P1); DoWork; DoWork;
            DoProcessSample (Some P2); DoWork; DoWork; DoWork; DoWork;
            DoWork; DoWork; DoWork; DoWork]); reflexivity.
Defined.

(** ** The events of the state changes *)



Lemma state_events_requests (n : nat) :
  state_events (request_samples n) = [].
Proof. induction n as [|n IH]; [done|]. simpl. apply IH. Qed.




(** ** The current media type *)

Lemma istep_keeps_type (a : Action) (sys : Sink * WorkerPc) :
  changes_type a = false ->
  _isShutdown (fst (istep a sys)) = _isShutdown (fst sys) /\
  _spCurrentType (fst (istep a sys)) = _spCurrentType (fst sys).
Proof.
  destruct sys as [s pc]. intros Ha. rewrite istep_closed_form.
  destruct (decide (a = DoWork)) as [->|Hwork].
  - rewrite <- worker_section_closed_form.
    by destruct (worker_section_effect s pc) as ((_ & E1 & E2 & _) & _).
  - cbn [fst snd].
    destruct a as [|start| | | |[smp|]| | |]; try done; cbn [call_result].
    + destruct (matrix_entry _ _); [|done]. by case_decide.
    + by destruct (matrix_entry _ _).
    + by destruct (matrix_entry _ _).
    + by destruct (matrix_entry _ _).
    + rewrite ProcessSample_closed_form.
      destruct (_isShutdown s) eqn:Hsd; [done|].
      destruct (_state s); simpl; by rewrite Hsd.
    + destruct (_isShutdown s) eqn:Hsd; simpl; by rewrite Hsd.
Qed.

Lemma irun_keeps_type (acts : list Action) :
  forall sys : Sink * WorkerPc,
    forallb (fun a => negb (changes_type a)) acts = true ->
    _isShutdown (fst (irun acts sys)) = _isShutdown (fst sys) /\
    _spCurrentType (fst (irun acts sys)) = _spCurrentType (fst sys).
Proof.
  induction acts as [|a acts IH]; intros sys Hacts; [done|].
  simpl in Hacts. apply andb_true_iff in Hacts as [Ha Hacts].
  apply negb_true_iff in Ha. rewrite irun_cons.
  destruct (IH (istep a sys) Hacts) as [-> ->].
  by apply istep_keeps_type.
Qed.

Lemma SetCurrentMediaType_success (mt : MediaType) (s : Sink) :
  fst (SetCurrentMediaType (Some mt) s) = S_OK ->
  _isShutdown (snd (SetCurrentMediaType (Some mt) s)) = false /\
  _spCurrentType (snd (SetCurrentMediaType (Some mt) s)) = Some mt.
Proof.
  rewrite SetCurrentMediaType_closed_form. unfold SetCurrentMediaType_result.
  destruct (_isShutdown s) eqn:Hsd; [done|].
  destruct (bool_decide (_state s <> State_TypeNotSet)
            && FAILED (IsMediaTypeSupported (Some mt) s)) eqn:Hc.
  - apply andb_true_iff in Hc as [_ Hc]. simpl. intros E.
    rewrite E in Hc. done.
  - destruct (MF_MT_SUBTYPE mt); [|done].
    by destruct (_state s).
Qed.

(** X8: the current media type is what was set last, until it is set
    again or the sink is shut down.  After a successful
    SetCurrentMediaType, and after any further calls other than
    SetCurrentMediaType and Shutdown, interleaved with the worker in any
    way, GetCurrentMediaType and GetMediaTypeByIndex(0) return the type
    that was set, GetMediaTypeCount returns 1 and GetMajorType
    succeeds. *)
Theorem media_type_round_trip (s : Sink) (pc : WorkerPc) (mt : MediaType)
    (acts : list Action) :
  fst (SetCurrentMediaType (Some mt) s) = S_OK ->
  forallb (fun a => negb (changes_type a)) acts = true ->
  let s' := fst (irun acts (snd (SetCurrentMediaType (Some mt) s), pc)) in
  GetCurrentMediaType true s' = (S_OK, Some mt) /\
  GetMediaTypeByIndex 0 true s' = (Code S_OK, Some (Some mt)) /\
  GetMediaTypeCount true s' = (S_OK, Some 1%nat) /\
  GetMajorType true s' = (S_OK, Some MFMediaType_Video).
Proof.
  intros Hok Hacts s'.
  destruct (SetCurrentMediaType_success mt s Hok) as [Hsd Ht].
  destruct (irun_keeps_type acts
              (snd (SetCurrentMediaType (Some mt) s), pc) Hacts) as [E1 E2].
  cbn [fst] in E1, E2. fold s' in E1, E2. rewrite Hsd in E1.
  rewrite Ht in E2.
  unfold GetCurrentMediaType, GetMediaTypeByIndex, GetMediaTypeCount,
    GetMajorType.
  rewrite E1, E2. done.
Qed.

Lemma media_type_round_trip_witness :
  let s' := fst (irun [DoStart 0; DoWork; DoProcessSample (Some P1);
                       DoWork; DoFlush; DoPause; DoWork]
                   (snd (SetCurrentMediaType (Some mt_vga) new_sink),
                    WorkerIdle)) in
  GetCurrentMediaType true s' = (S_OK, Some mt_vga) /\
  GetMediaTypeByIndex 0 true s' = (Code S_OK, Some (Some mt_vga)) /\
  GetMediaTypeCount true s' = (S_OK, Some 1%nat) /\
  GetMajorType true s' = (S_OK, Some MFMediaType_Video).
Proof.
  apply (media_type_round_trip new_sink WorkerIdle mt_vga
           [DoStart 0; DoWork; DoProcessSample (Some P1); DoWork; DoFlush;
            DoPause; DoWork]); reflexivity.
Defined.

(** X9: once a type is set, SetCurrentMediaType is all or nothing.  On
    every sink that calls and worker sections produce from the
    constructor, in any state but TypeNotSet, a SetCurrentMediaType that
    does not return S_OK leaves the sink exactly as it was: state, current
    type, subtype, queue and work queue. *)
Theorem SetCurrentMediaType_all_or_nothing (acts : list Action)
    (p : option MediaType) :
  let s := fst (irun acts (new_sink, WorkerIdle)) in
  _state s <> State_TypeNotSet ->
  fst (SetCurrentMediaType p s) <> S_OK ->
  snd (SetCurrentMediaType p s) = s.
Proof.
  intros s Hst.
  assert (sink_inv s) as (_ & Hset & _).
  { subst s. apply sink_inv_irun. cbn [fst]. apply sink_inv_new. }
  destruct p as [mt|]; [|by rewrite SetCurrentMediaType_null].
  rewrite SetCurrentMediaType_closed_form. unfold SetCurrentMediaType_result.
  destruct (_isShutdown s) eqn:Hsd; [done|].
  destruct (bool_decide (_state s <> State_TypeNotSet)
            && FAILED (IsMediaTypeSupported (Some mt) s)) eqn:Hc; [done|].
  apply andb_false_iff in Hc as [Hc|Hc].
  { apply bool_decide_eq_false in Hc. done. }
  destruct (Hset Hst Hsd) as (cur & Hcur & _).
  assert (IsMediaTypeSupported (Some mt) s = S_OK) as Hok.
  { by destruct (IsMediaTypeSupported (Some mt) s). }
  rewrite (IsMediaTypeSupported_subtype mt s Hok) by (by rewrite Hcur).
  by destruct (_state s).
Qed.

Lemma SetCurrentMediaType_all_or_nothing_witness :
  let s := fst (irun [DoSetCurrentMediaType (Some mt_vga); DoStart 0;
                      DoWork] (new_sink, WorkerIdle)) in
  snd (SetCurrentMediaType (Some mt_yuy2) s) = s.
Proof.
  apply (SetCurrentMediaType_all_or_nothing
           [DoSetCurrentMediaType (Some mt_vga); DoStart 0; DoWork]
           (Some mt_yuy2)); vm_compute; discriminate.
Defined.

(** X10: the first SetCurrentMediaType is not all or nothing.  When
    SetCurrentMediaType on a sink in state TypeNotSet is given a type
    that carries no subtype, it
    fails with MF_E_ATTRIBUTENOTFOUND and the state stays TypeNotSet, so
    that Start is still refused; but the rejected type has already
    replaced the current one: GetCurrentMediaType returns it with S_OK
    and GetMajorType succeeds. *)
Theorem first_SetCurrentMediaType_is_not_atomic (s : Sink)
    (mt : MediaType) :
  _isShutdown s = false -> _state s = State_TypeNotSet ->
  MF_MT_SUBTYPE mt = None ->
  let r := SetCurrentMediaType (Some mt) s in
  fst r = MF_E_ATTRIBUTENOTFOUND /\ _state (snd r) = State_TypeNotSet /\
  (forall start, Start start (snd r) = (MF_E_NOT_INITIALIZED, snd r)) /\
  GetCurrentMediaType true (snd r) = (S_OK, Some mt) /\
  GetMajorType true (snd r) = (S_OK, Some MFMediaType_Video).
Proof.
  intros Hsd Hst Hsub r. subst r.
  rewrite SetCurrentMediaType_closed_form. unfold SetCurrentMediaType_result.
  rewrite Hsd, Hst, Hsub. simpl.
  unfold Start, ValidateOperation, GetCurrentMediaType, GetMajorType. simpl.
  rewrite Hsd, Hst. done.
Qed.

Lemma first_SetCurrentMediaType_is_not_atomic_witness :
  let mt := mkMediaType (Some MFMediaType_Video) None [] in
  let r := SetCurrentMediaType (Some mt) new_sink in
  fst r = MF_E_ATTRIBUTENOTFOUND /\ _state (snd r) = State_TypeNotSet /\
  (forall start, Start start (snd r) = (MF_E_NOT_INITIALIZED, snd r)) /\
  GetCurrentMediaType true (snd r) = (S_OK, Some mt) /\
  GetMajorType true (snd r) = (S_OK, Some MFMediaType_Video).
Proof.
  apply (first_SetCurrentMediaType_is_not_atomic new_sink
           (mkMediaType (Some MFMediaType_Video) None [])); reflexivity.
Defined.

(** X11: the first media type is accepted without a look at its major
    type.  A type with a subtype whose major type is missing or is not
    video is accepted by the first SetCurrentMediaType, which moves the
    sink to Ready; GetMajorType then answers MFMediaType_Video all the
    same, and the sink refuses its own current type from then on:
    IsMediaTypeSupported fails for it, and so does setting it again. *)
Theorem first_media_type_is_not_checked (s : Sink) (mt : MediaType)
    (g : GUID) :
  _isShutdown s = false -> _state s = State_TypeNotSet ->
  MF_MT_SUBTYPE mt = Some g ->
  MF_MT_MAJOR_TYPE mt <> Some MFMediaType_Video ->
  let r := SetCurrentMediaType (Some mt) s in
  fst r = S_OK /\ _state (snd r) = State_Ready /\
  GetCurrentMediaType true (snd r) = (S_OK, Some mt) /\
  GetMajorType true (snd r) = (S_OK, Some MFMediaType_Video) /\
  FAILED (IsMediaTypeSupported (Some mt) (snd r)) = true /\
  SetCurrentMediaType (Some mt) (snd r)
  = (IsMediaTypeSupported (Some mt) (snd r), snd r).
Proof.
  intros Hsd Hst Hsub Hmajor r.
  set (s1 := set_state State_Ready
               (set_guiCurrentSubtype g (set_spCurrentType (Some mt) s))).
  assert (r = (S_OK, s1)) as ->.
  { subst r. rewrite SetCurrentMediaType_closed_form.
    unfold SetCurrentMediaType_result. by rewrite Hsd, Hst, Hsub. }
  cbn [fst snd].
  assert (FAILED (IsMediaTypeSupported (Some mt) s1) = true) as Hfail.
  { unfold IsMediaTypeSupported. subst s1. simpl. rewrite Hsd. simpl.
    destruct (MF_MT_MAJOR_TYPE mt) as [g'|]; [|done]. simpl.
    destruct (decide (g' <> MFMediaType_Video)) as [Hg|Hg]; [done|].
    destruct Hmajor. f_equal. by apply dec_stable. }
  repeat split; try done.
  - unfold GetCurrentMediaType. subst s1. simpl. by rewrite Hsd.
  - rewrite SetCurrentMediaType_closed_form.
    unfold SetCurrentMediaType_result. rewrite Hfail.
    subst s1. simpl. by rewrite Hsd.
Qed.

Lemma first_media_type_is_not_checked_witness :
  let mt := mkMediaType (Some 2%nat) (Some NV12) [] in
  let r := SetCurrentMediaType (Some mt) new_sink in
  fst r = S_OK /\ _state (snd r) = State_Ready /\
  GetCurrentMediaType true (snd r) = (S_OK, Some mt) /\
  GetMajorType true (snd r) = (S_OK, Some MFMediaType_Video) /\
  FAILED (IsMediaTypeSupported (Some mt) (snd r)) = true /\
  SetCurrentMediaType (Some mt) (snd r)
  = (IsMediaTypeSupported (Some mt) (snd r), snd r).
Proof.
  apply (first_media_type_is_not_checked new_sink
           (mkMediaType (Some 2%nat) (Some NV12) []) NV12);
    [reflexivity|reflexivity|reflexivity|discriminate].
Defined.

(** ** The getters after shutdown *)

Lemma type_released_istep (a : Action) (sys : Sink * WorkerPc) :
  type_released (fst sys) -> type_released (fst (istep a sys)).
Proof.
  destruct sys as [s pc]. unfold type_released. cbn [fst]. intros Hinv.
  destruct (decide (changes_type a = true)) as [Ha|Ha].
  - rewrite istep_closed_form.
    destruct a as [[mt|]| | | | | | | |]; try done; cbn [decide fst snd];
      rewrite decide_False by done; cbn [fst call_result].
    + unfold SetCurrentMediaType_result.
      destruct (_isShutdown s) eqn:Hsd; [intros _; by apply Hinv|].
      destruct (_ && _); [simpl; by rewrite Hsd|].
      destruct (MF_MT_SUBTYPE mt); [|simpl; by rewrite Hsd].
      destruct (_state s); simpl; by rewrite Hsd.
    + destruct (_isShutdown s) eqn:Hsd; [|done]. intros _. by apply Hinv.
  - apply not_true_is_false in Ha.
    destruct (istep_keeps_type a (s, pc) Ha) as [-> ->]. done.
Qed.

(** X12: what the getters answer after shutdown.  On every sink that
    calls and worker sections produce from the constructor, once the
    sink is shut down GetCurrentMediaType and GetMediaTypeCount fail
    with MF_E_SHUTDOWN; GetMediaTypeByIndex(0) fails with MF_E_SHUTDOWN
    as well but writes its out-parameter, with a null pointer; for an
    index above 0 it answers MF_E_NO_MORE_TYPES instead; and GetMajorType,
    which does not look at the flag, answers MF_E_NOT_INITIALIZED. *)
Theorem getters_after_Shutdown (acts : list Action) :
  let s := fst (irun acts (new_sink, WorkerIdle)) in
  _isShutdown s = true ->
  GetCurrentMediaType true s = (MF_E_SHUTDOWN, None) /\
  GetMediaTypeCount true s = (MF_E_SHUTDOWN, None) /\
  GetMediaTypeByIndex 0 true s = (Code MF_E_SHUTDOWN, Some None) /\
  (forall n : nat,
     GetMediaTypeByIndex (S n) true s = (MF_E_NO_MORE_TYPES, None)) /\
  GetMajorType true s = (MF_E_NOT_INITIALIZED, None).
Proof.
  intros s Hsd.
  assert (type_released s) as Hinv.
  { subst s.
    apply (irun_invariant (fun sys => type_released (fst sys))).
    - intros a sys. apply type_released_istep.
    - done. }
  unfold GetCurrentMediaType, GetMediaTypeCount, GetMediaTypeByIndex,
    GetMajorType.
  rewrite Hsd, (Hinv Hsd). done.
Qed.

Lemma getters_after_Shutdown_witness :
  let s := fst (irun [DoSetCurrentMediaType (Some mt_vga); DoStart 0;
                      DoShutdown; DoSetCurrentMediaType (Some mt_vga);
                      DoWork] (new_sink, WorkerIdle)) in
  GetCurrentMediaType true s = (MF_E_SHUTDOWN, None) /\
  GetMediaTypeCount true s = (MF_E_SHUTDOWN, None) /\
  GetMediaTypeByIndex 0 true s = (Code MF_E_SHUTDOWN, Some None) /\
  (forall n : nat,
     GetMediaTypeByIndex (S n) true s = (MF_E_NO_MORE_TYPES, None)) /\
  GetMajorType true s = (MF_E_NOT_INITIALIZED, None).
Proof.
  apply (getters_after_Shutdown
           [DoSetCurrentMediaType (Some mt_vga); DoStart 0; DoShutdown;
            DoSetCurrentMediaType (Some mt_vga); DoWork]).
  reflexivity.
Defined.

(** ** The media sink and its stream *)

Lemma SetCurrentMediaType_new_sink (mt : MediaType) (g : GUID) :
  MF_MT_SUBTYPE mt = Some g ->
  SetCurrentMediaType (Some mt) new_sink
  = (S_OK, set_state State_Ready
             (set_guiCurrentSubtype g (set_spCurrentType (Some mt) new_sink))).
Proof.
  intros Hsub. rewrite SetCurrentMediaType_closed_form.
  unfold SetCurrentMediaType_result. by rewrite Hsub.
Qed.

(** X13: AddStreamSink turns its own errors into success.  It answers
    MF_E_STREAMSINK_EXISTS exactly when the media sink is live, the
    identifier is the stream id 0 and a stream is there.  In every other
    case, a media sink that is shut down and a foreign identifier
    included, it answers neither MF_E_SHUTDOWN nor
    MF_E_INVALIDSTREAMNUMBER: given a type with a subtype it returns S_OK
    and installs a new, live stream in state Ready with that type, in
    place of the stream that was there. *)
Theorem AddStreamSink_masks_errors (id : nat) (mt : MediaType) (g : GUID)
    (ms : MediaSink) :
  MF_MT_SUBTYPE mt = Some g ->
  let r := AddStreamSink id (Some mt) ms in
  if negb (ms_isShutdown ms) && bool_decide (id = GetStreamId)
     && bool_decide (_spStreamSink ms <> None)
  then r = (MF_E_STREAMSINK_EXISTS, ms)
  else fst r = S_OK /\ ms_isShutdown (snd r) = ms_isShutdown ms /\
       exists st : Sink,
         _spStreamSink (snd r) = Some st /\ _state st = State_Ready /\
         _isShutdown st = false /\ _spCurrentType st = Some mt /\
         _sampleQueue st = [] /\ workItems st = [].
Proof.
  intros Hsub r. subst r. unfold AddStreamSink, GetStreamSinkById.
  rewrite (SetCurrentMediaType_new_sink mt g Hsub).
  destruct (ms_isShutdown ms); simpl.
  - repeat split; try done. by eexists.
  - destruct (decide (id = GetStreamId)) as [->|Hid].
    + simpl. destruct (_spStreamSink ms) as [st|]; simpl; [done|].
      repeat split; try done. by eexists.
    + rewrite (bool_decide_eq_true_2 (id <> GetStreamId)) by done.
      rewrite (bool_decide_eq_false_2 (id = GetStreamId)) by done. simpl.
      repeat split; try done. by eexists.
Qed.

Lemma AddStreamSink_masks_errors_witness :
  let ms := mkMediaSink true (Some started_sink) 0 in
  let r := AddStreamSink 7 (Some mt_qvga) ms in
  fst r = S_OK /\ ms_isShutdown (snd r) = ms_isShutdown ms /\
  exists st : Sink,
    _spStreamSink (snd r) = Some st /\ _state st = State_Ready /\
    _isShutdown st = false /\ _spCurrentType st = Some mt_qvga /\
    _sampleQueue st = [] /\ workItems st = [].
Proof.
  apply (AddStreamSink_masks_errors 7 mt_qvga NV12
           (mkMediaSink true (Some started_sink) 0)).
  reflexivity.
Defined.

(** X14: the stream that AddStreamSink installs is the one the lookups
    return.  After AddStreamSink(0, type) on a live media sink without a
    stream, for a type with a subtype, GetStreamSinkById(0) and
    GetStreamSinkByIndex(0) both succeed and return the same stream,
    GetStreamSinkCount returns 1, and the stream's GetCurrentMediaType
    returns the type. *)
Theorem AddStreamSink_round_trip (mt : MediaType) (g : GUID)
    (ms : MediaSink) :
  ms_isShutdown ms = false -> _spStreamSink ms = None ->
  MF_MT_SUBTYPE mt = Some g ->
  let ms' := snd (AddStreamSink GetStreamId (Some mt) ms) in
  fst (AddStreamSink GetStreamId (Some mt) ms) = S_OK /\
  exists st : Sink,
    GetStreamSinkById GetStreamId ms' = S_OK /\
    GetStreamSinkById_out GetStreamId ms' = Some st /\
    GetStreamSinkByIndex 0 true ms' = (Code S_OK, Some (Some st)) /\
    GetStreamSinkCount true ms' = (S_OK, Some 1%nat) /\
    GetCurrentMediaType true st = (S_OK, Some mt).
Proof.
  intros Hsd Hnone Hsub ms'. subst ms'.
  unfold AddStreamSink, GetStreamSinkById.
  rewrite (SetCurrentMediaType_new_sink mt g Hsub), Hsd, Hnone. simpl.
  split; [done|]. eexists.
  unfold GetStreamSinkById_out, GetStreamSinkById, GetStreamSinkByIndex,
    GetStreamSinkCount. simpl. by repeat split.
Qed.

Lemma AddStreamSink_round_trip_witness :
  let ms' := snd (AddStreamSink GetStreamId (Some mt_vga) new_media_sink) in
  fst (AddStreamSink GetStreamId (Some mt_vga) new_media_sink) = S_OK /\
  exists st : Sink,
    GetStreamSinkById GetStreamId ms' = S_OK /\
    GetStreamSinkById_out GetStreamId ms' = Some st /\
    GetStreamSinkByIndex 0 true ms' = (Code S_OK, Some (Some st)) /\
    GetStreamSinkCount true ms' = (S_OK, Some 1%nat) /\
    GetCurrentMediaType true st = (S_OK, Some mt_vga).
Proof.
  apply (AddStreamSink_round_trip mt_vga NV12 new_media_sink); reflexivity.
Defined.

(** X15: RemoveStreamSink does not remove the stream.  On a live media
    sink that owns a stream, RemoveStreamSink(0) returns S_OK and shuts
    the stream down, but keeps it: GetStreamSinkById(0) still succeeds
    and returns the shut-down stream, and AddStreamSink(0, ...) answers
    MF_E_STREAMSINK_EXISTS and changes nothing, whatever type it is
    given, so that the stream id 0 cannot be given a working stream
    again. *)
Theorem RemoveStreamSink_keeps_the_stream (ms : MediaSink) (s : Sink) :
  ms_isShutdown ms = false -> _spStreamSink ms = Some s ->
  let ms' := snd (RemoveStreamSink GetStreamId ms) in
  fst (RemoveStreamSink GetStreamId ms) = S_OK /\
  _spStreamSink ms' = Some (snd (Shutdown s)) /\
  _isShutdown (snd (Shutdown s)) = true /\
  GetStreamSinkById GetStreamId ms' = S_OK /\
  GetStreamSinkById_out GetStreamId ms' = Some (snd (Shutdown s)) /\
  forall p : option MediaType,
    AddStreamSink GetStreamId p ms' = (MF_E_STREAMSINK_EXISTS, ms').
Proof.
  intros Hsd Hs ms'. subst ms'.
  unfold RemoveStreamSink. rewrite Hsd, Hs. simpl.
  destruct (Shutdown_sets_flag s) as [_ Hflag].
  unfold GetStreamSinkById_out, AddStreamSink, GetStreamSinkById. simpl.
  rewrite ?Hsd. simpl. by repeat split.
Qed.

Lemma RemoveStreamSink_keeps_the_stream_witness :
  let ms := mkMediaSink false (Some started_sink) 0 in
  let ms' := snd (RemoveStreamSink GetStreamId ms) in
  fst (RemoveStreamSink GetStreamId ms) = S_OK /\
  _spStreamSink ms' = Some (snd (Shutdown started_sink)) /\
  _isShutdown (snd (Shutdown started_sink)) = true /\
  GetStreamSinkById GetStreamId ms' = S_OK /\
  GetStreamSinkById_out GetStreamId ms' = Some (snd (Shutdown started_sink)) /\
  forall p : option MediaType,
    AddStreamSink GetStreamId p ms' = (MF_E_STREAMSINK_EXISTS, ms').
Proof.
  apply (RemoveStreamSink_keeps_the_stream
           (mkMediaSink false (Some started_sink) 0) started_sink);
    reflexivity.
Defined.

(** X16: the clock notifications do not report what the stream answers.
    On a live media sink that owns a stream, OnClockStart and OnClockStop
    return S_OK whatever the stream's Start and Stop return; when the
    stream rejects the operation (its type is not set, say), the stream
    is left as it was, and OnClockStart has still recorded the start
    offset. *)
Theorem clock_notifications_hide_rejections (ms : MediaSink) (s : Sink)
    (hnsSystemTime : MFTIME) (llClockStartOffset : Z) :
  ms_isShutdown ms = false -> _spStreamSink ms = Some s ->
  (OnClockStart hnsSystemTime llClockStartOffset ms
   = Some (S_OK,
           mkMediaSink false (Some (snd (Start llClockStartOffset s)))
             llClockStartOffset) /\
   (fst (Start llClockStartOffset s) <> S_OK ->
    snd (Start llClockStartOffset s) = s)) /\
  (OnClockStop hnsSystemTime ms
   = Some (S_OK,
           mkMediaSink false (Some (snd (Stop s))) (_llStartTime ms)) /\
   (fst (Stop s) <> S_OK -> snd (Stop s) = s)).
Proof.
  intros Hsd Hs. unfold OnClockStart, OnClockStop. rewrite Hsd, Hs. simpl.
  repeat split; try done.
  - unfold Start. destruct (SUCCEEDED _) eqn:Hv; [|done].
    intros Hne. destruct Hne. done.
  - unfold Stop. destruct (SUCCEEDED _) eqn:Hv; [|done].
    intros Hne. destruct Hne. done.
Qed.

Lemma clock_notifications_hide_rejections_witness :
  let ms := mkMediaSink false (Some new_sink) 0 in
  (OnClockStart 5 7 ms
   = Some (S_OK, mkMediaSink false (Some (snd (Start 7 new_sink))) 7) /\
   (fst (Start 7 new_sink) <> S_OK -> snd (Start 7 new_sink) = new_sink)) /\
  (OnClockStop 5 ms
   = Some (S_OK,
           mkMediaSink false (Some (snd (Stop new_sink))) (_llStartTime ms))
   /\ (fst (Stop new_sink) <> S_OK -> snd (Stop new_sink) = new_sink)).
Proof.
  apply (clock_notifications_hide_rejections
           (mkMediaSink false (Some new_sink) 0) new_sink 5 7); reflexivity.
Defined.

(** ** Shutdown of the media sink *)

Lemma AddStreamSink_keeps_the_flag (id : nat) (p : option MediaType)
    (ms : MediaSink) :
  ms_isShutdown (snd (AddStreamSink id p ms)) = ms_isShutdown ms.
Proof.
  destruct ms as [sd st t0]. unfold AddStreamSink, GetStreamSinkById. simpl.
  destruct sd; simpl.
  - destruct p as [mt|]; [|done].
    by destruct (SetCurrentMediaType (Some mt) new_sink) as [[] ?].
  - destruct (bool_decide (id <> GetStreamId)); simpl.
    + destruct p as [mt|]; [|done].
      by destruct (SetCurrentMediaType (Some mt) new_sink) as [[] ?].
    + destruct (bool_decide (st = None)); simpl; [|done].
      destruct p as [mt|]; [|done].
      by destruct (SetCurrentMediaType (Some mt) new_sink) as [[] ?].
Qed.

Lemma media_sink_call_flag (c : MediaSinkCall) (w w' : MediaSinkWorld) :
  c <> CallShutdown -> media_sink_call c w = Some w' ->
  ms_isShutdown (the_sink w') = ms_isShutdown (the_sink w).
Proof.
  intros Hc. destruct w as [[sd st t0] clk calls cb ntf].
  destruct c as [id p|id|p hrR hrA|t off|t|t|t|t|]; try done;
    cbn [media_sink_call].
  - intros [= <-]. apply AddStreamSink_keeps_the_flag.
  - intros [= <-]. unfold on_sink, RemoveStreamSink. simpl.
    by destruct sd, (bool_decide (id <> GetStreamId)), st.
  - intros [= <-]. unfold SetPresentationClock. simpl.
    destruct sd; simpl; [done|].
    destruct clk as [c|], p as [c'|]; simpl;
      repeat (match goal with
              | |- context [SUCCEEDED ?hr] => destruct (SUCCEEDED hr)
              end; simpl); done.
  - unfold OnClockStart. simpl. destruct sd; simpl; [by intros [= <-]|].
    destruct st; [by intros [= <-]|done].
  - unfold OnClockStop. simpl. destruct sd; simpl; [by intros [= <-]|].
    destruct st; [by intros [= <-]|done].
  - by intros [= <-].
  - by intros [= <-].
  - by intros [= <-].
Qed.

Lemma shut_down_media_sink_call (c : MediaSinkCall) (w : MediaSinkWorld) :
  ms_isShutdown (the_sink w) = true -> is_AddStreamSink c = false ->
  media_sink_call c w = Some w.
Proof.
  intros Hsd Hc. destruct w as [[sd st t0] clk calls cb ntf].
  simpl in Hsd. subst sd.
  destruct c as [id p|id|p hrR hrA|t off|t|t|t|t|]; try done; simpl.
  unfold on_sink, RemoveStreamSink. simpl. by destruct st.
Qed.

Lemma shut_down_media_sink_run (calls : list MediaSinkCall)
    (w : MediaSinkWorld) :
  ms_isShutdown (the_sink w) = true ->
  forallb (fun c => negb (is_AddStreamSink c)) calls = true ->
  media_sink_run calls w = Some w.
Proof.
  intros Hsd. induction calls as [|c calls IH]; intros Hcalls; [done|].
  simpl in Hcalls. apply andb_true_iff in Hcalls as [Hc Hcalls].
  apply negb_true_iff in Hc. cbn [media_sink_run].
  rewrite (shut_down_media_sink_call c w Hsd Hc). by apply IH.
Qed.

Lemma MediaSink_Shutdown_live (w : MediaSinkWorld) (s : Sink) :
  ms_isShutdown (the_sink w) = false ->
  _spStreamSink (the_sink w) = Some s ->
  MediaSink_Shutdown w
  = Some (S_OK,
          mkMediaSinkWorld
            (mkMediaSink true (Some (snd (Shutdown s)))
               (_llStartTime (the_sink w)))
            None (clockCalls w) (_callback w)
            (notified w ++ option_list (_callback w))).
Proof. intros Hsd Hs. unfold MediaSink_Shutdown. by rewrite Hsd, Hs. Qed.

(** X17: the media sink shuts down once.  On a live media sink that owns
    a stream, Shutdown returns S_OK, sets the flag, shuts the stream
    down and keeps it, drops the presentation clock without a call to
    it, and calls the callback's OnShutdown once.  From then on the
    media sink is frozen: whatever is called on it afterwards, another
    Shutdown included and AddStreamSink excepted, changes nothing, and
    the callback is not notified again. *)
Theorem MediaSink_Shutdown_once (w : MediaSinkWorld) (s : Sink)
    (calls : list MediaSinkCall) :
  ms_isShutdown (the_sink w) = false ->
  _spStreamSink (the_sink w) = Some s ->
  forallb (fun c => negb (is_AddStreamSink c)) calls = true ->
  exists w1 : MediaSinkWorld,
    MediaSink_Shutdown w = Some (S_OK, w1) /\
    ms_isShutdown (the_sink w1) = true /\
    _spStreamSink (the_sink w1) = Some (snd (Shutdown s)) /\
    _isShutdown (snd (Shutdown s)) = true /\
    _spClock w1 = None /\ clockCalls w1 = clockCalls w /\
    notified w1 = notified w ++ option_list (_callback w) /\
    MediaSink_Shutdown w1 = Some (S_OK, w1) /\
    media_sink_run calls w1 = Some w1.
Proof.
  intros Hsd Hs Hcalls. eexists.
  split; [by apply MediaSink_Shutdown_live|].
  destruct (Shutdown_sets_flag s) as [_ Hflag].
  repeat split; try done.
  by apply shut_down_media_sink_run.
Qed.

Lemma MediaSink_Shutdown_once_witness :
  let w := mkMediaSinkWorld (mkMediaSink false (Some started_sink) 0)
             (Some 4%nat) [(AddClockStateSink 4%nat, S_OK)] (Some 9%nat) [] in
  let calls := [CallShutdown; CallOnClockStart 0 0;
                CallSetPresentationClock None S_OK S_OK;
                CallRemoveStreamSink 0; CallShutdown] in
  exists w1 : MediaSinkWorld,
    MediaSink_Shutdown w = Some (S_OK, w1) /\
    ms_isShutdown (the_sink w1) = true /\
    _spStreamSink (the_sink w1) = Some (snd (Shutdown started_sink)) /\
    _isShutdown (snd (Shutdown started_sink)) = true /\
    _spClock w1 = None /\ clockCalls w1 = clockCalls w /\
    notified w1 = notified w ++ option_list (_callback w) /\
    MediaSink_Shutdown w1 = Some (S_OK, w1) /\
    media_sink_run calls w1 = Some w1.
Proof.
  apply (MediaSink_Shutdown_once
           (mkMediaSinkWorld (mkMediaSink false (Some started_sink) 0)
              (Some 4%nat) [(AddClockStateSink 4%nat, S_OK)] (Some 9%nat) [])
           started_sink
           [CallShutdown; CallOnClockStart 0 0;
            CallSetPresentationClock None S_OK S_OK;
            CallRemoveStreamSink 0; CallShutdown]);
    reflexivity.
Defined.

(** X18: what the media sink answers after Shutdown.  After Shutdown
    of a live media sink that owns a stream, and after whatever is
    called on it then, AddStreamSink excepted: with valid arguments
    GetStreamSinkCount, GetStreamSinkByIndex(0), GetStreamSinkById(0),
    RemoveStreamSink, SetPresentationClock, GetPresentationClock,
    OnClockStart and OnClockStop all answer MF_E_SHUTDOWN and change
    nothing; with a wrong index or identifier the lookups answer
    MF_E_INVALIDINDEX and MF_E_INVALIDSTREAMNUMBER instead; Shutdown
    answers S_OK. *)
Theorem media_sink_after_Shutdown (w0 w1 : MediaSinkWorld) (s : Sink)
    (calls : list MediaSinkCall) :
  ms_isShutdown (the_sink w0) = false ->
  _spStreamSink (the_sink w0) = Some s ->
  MediaSink_Shutdown w0 = Some (S_OK, w1) ->
  forallb (fun c => negb (is_AddStreamSink c)) calls = true ->
  exists w : MediaSinkWorld,
    media_sink_run calls w1 = Some w /\
    let ms := the_sink w in
    GetStreamSinkCount true ms = (MF_E_SHUTDOWN, None) /\
    GetStreamSinkByIndex 0 true ms = (Code MF_E_SHUTDOWN, None) /\
    (forall n,
       GetStreamSinkByIndex (S n) true ms = (MF_E_INVALIDINDEX, None)) /\
    GetStreamSinkById GetStreamId ms = MF_E_SHUTDOWN /\
    GetStreamSinkById_out GetStreamId ms = None /\
    (forall id, id <> GetStreamId ->
       GetStreamSinkById id ms = MF_E_INVALIDSTREAMNUMBER) /\
    (forall id, RemoveStreamSink id ms = (MF_E_SHUTDOWN, ms)) /\
    (forall p hrRemove hrAdd,
       SetPresentationClock p hrRemove hrAdd w = (MF_E_SHUTDOWN, w)) /\
    GetPresentationClock true w = (Code MF_E_SHUTDOWN, None) /\
    (forall t offset, OnClockStart t offset ms = Some (MF_E_SHUTDOWN, ms)) /\
    (forall t, OnClockStop t ms = Some (MF_E_SHUTDOWN, ms)) /\
    MediaSink_Shutdown w = Some (S_OK, w).
Proof.
  intros Hsd Hs Hw1 Hcalls.
  rewrite (MediaSink_Shutdown_live w0 s Hsd Hs) in Hw1.
  injection Hw1 as <-. eexists.
  split; [by apply shut_down_media_sink_run|].
  unfold GetStreamSinkCount, GetStreamSinkByIndex, GetStreamSinkById_out,
    GetStreamSinkById, RemoveStreamSink, SetPresentationClock,
    GetPresentationClock, OnClockStart, OnClockStop, MediaSink_Shutdown.
  simpl. repeat split; try done.
  intros id Hid. by rewrite (bool_decide_eq_true_2 _ Hid).
Qed.

Lemma media_sink_after_Shutdown_witness :
  let w0 := mkMediaSinkWorld (mkMediaSink false (Some started_sink) 0)
              (Some 4%nat) [] (Some 9%nat) [] in
  let w1 := mkMediaSinkWorld
              (mkMediaSink true (Some (snd (Shutdown started_sink))) 0)
              None [] (Some 9%nat) [9%nat] in
  exists w : MediaSinkWorld,
    media_sink_run [CallOnClockStart 0 0; CallShutdown] w1 = Some w /\
    let ms := the_sink w in
    GetStreamSinkCount true ms = (MF_E_SHUTDOWN, None) /\
    GetStreamSinkByIndex 0 true ms = (Code MF_E_SHUTDOWN, None) /\
    (forall n,
       GetStreamSinkByIndex (S n) true ms = (MF_E_INVALIDINDEX, None)) /\
    GetStreamSinkById GetStreamId ms = MF_E_SHUTDOWN /\
    GetStreamSinkById_out GetStreamId ms = None /\
    (forall id, id <> GetStreamId ->
       GetStreamSinkById id ms = MF_E_INVALIDSTREAMNUMBER) /\
    (forall id, RemoveStreamSink id ms = (MF_E_SHUTDOWN, ms)) /\
    (forall p hrRemove hrAdd,
       SetPresentationClock p hrRemove hrAdd w = (MF_E_SHUTDOWN, w)) /\
    GetPresentationClock true w = (Code MF_E_SHUTDOWN, None) /\
    (forall t offset, OnClockStart t offset ms = Some (MF_E_SHUTDOWN, ms)) /\
    (forall t, OnClockStop t ms = Some (MF_E_SHUTDOWN, ms)) /\
    MediaSink_Shutdown w = Some (S_OK, w).
Proof.
  apply (media_sink_after_Shutdown
           (mkMediaSinkWorld (mkMediaSink false (Some started_sink) 0)
              (Some 4%nat) [] (Some 9%nat) [])
           (mkMediaSinkWorld
              (mkMediaSink true (Some (snd (Shutdown started_sink))) 0)
              None [] (Some 9%nat) [9%nat])
           started_sink [CallOnClockStart 0 0; CallShutdown]); reflexivity.
Defined.

(** ** The presentation clock *)

Lemma registered_app (calls1 calls2 : list (ClockCall * HRESULT)) :
  forall on : list Clock,
    registered (calls1 ++ calls2) on
    = registered calls2 (registered calls1 on).
Proof.
  induction calls1 as [|[[c|c] hr] calls1 IH]; intros on; [done| |];
    simpl; apply IH.
Qed.

Lemma filter_other_clock (c : Clock) (on : list Clock) :
  Forall (fun c' => Some c = Some c') on ->
  filter (fun c' => c' <> c) on = [].
Proof.
  induction 1 as [|c' on Hc _ IH]; [done|].
  rewrite filter_cons_False; [done|]. intros Hne. apply Hne. congruence.
Qed.

Lemma clock_inv_SetPresentationClock (p : option Clock)
    (hrR hrA : HRESULT) (w : MediaSinkWorld) :
  clock_inv w -> clock_inv (snd (SetPresentationClock p hrR hrA w)).
Proof.
  unfold clock_inv. intros Hinv.
  assert (ms_isShutdown (the_sink (snd (SetPresentationClock p hrR hrA w)))
          = ms_isShutdown (the_sink w)) as ->.
  { by apply (media_sink_call_flag (CallSetPresentationClock p hrR hrA)). }
  intros Hsd. specialize (Hinv Hsd).
  unfold SetPresentationClock. rewrite Hsd.
  assert (_spClock w = None -> registered (clockCalls w) [] = []) as Hnil.
  { intros Hclk. rewrite Hclk in Hinv.
    destruct (registered (clockCalls w) []) as [|c1 on]; [done|].
    by apply Forall_cons in Hinv as [? _]. }
  assert (forall c0, _spClock w = Some c0 ->
    filter (fun c' => c' <> c0) (registered (clockCalls w) []) = [])
    as Hfilter.
  { intros c0 Hclk. apply filter_other_clock. by rewrite <- Hclk. }
  destruct (_spClock w) as [c0|] eqn:Hclk; destruct p as [c'|];
    destruct (SUCCEEDED hrR) eqn:HR; destruct (SUCCEEDED hrA) eqn:HA;
    cbn [SUCCEEDED fst snd]; rewrite ?HR, ?HA;
    cbn [SUCCEEDED fst snd _spClock clockCalls];
    rewrite <- ?app_assoc, ?registered_app; cbn [registered app];
    rewrite ?HR, ?HA, ?(Hfilter c0 eq_refl), ?(Hnil eq_refl);
    cbn [app]; try done; by repeat constructor.
Qed.

Lemma clock_inv_set_the_sink (ms : MediaSink) (w : MediaSinkWorld) :
  ms_isShutdown ms = ms_isShutdown (the_sink w) ->
  clock_inv w -> clock_inv (set_the_sink ms w).
Proof. unfold clock_inv. simpl. by intros ->. Qed.

Lemma clock_inv_call (c : MediaSinkCall) (w w' : MediaSinkWorld) :
  media_sink_call c w = Some w' -> clock_inv w -> clock_inv w'.
Proof.
  intros Hcall Hinv.
  pose proof (media_sink_call_flag c w w') as Hflag.
  destruct c as [id p|id|p hrR hrA|t off|t|t|t|t|];
    cbn [media_sink_call] in Hcall.
  - injection Hcall as <-. apply clock_inv_set_the_sink; [|done].
    by apply Hflag.
  - injection Hcall as <-. apply clock_inv_set_the_sink; [|done].
    by apply Hflag.
  - injection Hcall as <-. by apply clock_inv_SetPresentationClock.
  - destruct (OnClockStart t off (the_sink w)) as [r|] eqn:Hr; [|done].
    injection Hcall as <-. apply clock_inv_set_the_sink; [|done].
    apply (Hflag ltac:(done)). cbn [media_sink_call]. by rewrite Hr.
  - destruct (OnClockStop t (the_sink w)) as [r|] eqn:Hr; [|done].
    injection Hcall as <-. apply clock_inv_set_the_sink; [|done].
    apply (Hflag ltac:(done)). cbn [media_sink_call]. by rewrite Hr.
  - injection Hcall as <-. by apply clock_inv_set_the_sink.
  - injection Hcall as <-. by apply clock_inv_set_the_sink.
  - injection Hcall as <-. by apply clock_inv_set_the_sink.
  - unfold MediaSink_Shutdown in Hcall.
    destruct (ms_isShutdown (the_sink w)) eqn:Hsd; cbn [SUCCEEDED] in Hcall.
    + by injection Hcall as <-.
    + destruct (_spStreamSink (the_sink w)); [|done].
      by injection Hcall as <-.
Qed.

(** X19: while it is live, the media sink is registered with no clock
    but the one it stores.  Whatever the clients call and whatever the
    clocks answer to RemoveClockStateSink and AddClockStateSink, the
    successful calls the media sink has made on clocks leave it on the
    list of at most the clock that GetPresentationClock returns. *)
Theorem clock_registration_follows_the_stored_clock
    (calls : list MediaSinkCall) (w : MediaSinkWorld) :
  media_sink_run calls new_world = Some w ->
  ms_isShutdown (the_sink w) = false ->
  Forall (fun c => GetPresentationClock true w = (Code S_OK, Some c))
    (registered (clockCalls w) []).
Proof.
  intros Hrun Hsd.
  assert (clock_inv w) as Hinv.
  { assert (clock_inv new_world) as Hnew by (intros _; constructor).
    revert Hnew Hrun. generalize new_world.
    induction calls as [|c calls IH]; intros w0 Hw0 Hrun.
    - by injection Hrun as <-.
    - cbn [media_sink_run] in Hrun.
      destruct (media_sink_call c w0) as [w1|] eqn:Hc; [|done].
      apply (IH w1); [|done]. by apply (clock_inv_call c w0). }
  eapply Forall_impl; [exact (Hinv Hsd)|].
  intros c Hc. unfold GetPresentationClock. by rewrite Hsd, Hc.
Qed.

Lemma clock_registration_follows_the_stored_clock_witness :
  let w := mkMediaSinkWorld
             (mkMediaSink false (Some ready_sink) 0) (Some 6%nat)
             [(AddClockStateSink 4%nat, S_OK);
              (RemoveClockStateSink 4%nat, S_OK);
              (AddClockStateSink 5%nat, E_OUTOFMEMORY);
              (RemoveClockStateSink 4%nat, S_OK);
              (AddClockStateSink 6%nat, S_OK)] None [] in
  Forall (fun c => GetPresentationClock true w = (Code S_OK, Some c))
    (registered (clockCalls w) []).
Proof.
  apply (clock_registration_follows_the_stored_clock
           [CallSetPresentationClock (Some 4%nat) S_OK S_OK;
            CallAddStreamSink 0 (Some mt_vga);
            CallSetPresentationClock (Some 5%nat) S_OK E_OUTOFMEMORY;
            CallSetPresentationClock (Some 6%nat) S_OK S_OK]);
    reflexivity.
Defined.

(** X20: a switch of clocks that fails half way.  When the media sink
    stores a clock it is registered with, and SetPresentationClock is
    given another clock whose AddClockStateSink fails, the call returns
    that failure and the old clock stays stored, so that
    GetPresentationClock still returns it; but RemoveClockStateSink has
    already succeeded on it, so the media sink is registered with no
    clock. *)
Theorem failed_clock_switch_unregisters (w : MediaSinkWorld)
    (c c' : Clock) (hrRemove hrAdd : HRESULT) :
  ms_isShutdown (the_sink w) = false -> _spClock w = Some c ->
  registered (clockCalls w) [] = [c] ->
  SUCCEEDED hrRemove = true -> FAILED hrAdd = true ->
  let r := SetPresentationClock (Some c') hrRemove hrAdd w in
  fst r = hrAdd /\ _spClock (snd r) = Some c /\
  GetPresentationClock true (snd r) = (Code S_OK, Some c) /\
  clockCalls (snd r)
  = clockCalls w ++ [(RemoveClockStateSink c, hrRemove);
                     (AddClockStateSink c', hrAdd)] /\
  registered (clockCalls (snd r)) [] = [].
Proof.
  intros Hsd Hclk Hreg HR HA r. subst r.
  assert (SUCCEEDED hrAdd = false) as HA' by (by destruct hrAdd).
  unfold SetPresentationClock, GetPresentationClock.
  rewrite Hsd, Hclk. cbn [SUCCEEDED fst snd]. rewrite HR, HA'.
  cbn [fst snd _spClock clockCalls the_sink negb]. rewrite Hsd.
  cbn [SUCCEEDED]. rewrite <- app_assoc. cbn [app].
  repeat split; try done.
  rewrite registered_app, Hreg. cbn [registered]. rewrite HR, HA'.
  rewrite filter_cons_False by (intros Hne; by apply Hne). done.
Qed.

Lemma failed_clock_switch_unregisters_witness :
  let w := snd (SetPresentationClock (Some 4%nat) S_OK S_OK new_world) in
  let r := SetPresentationClock (Some 5%nat) S_OK E_OUTOFMEMORY w in
  fst r = E_OUTOFMEMORY /\ _spClock (snd r) = Some 4%nat /\
  GetPresentationClock true (snd r) = (Code S_OK, Some 4%nat) /\
  clockCalls (snd r)
  = clockCalls w ++ [(RemoveClockStateSink 4%nat, S_OK);
                     (AddClockStateSink 5%nat, E_OUTOFMEMORY)] /\
  registered (clockCalls (snd r)) [] = [].
Proof.
  apply (failed_clock_switch_unregisters
           (snd (SetPresentationClock (Some 4%nat) S_OK S_OK new_world))
           4%nat 5%nat S_OK E_OUTOFMEMORY); reflexivity.
Defined.

Lemma shut_down_media_sink_clock (c : MediaSinkCall) (w : MediaSinkWorld) :
  ms_isShutdown (the_sink w) = true ->
  exists w' : MediaSinkWorld,
    media_sink_call c w = Some w' /\
    ms_isShutdown (the_sink w') = true /\
    clockCalls w' = clockCalls w /\ _spClock w' = _spClock w.
Proof.
  intros Hsd.
  destruct (is_AddStreamSink c) eqn:Hc.
  - destruct c as [id p| | | | | | | |]; try done.
    eexists. split; [reflexivity|]. repeat split; try done.
    cbn [on_sink set_the_sink the_sink].
    by rewrite AddStreamSink_keeps_the_flag.
  - exists w. by rewrite shut_down_media_sink_call.
Qed.

(** X21: Shutdown never takes the media sink off its clock.  Shutdown
    drops the stored clock without calling RemoveClockStateSink, and
    nothing that is called afterwards makes a call on a clock or fails
    to return: the media sink stays on the list of state sinks of the
    clock it was registered with, while it no longer stores any. *)
Theorem Shutdown_leaves_the_clock_registration (w : MediaSinkWorld)
    (s : Sink) (calls : list MediaSinkCall) :
  ms_isShutdown (the_sink w) = false ->
  _spStreamSink (the_sink w) = Some s ->
  exists w1 w' : MediaSinkWorld,
    MediaSink_Shutdown w = Some (S_OK, w1) /\
    media_sink_run calls w1 = Some w' /\
    clockCalls w' = clockCalls w /\ _spClock w' = None /\
    registered (clockCalls w') [] = registered (clockCalls w) [].
Proof.
  intros Hsd Hs. eexists.
  assert (forall w1 : MediaSinkWorld,
    ms_isShutdown (the_sink w1) = true ->
    exists w' : MediaSinkWorld,
      media_sink_run calls w1 = Some w' /\
      clockCalls w' = clockCalls w1 /\ _spClock w' = _spClock w1) as Hrun.
  { induction calls as [|c calls IH]; intros w1 H1; [by exists w1|].
    destruct (shut_down_media_sink_clock c w1 H1)
      as (w2 & Hc & H2 & E1 & E2).
    destruct (IH w2 H2) as (w' & Hr & E3 & E4).
    exists w'. cbn [media_sink_run]. rewrite Hc, Hr, E3, E4. done. }
  match goal with
  | |- exists w', _ = Some (_, ?w1) /\ _ =>
      destruct (Hrun (mkMediaSinkWorld
                  (mkMediaSink true (Some (snd (Shutdown s)))
                     (_llStartTime (the_sink w)))
                  None (clockCalls w) (_callback w)
                  (notified w ++ option_list (_callback w))) eq_refl)
        as (w' & Hr & E1 & E2)
  end.
  exists w'. split; [by apply MediaSink_Shutdown_live|].
  split; [exact Hr|]. cbn [clockCalls _spClock] in E1, E2.
  by rewrite E1, E2.
Qed.

Lemma Shutdown_leaves_the_clock_registration_witness :
  let w := mkMediaSinkWorld (mkMediaSink false (Some ready_sink) 0)
             (Some 4%nat) [(AddClockStateSink 4%nat, S_OK)] None [] in
  exists w1 w' : MediaSinkWorld,
    MediaSink_Shutdown w = Some (S_OK, w1) /\
    media_sink_run [CallSetPresentationClock None S_OK S_OK;
                    CallAddStreamSink 3 (Some mt_vga)] w1 = Some w' /\
    clockCalls w' = clockCalls w /\ _spClock w' = None /\
    registered (clockCalls w') [] = registered (clockCalls w) [].
Proof.
  apply (Shutdown_leaves_the_clock_registration
           (mkMediaSinkWorld (mkMediaSink false (Some ready_sink) 0)
              (Some 4%nat) [(AddClockStateSink 4%nat, S_OK)] None [])
           ready_sink
           [CallSetPresentationClock None S_OK S_OK;
            CallAddStreamSink 3 (Some mt_vga)]); reflexivity.
Defined.

(** ** Initialization *)

(** X22: RuntimeClassInitialize succeeds or leaves no trace.  On a media
    sink as constructed: when the encoding properties are null it
    succeeds and there is no stream; when they convert to a media type
    with a subtype it succeeds, and the media sink owns a live stream in
    state Ready with that type; in both cases the callback is stored.
    When the conversion throws, or the type has no subtype, it returns
    the failure and the media sink is as constructed: no stream, and the
    callback cleared. *)
Theorem RuntimeClassInitialize_result (callback : nat)
    (encodingProperties : option (HRESULT + MediaType)) :
  (forall hr, encodingProperties = Some (inl hr) -> FAILED hr = true) ->
  let r := RuntimeClassInitialize callback encodingProperties new_world in
  (fst r <> S_OK -> snd r = new_world) /\
  (fst r = S_OK ->
   _callback (snd r) = Some callback /\
   ms_isShutdown (the_sink (snd r)) = false /\
   match encodingProperties with
   | Some (inr mt) =>
       exists st : Sink,
         _spStreamSink (the_sink (snd r)) = Some st /\
         _state st = State_Ready /\ _isShutdown st = false /\
         GetCurrentMediaType true st = (S_OK, Some mt)
   | _ => _spStreamSink (the_sink (snd r)) = None
   end) /\
  (fst r = S_OK <->
   match encodingProperties with
   | Some (inr mt) => is_Some (MF_MT_SUBTYPE mt)
   | Some (inl _) => False
   | None => True
   end).
Proof.
  intros Hthrow r. subst r.
  destruct encodingProperties as [[hr|mt]|]; unfold RuntimeClassInitialize.
  - specialize (Hthrow hr eq_refl). simpl.
    split; [done|]. split; [|split; [|done]]; intros E; by rewrite E in Hthrow.
  - unfold on_sink at 2. cbn [the_sink]. unfold on_sink.
    unfold RemoveStreamSink, AddStreamSink, GetStreamSinkById.
    cbn -[SetCurrentMediaType].
    rewrite SetCurrentMediaType_closed_form.
    unfold SetCurrentMediaType_result. simpl.
    destruct (MF_MT_SUBTYPE mt) as [g|] eqn:Hsub; simpl.
    + split; [done|]. split; [|done]. intros _.
      split; [done|]. split; [done|].
      eexists. split; [reflexivity|]. by repeat split.
    + split; [done|]. split; [done|]. split; [done|].
      intros [g Hg]. done.
  - simpl. repeat split; done.
Qed.

Lemma RuntimeClassInitialize_result_witness :
  let r := RuntimeClassInitialize 9 (Some (inr mt_vga)) new_world in
  (fst r <> S_OK -> snd r = new_world) /\
  (fst r = S_OK ->
   _callback (snd r) = Some 9%nat /\
   ms_isShutdown (the_sink (snd r)) = false /\
   exists st : Sink,
     _spStreamSink (the_sink (snd r)) = Some st /\
     _state st = State_Ready /\ _isShutdown st = false /\
     GetCurrentMediaType true st = (S_OK, Some mt_vga)) /\
  (fst r = S_OK <-> is_Some (MF_MT_SUBTYPE mt_vga)).
Proof.
  apply (RuntimeClassInitialize_result 9 (Some (inr mt_vga))).
  intros hr H. discriminate H.
Defined.

(** X23: a media sink made without encoding properties cannot be
    driven.  RuntimeClassInitialize with null properties succeeds and
    leaves the media sink without a stream; GetStreamSinkCount still
    answers 1, while GetStreamSinkById(0) fails with
    MF_E_INVALIDSTREAMNUMBER; and OnClockStart, OnClockStop and Shutdown,
    which reach the stream without a test, go through the null pointer
    and have no result. *)
Theorem media_sink_without_properties_has_no_stream (callback : nat) :
  let r := RuntimeClassInitialize callback None new_world in
  let ms := the_sink (snd r) in
  fst r = S_OK /\ ms_isShutdown ms = false /\ _spStreamSink ms = None /\
  GetStreamSinkCount true ms = (S_OK, Some 1%nat) /\
  GetStreamSinkById GetStreamId ms = MF_E_INVALIDSTREAMNUMBER /\
  (forall t offset, OnClockStart t offset ms = None) /\
  (forall t, OnClockStop t ms = None) /\
  MediaSink_Shutdown (snd r) = None.
Proof. by repeat split. Qed.

(** ** The proxy *)

Lemma spent_proxy_results (calls : list ProxyCall) :
  forall p : Proxy,
    _shutdown p = true \/ _mediaSink p <> None ->
    successes (proxy_results calls p) = 0%nat.
Proof.
  induction calls as [|c calls IH]; intros p Hp; [done|].
  cbn [proxy_results]. unfold successes in *.
  destruct c as [cb props|]; cbn [proxy_call].
  - unfold InitializeAsync.
    destruct (_shutdown p) eqn:Hsd; cbn [fst snd app].
    + rewrite filter_cons_False by done. apply IH. by left.
    + destruct Hp as [Hp|Hp]; [done|].
      rewrite (bool_decide_eq_true_2 _ Hp). cbn [fst snd].
      rewrite filter_cons_False by done. apply IH. by right.
  - cbn [app]. apply IH. left. unfold OnShutdown.
    by destruct (_shutdown p) eqn:Hsd.
Qed.

(** X24: a proxy yields at most one media sink.  Whatever sequence of
    InitializeAsync and OnShutdown calls is made on a proxy, with
    whatever encoding properties, at most one InitializeAsync
    succeeds. *)
Theorem proxy_initializes_at_most_once (calls : list ProxyCall)
    (p : Proxy) :
  (successes (proxy_results calls p) <= 1)%nat.
Proof.
  revert p. induction calls as [|c calls IH]; intros p.
  - unfold successes. simpl. lia.
  - cbn [proxy_results].
    destruct c as [cb props|]; cbn [proxy_call app]; [|apply IH].
    unfold InitializeAsync.
    destruct (_shutdown p) eqn:Hsd; cbn [fst snd app].
    { unfold successes. rewrite filter_cons_False by done. apply IH. }
    destruct (bool_decide (_mediaSink p <> None)); cbn [fst snd].
    { unfold successes. rewrite filter_cons_False by done. apply IH. }
    destruct (FAILED (fst (RuntimeClassInitialize cb props new_world)))
      eqn:Hf; cbn [fst snd].
    + unfold successes. rewrite filter_cons_False; [apply IH|].
      intros E. injection E as E. by rewrite E in Hf.
    + unfold successes. rewrite filter_cons_True by done. cbn [length].
      fold (successes (proxy_results calls
              (mkProxy false
                 (Some (snd (RuntimeClassInitialize cb props new_world)))))).
      rewrite spent_proxy_results; [lia|]. by right.
Qed.

(** X25: after OnShutdown the proxy is spent.  Once OnShutdown has run
    on a proxy that was not shut down, the proxy holds no media sink:
    GetMFExtension fails with MF_E_NOT_INITIALIZED, every later
    InitializeAsync fails with MF_E_SHUTDOWN, and no later call changes
    the proxy. *)
Theorem proxy_after_OnShutdown (calls : list ProxyCall) (p : Proxy) :
  _shutdown p = false ->
  let p1 := OnShutdown p in
  GetMFExtension p1 = (MF_E_NOT_INITIALIZED, None) /\
  Forall (fun hr => hr = Code MF_E_SHUTDOWN) (proxy_results calls p1) /\
  proxy_run calls p1 = p1.
Proof.
  intros Hsd p1. subst p1. unfold OnShutdown. rewrite Hsd.
  split; [done|].
  induction calls as [|c calls [IH1 IH2]]; [done|].
  unfold proxy_run in *. cbn [proxy_results foldl].
  destruct c as [cb props|]; cbn [proxy_call]; simpl; [|done].
  split; [|done]. by constructor.
Qed.

Lemma proxy_after_OnShutdown_witness :
  let p := mkProxy false (Some new_world) in
  let calls := [CallInitializeAsync 9 None; CallOnShutdown;
                CallInitializeAsync 9 (Some (inr mt_vga))] in
  let p1 := OnShutdown p in
  GetMFExtension p1 = (MF_E_NOT_INITIALIZED, None) /\
  Forall (fun hr => hr = Code MF_E_SHUTDOWN) (proxy_results calls p1) /\
  proxy_run calls p1 = p1.
Proof.
  apply (proxy_after_OnShutdown
           [CallInitializeAsync 9 None; CallOnShutdown;
            CallInitializeAsync 9 (Some (inr mt_vga))]
           (mkProxy false (Some new_world))).
  reflexivity.
Defined.

(** ** The stream as its media sink drives it *)

Lemma never_paused_set_stream (w : MediaSinkWorld) (ms : MediaSink) :
  (forall s : Sink, _spStreamSink ms = Some s ->
     _state s <> State_Paused /\
     Forall (fun op => op <> OpPause /\ op <> OpRestart) (workItems s)) ->
  never_paused (set_the_sink ms w).
Proof. intros H s Hs. by apply H. Qed.

Lemma never_paused_step (a : Action) (s : Sink) :
  is_interface_call a = true \/ a = DoStop \/ a = DoShutdown
  \/ (exists start, a = DoStart start) ->
  _state s <> State_Paused ->
  Forall (fun op => op <> OpPause /\ op <> OpRestart) (workItems s) ->
  _state (step a s) <> State_Paused /\
  Forall (fun op => op <> OpPause /\ op <> OpRestart) (workItems (step a s)).
Proof.
  intros Ha H1 H2.
  assert (forall op, op <> OpPause -> op <> OpRestart ->
    Forall (fun op => op <> OpPause /\ op <> OpRestart)
      (workItems s ++ [op])) as Hpush.
  { intros op Hp Hr. apply Forall_app. split; [done|].
    by apply Forall_singleton. }
  destruct (decide (a = DoWork)) as [->|Hwork].
  - unfold step. cbn [perform snd]. rewrite worker_step_closed_form.
    destruct (workItems s) as [|op rest] eqn:Hws; cbn [from_option id].
    + by rewrite Hws.
    + destruct (work_result_frame op (set_workItems rest s))
        as (-> & _ & _ & _ & ->).
      apply Forall_cons in H2 as [_ H2]. done.
  - rewrite step_closed_form by done.
    destruct a as [[mt|]|start| | | |[smp|]| | |]; cbn [call_result];
      try done.
    + unfold SetCurrentMediaType_result.
      destruct (_isShutdown s); [done|].
      destruct (_ && _); [done|].
      destruct (MF_MT_SUBTYPE mt); [|done].
      destruct (_state s) eqn:Hst; cbn [snd];
        (split; [cbn; by rewrite ?Hst
                |first [done | by apply (Hpush OpSetMediaType)]]).
    + destruct (matrix_entry (_state s) OpStart); [|done].
      split; [by case_decide|]. case_decide; by apply (Hpush OpStart).
    + destruct Ha as [Ha|[Ha|[Ha|[? Ha]]]]; done.
    + destruct Ha as [Ha|[Ha|[Ha|[? Ha]]]]; done.
    + destruct (matrix_entry (_state s) OpStop); [|done].
      split; [done|]. by apply (Hpush OpStop).
    + rewrite ProcessSample_closed_form.
      destruct (_isShutdown s); [done|].
      destruct (_state s) eqn:Hst; cbn [snd];
        (split; [cbn; by rewrite ?Hst
                |first [done | by apply (Hpush OpProcessSample)]]).
    + destruct (_isShutdown s); [done|].
      by unfold drain_result, drain_from.
    + by destruct (_isShutdown s).
Qed.

Lemma AddStreamSink_stream (id : nat) (p : option MediaType)
    (ms : MediaSink) :
  _spStreamSink (snd (AddStreamSink id p ms)) = _spStreamSink ms \/
  exists st : Sink,
    _spStreamSink (snd (AddStreamSink id p ms)) = Some st /\
    _state st <> State_Paused /\ workItems st = [].
Proof.
  assert (forall (hr : HRESULT) (sd : bool) (st : option Sink) (t0 : MFTIME),
    let r :=
      let '(hr, pStream) :=
        match p with
        | Some mt => SetCurrentMediaType (Some mt) new_sink
        | None => (hr, new_sink)
        end in
      if SUCCEEDED hr
      then (hr, mkMediaSink sd (Some pStream) t0)
      else (hr, mkMediaSink sd st t0) in
    _spStreamSink (snd r) = st \/
    exists st' : Sink,
      _spStreamSink (snd r) = Some st' /\
      _state st' <> State_Paused /\ workItems st' = []) as Hnew.
  { intros hr sd st t0. destruct p as [mt|]; cbn zeta.
    - rewrite SetCurrentMediaType_closed_form.
      unfold SetCurrentMediaType_result. simpl.
      destruct (MF_MT_SUBTYPE mt); simpl; [|by left].
      right. by eexists.
    - destruct (SUCCEEDED hr); simpl; [|by left]. right. by eexists. }
  destruct ms as [sd st t0]. unfold AddStreamSink, GetStreamSinkById.
  cbn [ms_isShutdown _spStreamSink _llStartTime].
  destruct sd; cbn [SUCCEEDED andb]; [apply Hnew|].
  destruct (bool_decide (id <> GetStreamId)); cbn [SUCCEEDED orb];
    [apply Hnew|].
  destruct (bool_decide (st = None)); cbn [SUCCEEDED]; [apply Hnew|].
  by left.
Qed.

Lemma never_paused_drive (d : Drive) (w w' : MediaSinkWorld) :
  is_driven d = true -> drive d w = Some w' ->
  never_paused w -> never_paused w'.
Proof.
  intros Hd Hdrive Hinv.
  destruct d as [c|a]; cbn [drive] in Hdrive.
  - destruct c as [id p|id|p hrR hrA|t off|t|t|t|t|];
      cbn [media_sink_call] in Hdrive.
    + injection Hdrive as <-. apply never_paused_set_stream.
      intros s Hs.
      destruct (AddStreamSink_stream id p (the_sink w)) as [E|E].
      * apply Hinv. by rewrite <- E.
      * rewrite Hs in E. destruct E as (st & [= <-] & E1 & E2).
        split; [done|]. by rewrite E2.
    + injection Hdrive as <-. apply never_paused_set_stream.
      unfold RemoveStreamSink.
      destruct (_spStreamSink (the_sink w)) as [s0|] eqn:Hs0;
        [|intros s Hs; by apply Hinv].
      destruct (SUCCEEDED _); [|intros s Hs; by apply Hinv].
      intros s [= <-]. apply (never_paused_step DoShutdown); [by auto| |];
        by apply (Hinv s0).
    + injection Hdrive as <-. intros s Hs. apply Hinv. rewrite <- Hs.
      unfold SetPresentationClock.
      destruct (ms_isShutdown (the_sink w)); cbn [SUCCEEDED]; [done|].
      destruct (_spClock w) as [c0|], p as [c'|]; cbn [SUCCEEDED];
        repeat (match goal with
                | |- context [SUCCEEDED ?hr] => destruct (SUCCEEDED hr)
                end; cbn [SUCCEEDED fst snd]); done.
    + unfold OnClockStart in Hdrive.
      destruct (SUCCEEDED _); cbn [option_map] in Hdrive;
        [|injection Hdrive as <-; intros s Hs; by apply Hinv].
      destruct (_spStreamSink (the_sink w)) as [s0|] eqn:Hs0; [|done].
      injection Hdrive as <-. apply never_paused_set_stream.
      intros s [= <-]. apply (never_paused_step (DoStart off));
        [by eauto| |]; by apply (Hinv s0).
    + unfold OnClockStop in Hdrive.
      destruct (SUCCEEDED _); cbn [option_map] in Hdrive;
        [|injection Hdrive as <-; intros s Hs; by apply Hinv].
      destruct (_spStreamSink (the_sink w)) as [s0|] eqn:Hs0; [|done].
      injection Hdrive as <-. apply never_paused_set_stream.
      intros s [= <-]. apply (never_paused_step DoStop);
        [by auto| |]; by apply (Hinv s0).
    + injection Hdrive as <-. intros s Hs. by apply Hinv.
    + injection Hdrive as <-. intros s Hs. by apply Hinv.
    + injection Hdrive as <-. intros s Hs. by apply Hinv.
    + unfold MediaSink_Shutdown in Hdrive.
      destruct (SUCCEEDED _); cbn [option_map] in Hdrive;
        [|by injection Hdrive as <-].
      destruct (_spStreamSink (the_sink w)) as [s0|] eqn:Hs0; [|done].
      injection Hdrive as <-. intros s [= <-].
      apply (never_paused_step DoShutdown); [by auto| |];
        by apply (Hinv s0).
  - injection Hdrive as <-. unfold on_stream. intros s. cbn [the_sink
      _spStreamSink].
    destruct (_spStreamSink (the_sink w)) as [s0|] eqn:Hs0; [|done].
    cbn [option_map]. intros [= <-].
    apply never_paused_step; [by left| |]; by apply (Hinv s0).
Qed.

(** X26: a media sink never pauses its stream.  OnClockPause and
    OnClockRestart are refused and nothing else calls the stream's Pause
    or Restart, so, whatever is called on a media sink as constructed
    and, through its interfaces, on the stream it owns, and whenever the
    worker runs, the stream is never in state Paused; [ProcessSample],
    when accepted, therefore always schedules a dispatch, and the branch
    that buffers samples without one is never taken. *)
Theorem media_sink_never_pauses_its_stream (ds : list Drive)
    (w : MediaSinkWorld) (s : Sink) :
  forallb is_driven ds = true ->
  drive_run ds new_world = Some w ->
  _spStreamSink (the_sink w) = Some s ->
  _state s <> State_Paused /\
  Forall (fun op => op <> OpPause /\ op <> OpRestart) (workItems s) /\
  forall smp : Sample,
    fst (ProcessSample (Some smp) s) = S_OK ->
    workItems (snd (ProcessSample (Some smp) s))
    = workItems s ++ [OpProcessSample].
Proof.
  intros Hds Hrun Hs.
  assert (never_paused w) as Hinv.
  { assert (never_paused new_world) as Hnew by done.
    revert Hnew Hds Hrun. clear Hs. generalize new_world.
    induction ds as [|d ds IH]; intros w0 Hw0 Hds Hrun.
    - by injection Hrun as <-.
    - simpl in Hds. apply andb_true_iff in Hds as [Hd Hds].
      cbn [drive_run] in Hrun.
      destruct (drive d w0) as [w1|] eqn:Hd1; [|done].
      apply (IH w1); [|done|done]. by apply (never_paused_drive d w0). }
  destruct (Hinv s Hs) as [H1 H2]. repeat split; try done.
  intros smp. rewrite ProcessSample_closed_form.
  destruct (_isShutdown s); [done|]. by destruct (_state s).
Qed.

Lemma media_sink_never_pauses_its_stream_witness :
  let s := run [DoSetCurrentMediaType (Some mt_vga); DoStart 0; DoWork;
                DoProcessSample (Some P1)] new_sink in
  _state s <> State_Paused /\
  Forall (fun op => op <> OpPause /\ op <> OpRestart) (workItems s) /\
  forall smp : Sample,
    fst (ProcessSample (Some smp) s) = S_OK ->
    workItems (snd (ProcessSample (Some smp) s))
    = workItems s ++ [OpProcessSample].
Proof.
  apply (media_sink_never_pauses_its_stream
           [ByMediaSink (CallAddStreamSink 0 (Some mt_vga));
            ByMediaSink (CallOnClockStart 0 0); ByStream DoWork;
            ByMediaSink (CallOnClockPause 1);
            ByStream (DoProcessSample (Some P1))]
           (mkMediaSinkWorld
              (mkMediaSink false
                 (Some (run [DoSetCurrentMediaType (Some mt_vga); DoStart 0;
                             DoWork; DoProcessSample (Some P1)] new_sink)) 0)
              None [] None [])); vm_compute; reflexivity.
Defined.
